(** * SEO agent: observation store, ingestion engine and threat classifier

    A shallow embedding of [core/database.py], [core/data_collector.py] and
    [core/threat_detector.py].

    Conventions of the embedding.
    - A Python [str] is a Rocq [string] holding the UTF-8 bytes of the text.
      Byte-wise comparison of UTF-8 agrees with Python's code point order,
      and [json.dumps(..., ensure_ascii=False)] followed by
      [.encode('utf-8')] acts on the bytes exactly as modelled here (bytes
      above 0x7f pass through unchanged).
    - Dates and times are the ISO strings the code hands to SQLite
      ([date_str], [time_str]).
    - A table is the list of its rows in rowid order; [fetchone()] of an
      unordered SELECT is the first matching row.
    - A new row gets the id [1 + max] of the ids in its table.
    - [avg_position] is a Python float in the code; the model keeps the exact
      rational. *)

From Stdlib Require Import String Ascii ZArith QArith Lia Bool List.
From Stdlib Require Import DecimalString Permutation Sorted Qfield.
Import ListNotations.
Local Open Scope string_scope.
Local Open Scope list_scope.
Local Open Scope Z_scope.

(** ** Python primitives used by the code *)
Module Py.

(** [x or d] on an optional value whose falsy inhabitant is [d]. *)
Definition or_else {A : Type} (x : option A) (d : A) : A :=
  match x with Some v => v | None => d end.

(** [l[:n]] for a Python int [n], negative [n] counting from the end. *)
Definition slice_to {A : Type} (n : Z) (l : list A) : list A :=
  if 0 <=? n then firstn (Z.to_nat n) l
  else firstn (Z.to_nat (Z.of_nat (length l) + n)) l.

(** [s.replace(old, new)] for a non-empty [old]: non-overlapping matches,
    scanned from the left.  [skip] counts the characters of the current
    match that are still to be dropped. *)
Fixpoint replace_from (old new : string) (skip : nat) (s : string) : string :=
  match s with
  | EmptyString => EmptyString
  | String c rest =>
      match skip with
      | S k => replace_from old new k rest
      | O =>
          if String.prefix old s
          then String.append new (replace_from old new (Nat.pred (String.length old)) rest)
          else String c (replace_from old new O rest)
      end
  end.

Definition replace (old new s : string) : string := replace_from old new O s.

Fixpoint lstrip (ch : ascii) (s : string) : string :=
  match s with
  | EmptyString => EmptyString
  | String c rest => if Ascii.eqb c ch then lstrip ch rest else s
  end.

Fixpoint rstrip (ch : ascii) (s : string) : string :=
  match s with
  | EmptyString => EmptyString
  | String c rest =>
      match rstrip ch rest with
      | EmptyString => if Ascii.eqb c ch then EmptyString else String c EmptyString
      | r => String c r
      end
  end.

(** [s.strip(ch)] for a one-character argument. *)
Definition strip (ch : ascii) (s : string) : string := rstrip ch (lstrip ch s).

(** Comparison of [str] values: lexicographic on code points. *)
Definition str_ltb (a b : string) : bool :=
  match String.compare a b with Lt => true | _ => false end.

(** [sorted(l, key=...)] is stable; [lt x y] is [key(x) < key(y)].  An
    element is placed before the first later one whose key is not smaller. *)
Fixpoint insert_sorted {A : Type} (lt : A -> A -> bool) (x : A) (l : list A)
    : list A :=
  match l with
  | [] => [x]
  | y :: ys => if lt y x then y :: insert_sorted lt x ys else x :: l
  end.

Fixpoint sorted {A : Type} (lt : A -> A -> bool) (l : list A) : list A :=
  match l with
  | [] => []
  | x :: xs => insert_sorted lt x (sorted lt xs)
  end.

(** [l[-n:]] for a positive [n]. *)
Definition last_n {A : Type} (n : nat) (l : list A) : list A :=
  skipn (length l - n)%nat l.

(** [', '.join(l)] *)
Fixpoint join (sep : string) (l : list string) : string :=
  match l with
  | [] => EmptyString
  | [x] => x
  | x :: rest => String.append x (String.append sep (join sep rest))
  end.

(** [str(n)] for an int. *)
Definition str_of_int (n : Z) : string := NilZero.string_of_int (Z.to_int n).

End Py.

(** ** [hashlib.md5(...).hexdigest()] (RFC 1321) *)
Module MD5.

Definition add32 (a b : Z) : Z := (a + b) mod 2 ^ 32.

Definition not32 (a : Z) : Z := Z.lxor a 0xFFFFFFFF.

Definition rotl32 (x n : Z) : Z :=
  Z.lor (Z.shiftl x n mod 2 ^ 32) (Z.shiftr x (32 - n)).

Definition K : list Z :=
  [ 0xd76aa478; 0xe8c7b756; 0x242070db; 0xc1bdceee;
    0xf57c0faf; 0x4787c62a; 0xa8304613; 0xfd469501;
    0x698098d8; 0x8b44f7af; 0xffff5bb1; 0x895cd7be;
    0x6b901122; 0xfd987193; 0xa679438e; 0x49b40821;
    0xf61e2562; 0xc040b340; 0x265e5a51; 0xe9b6c7aa;
    0xd62f105d; 0x02441453; 0xd8a1e681; 0xe7d3fbc8;
    0x21e1cde6; 0xc33707d6; 0xf4d50d87; 0x455a14ed;
    0xa9e3e905; 0xfcefa3f8; 0x676f02d9; 0x8d2a4c8a;
    0xfffa3942; 0x8771f681; 0x6d9d6122; 0xfde5380c;
    0xa4beea44; 0x4bdecfa9; 0xf6bb4b60; 0xbebfbc70;
    0x289b7ec6; 0xeaa127fa; 0xd4ef3085; 0x04881d05;
    0xd9d4d039; 0xe6db99e5; 0x1fa27cf8; 0xc4ac5665;
    0xf4292244; 0x432aff97; 0xab9423a7; 0xfc93a039;
    0x655b59c3; 0x8f0ccc92; 0xffeff47d; 0x85845dd1;
    0x6fa87e4f; 0xfe2ce6e0; 0xa3014314; 0x4e0811a1;
    0xf7537e82; 0xbd3af235; 0x2ad7d2bb; 0xeb86d391 ].

Definition shifts : list Z :=
  [ 7; 12; 17; 22; 7; 12; 17; 22; 7; 12; 17; 22; 7; 12; 17; 22;
    5; 9; 14; 20; 5; 9; 14; 20; 5; 9; 14; 20; 5; 9; 14; 20;
    4; 11; 16; 23; 4; 11; 16; 23; 4; 11; 16; 23; 4; 11; 16; 23;
    6; 10; 15; 21; 6; 10; 15; 21; 6; 10; 15; 21; 6; 10; 15; 21 ].

Definition bytes_of_string (s : string) : list Z :=
  map (fun c => Z.of_N (N_of_ascii c)) (list_ascii_of_string s).

(** [n] as [k] little-endian bytes. *)
Fixpoint le_bytes (k : nat) (n : Z) : list Z :=
  match k with
  | O => []
  | S k' => (n mod 256) :: le_bytes k' (n / 256)
  end.

(** The message followed by 0x80, zeros up to 56 modulo 64, and the bit
    length on 8 bytes. *)
Definition pad (msg : list Z) : list Z :=
  let len := Z.of_nat (length msg) in
  let zeros := Z.to_nat ((55 - len) mod 64) in
  msg ++ [0x80] ++ repeat 0 zeros ++ le_bytes 8 ((8 * len) mod 2 ^ 64).

Fixpoint words_of_bytes (n : nat) (bs : list Z) : list Z :=
  match n with
  | O => []
  | S n' =>
      match bs with
      | b0 :: b1 :: b2 :: b3 :: rest =>
          (b0 + 256 * b1 + 65536 * b2 + 16777216 * b3) :: words_of_bytes n' rest
      | _ => []
      end
  end.

Definition round_step (M : list Z) (st : Z * Z * Z * Z) (i : nat)
  : Z * Z * Z * Z :=
  let '(a, b, c, d) := st in
  let iz := Z.of_nat i in
  let '(f, g) :=
    if iz <? 16 then (Z.lor (Z.land b c) (Z.land (not32 b) d), iz)
    else if iz <? 32 then (Z.lor (Z.land d b) (Z.land (not32 d) c), (5 * iz + 1) mod 16)
    else if iz <? 48 then (Z.lxor (Z.lxor b c) d, (3 * iz + 5) mod 16)
    else (Z.lxor c (Z.lor b (not32 d)), (7 * iz) mod 16) in
  let f' := add32 (add32 (add32 f a) (nth i K 0)) (nth (Z.to_nat g) M 0) in
  (d, add32 b (rotl32 f' (nth i shifts 0)), b, c).

Definition process_block (st : Z * Z * Z * Z) (M : list Z) : Z * Z * Z * Z :=
  let '(a0, b0, c0, d0) := st in
  let '(a, b, c, d) := fold_left (round_step M) (seq 0 64) st in
  (add32 a0 a, add32 b0 b, add32 c0 c, add32 d0 d).

Fixpoint process_blocks (n : nat) (st : Z * Z * Z * Z) (bs : list Z)
  : Z * Z * Z * Z :=
  match n with
  | O => st
  | S n' =>
      process_blocks n' (process_block st (words_of_bytes 16 bs)) (skipn 64 bs)
  end.

Definition init_state : Z * Z * Z * Z :=
  (0x67452301, 0xefcdab89, 0x98badcfe, 0x10325476).

Definition hex_digit (n : Z) : ascii :=
  nth (Z.to_nat n) (list_ascii_of_string "0123456789abcdef") "0"%char.

Definition hex_byte (b : Z) : string :=
  String (hex_digit (b / 16)) (String (hex_digit (b mod 16)) EmptyString).

Definition hex_bytes (bs : list Z) : string :=
  fold_right (fun b acc => String.append (hex_byte b) acc) EmptyString bs.

Definition hexdigest (s : string) : string :=
  let bs := pad (bytes_of_string s) in
  let '(a, b, c, d) := process_blocks (length bs / 64)%nat init_state bs in
  hex_bytes (le_bytes 4 a ++ le_bytes 4 b ++ le_bytes 4 c ++ le_bytes 4 d).

End MD5.

(** ** [json.dumps(top_10, ensure_ascii=False)] *)
Module Json.

(** A competitor entry as [RealPositionParser.get_yandex_position] builds it:
    the keys 'position', 'domain', 'url', 'title', 'snippet', in that order.
    A field is [None] where the dict holds Python's [None]. *)
Record competitor := mk_competitor {
  c_position : option Z;
  c_domain : option string;
  c_url : option string;
  c_title : option string;
  c_snippet : option string
}.

Definition hex4 (n : Z) : string :=
  String.append "\u00" (MD5.hex_byte n).

(** One character of a JSON string: the escapes of [json.encoder.ESCAPE_DCT];
    everything from 0x20 on other than the quote and the backslash is kept. *)
Definition escape_char (c : ascii) : string :=
  let n := Z.of_N (N_of_ascii c) in
  if n =? 34 then String.append "\" (String c EmptyString)
  else if n =? 92 then "\\"
  else if n =? 10 then "\n"
  else if n =? 13 then "\r"
  else if n =? 9 then "\t"
  else if n =? 8 then "\b"
  else if n =? 12 then "\f"
  else if n <? 32 then hex4 n
  else String c EmptyString.

Fixpoint escape (s : string) : string :=
  match s with
  | EmptyString => EmptyString
  | String c rest => String.append (escape_char c) (escape rest)
  end.

Definition quote : string := String (ascii_of_nat 34) EmptyString.

Definition dumps_str (s : string) : string :=
  String.append quote (String.append (escape s) quote).

Definition dumps_opt_str (v : option string) : string :=
  match v with Some s => dumps_str s | None => "null" end.

Definition dumps_opt_int (v : option Z) : string :=
  match v with Some n => Py.str_of_int n | None => "null" end.

Definition member (key value : string) : string :=
  String.append (dumps_str key) (String.append ": " value).

Definition dumps_competitor (c : competitor) : string :=
  String.append "{"
    (String.append
       (Py.join ", "
          [ member "position" (dumps_opt_int (c_position c));
            member "domain" (dumps_opt_str (c_domain c));
            member "url" (dumps_opt_str (c_url c));
            member "title" (dumps_opt_str (c_title c));
            member "snippet" (dumps_opt_str (c_snippet c)) ])
       "}").

Definition dumps (top_10 : list competitor) : string :=
  String.append "[" (String.append (Py.join ", " (map dumps_competitor top_10)) "]").

End Json.

(** ** [core/database.py]: class [SEODatabase] *)
Module Database.
Import Json.

Definition date_str := string.
Definition time_str := string.

Record project_row := mk_project {
  pr_id : Z; pr_name : string; pr_domain : string
}.

Record keyword_row := mk_keyword {
  kw_id : Z; kw_project_id : Z; kw_keyword : string; kw_is_active : bool
}.

Inductive session_status := running | completed | failed.

(** [start_time] is kept as the date and the time that
    [datetime.fromisoformat(...)] splits it into. *)
Record session_row := mk_session {
  ms_session_id : Z;
  ms_project_id : Z;
  ms_session_name : option string;
  ms_start_date : date_str;
  ms_start_time : time_str;
  ms_end_time : option (date_str * time_str);
  ms_status : session_status;
  ms_total_keywords : option Z;
  ms_completed_keywords : option Z
}.

Record position_row := mk_position {
  po_id : Z;
  po_project_id : Z;
  po_keyword_id : Z;
  po_session_id : option Z;
  po_check_date : date_str;
  po_check_time : time_str;
  po_position : option Z;
  po_url : option string;
  po_total_results : Z;
  po_search_engine : string
}.

(** The columns url, title and snippet of [competitors] are payload that no
    statement of the code reads back; they are left out. *)
Record competitor_row := mk_competitor_row {
  co_id : Z;
  co_project_id : Z;
  co_keyword_id : Z;
  co_session_id : option Z;
  co_check_date : date_str;
  co_check_time : time_str;
  co_competitor_domain : string;
  co_competitor_position : Z
}.

Record domain_row := mk_domain {
  dm_id : Z;
  dm_domain : string;
  dm_first_seen : date_str;
  dm_last_seen : date_str;
  dm_total_appearances : Z;
  dm_avg_position : option Q
}.

Record snapshot_row := mk_snapshot {
  sn_id : Z;
  sn_project_id : Z;
  sn_keyword_id : Z;
  sn_snapshot_date : date_str;
  sn_top_10_json : string;
  sn_previous_top_10_hash : option string;
  sn_has_changes : bool
}.

Record db := mk_db {
  projects : list project_row;
  keywords : list keyword_row;
  monitoring_sessions : list session_row;
  positions : list position_row;
  competitors : list competitor_row;
  domains : list domain_row;
  snapshots : list snapshot_row
}.

Definition empty_db : db := mk_db [] [] [] [] [] [] [].

Definition set_projects (s : db) (v : list project_row) : db :=
  mk_db v (keywords s) (monitoring_sessions s) (positions s) (competitors s)
    (domains s) (snapshots s).
Definition set_keywords (s : db) (v : list keyword_row) : db :=
  mk_db (projects s) v (monitoring_sessions s) (positions s) (competitors s)
    (domains s) (snapshots s).
Definition set_monitoring_sessions (s : db) (v : list session_row) : db :=
  mk_db (projects s) (keywords s) v (positions s) (competitors s)
    (domains s) (snapshots s).
Definition set_positions (s : db) (v : list position_row) : db :=
  mk_db (projects s) (keywords s) (monitoring_sessions s) v (competitors s)
    (domains s) (snapshots s).
Definition set_competitors_domains (s : db) (v : list competitor_row)
    (d : list domain_row) : db :=
  mk_db (projects s) (keywords s) (monitoring_sessions s) (positions s) v
    d (snapshots s).
Definition set_snapshots (s : db) (v : list snapshot_row) : db :=
  mk_db (projects s) (keywords s) (monitoring_sessions s) (positions s)
    (competitors s) (domains s) v.

(** The id SQLite gives a row inserted into a table holding [ids]. *)
Definition next_id (ids : list Z) : Z := 1 + fold_right Z.max 0 ids.

(** [UPDATE ... WHERE id = ?] *)
Definition update_where {A : Type} (id_of : A -> Z) (id : Z) (f : A -> A)
    (rows : list A) : list A :=
  map (fun r => if id_of r =? id then f r else r) rows.

(** *** Projects and keywords *)

Definition get_or_create_project (s : db) (name domain : string) : db * Z :=
  match find (fun r => String.eqb (pr_domain r) domain) (projects s) with
  | Some row =>
      let project_id := pr_id row in
      (set_projects s
         (update_where pr_id project_id
            (fun r => mk_project (pr_id r) name (pr_domain r)) (projects s)),
       project_id)
  | None =>
      let project_id := next_id (map pr_id (projects s)) in
      (set_projects s (projects s ++ [mk_project project_id name domain]),
       project_id)
  end.

Definition get_or_create_keyword (s : db) (project_id : Z) (keyword : string)
    : db * Z :=
  match find (fun r => (kw_project_id r =? project_id)
                       && String.eqb (kw_keyword r) keyword) (keywords s) with
  | Some row =>
      let keyword_id := kw_id row in
      (set_keywords s
         (update_where kw_id keyword_id
            (fun r => mk_keyword (kw_id r) (kw_project_id r) (kw_keyword r) true)
            (keywords s)),
       keyword_id)
  | None =>
      let keyword_id := next_id (map kw_id (keywords s)) in
      (set_keywords s
         (keywords s ++ [mk_keyword keyword_id project_id keyword true]),
       keyword_id)
  end.

(** *** Monitoring sessions.  [now] is the value of CURRENT_TIMESTAMP. *)

Definition create_monitoring_session (s : db) (now : date_str * time_str)
    (project_id : Z) (session_name : option string) : db * Z :=
  let session_id := next_id (map ms_session_id (monitoring_sessions s)) in
  (set_monitoring_sessions s
     (monitoring_sessions s ++
      [mk_session session_id project_id session_name (fst now) (snd now)
         None running None None]),
   session_id).

Definition complete_monitoring_session (s : db) (now : date_str * time_str)
    (session_id : Z) (total_keywords completed_keywords : option Z) : db :=
  set_monitoring_sessions s
    (update_where ms_session_id session_id
       (fun r =>
          mk_session (ms_session_id r) (ms_project_id r) (ms_session_name r)
            (ms_start_date r) (ms_start_time r) (Some now) completed
            (match total_keywords with
             | Some n => Some n | None => ms_total_keywords r end)
            (match completed_keywords with
             | Some n => Some n | None => ms_completed_keywords r end))
       (monitoring_sessions s)).

(** [error_message[:100]] is taken on bytes, which is the code's slice for
    the ASCII messages the interpreter's exceptions carry. *)
Definition fail_monitoring_session (s : db) (now : date_str * time_str)
    (session_id : Z) (error_message : option string) : db :=
  set_monitoring_sessions s
    (update_where ms_session_id session_id
       (fun r =>
          mk_session (ms_session_id r) (ms_project_id r)
            (match error_message with
             | Some (String c m) =>
                 Some (String.append "FAILED: " (String.substring 0 100 (String c m)))
             | _ => ms_session_name r
             end)
            (ms_start_date r) (ms_start_time r) (Some now) failed
            (ms_total_keywords r) (ms_completed_keywords r))
       (monitoring_sessions s)).

(** *** Positions *)

Definition position_key_eqb (project_id keyword_id : Z) (date : date_str)
    (search_engine : string) (r : position_row) : bool :=
  (po_project_id r =? project_id) && (po_keyword_id r =? keyword_id)
  && String.eqb (po_check_date r) date
  && String.eqb (po_search_engine r) search_engine.

(** SQL's [COALESCE(?, session_id)] *)
Definition coalesce {A : Type} (new old : option A) : option A :=
  match new with Some v => Some v | None => old end.

Definition save_position (s : db) (project_id keyword_id : Z)
    (check_date : date_str) (check_time : time_str)
    (position : option Z) (url : option string) (total_results : Z)
    (search_engine : string) (session_id : option Z) : db * Z :=
  match find (position_key_eqb project_id keyword_id check_date search_engine)
             (positions s) with
  | Some row =>
      (set_positions s
         (update_where po_id (po_id row)
            (fun r =>
               mk_position (po_id r) (po_project_id r) (po_keyword_id r)
                 (coalesce session_id (po_session_id r))
                 (po_check_date r) check_time position url total_results
                 (po_search_engine r))
            (positions s)),
       po_id row)
  | None =>
      let position_id := next_id (map po_id (positions s)) in
      (set_positions s
         (positions s ++
          [mk_position position_id project_id keyword_id session_id
             check_date check_time position url total_results search_engine]),
       position_id)
  end.

(** *** Competitors and the domain reference *)

(** What one connection of [save_competitors] sees and changes;
    [cn_total_changes] is [conn.total_changes], the number of rows changed
    since the connection was opened. *)
Record conn := mk_conn {
  cn_competitors : list competitor_row;
  cn_domains : list domain_row;
  cn_total_changes : Z
}.

Definition competitor_key_eqb (project_id keyword_id : Z) (date : date_str)
    (time : time_str) (domain : string) (position : Z) (r : competitor_row)
    : bool :=
  (co_project_id r =? project_id) && (co_keyword_id r =? keyword_id)
  && String.eqb (co_check_date r) date && String.eqb (co_check_time r) time
  && String.eqb (co_competitor_domain r) domain
  && (co_competitor_position r =? position).

(** [INSERT OR IGNORE INTO competitors]: the row is skipped when it breaks
    the CHECK on the position or the UNIQUE key of the table. *)
Definition insert_or_ignore_competitor (c : conn) (project_id keyword_id : Z)
    (session_id : option Z) (date : date_str) (time : time_str)
    (domain : string) (position : Z) : conn :=
  if (1 <=? position) && (position <=? 100)
     && negb (existsb (competitor_key_eqb project_id keyword_id date time
                         domain position) (cn_competitors c))
  then
    mk_conn
      (cn_competitors c ++
       [mk_competitor_row (next_id (map co_id (cn_competitors c))) project_id
          keyword_id session_id date time domain position])
      (cn_domains c) (cn_total_changes c + 1)
  else c.

Definition _update_domain_reference (c : conn) (domain : string)
    (seen_date : date_str) (position : Z) : conn :=
  if String.eqb domain EmptyString then c
  else
    match find (fun r => String.eqb (dm_domain r) domain) (cn_domains c) with
    | Some row =>
        let total_appearances := dm_total_appearances row in
        let new_total := total_appearances + 1 in
        let new_avg :=
          match dm_avg_position row with
          | None => inject_Z position
          | Some avg_position =>
              ((avg_position * inject_Z total_appearances + inject_Z position)
               / inject_Z new_total)%Q
          end in
        mk_conn (cn_competitors c)
          (update_where dm_id (dm_id row)
             (fun r =>
                mk_domain (dm_id r) (dm_domain r) (dm_first_seen r) seen_date
                  new_total (Some new_avg))
             (cn_domains c))
          (cn_total_changes c + 1)
    | None =>
        mk_conn (cn_competitors c)
          (cn_domains c ++
           [mk_domain (next_id (map dm_id (cn_domains c))) domain seen_date
              seen_date 1 (Some (inject_Z position))])
          (cn_total_changes c + 1)
    end.

(** The body of the [for comp in competitors] loop. *)
Definition save_competitor (project_id keyword_id : Z) (session_id : option Z)
    (date : date_str) (time : time_str) (c : conn) (comp : competitor) : conn :=
  let domain := Py.or_else (c_domain comp) EmptyString in
  let position := Py.or_else (c_position comp) 0 in
  if String.eqb domain EmptyString || (position =? 0) then c
  else
    let c1 := insert_or_ignore_competitor c project_id keyword_id session_id
                date time domain position in
    if 0 <? cn_total_changes c1
    then _update_domain_reference c1 domain date position
    else c1.

Definition save_competitors (s : db) (project_id keyword_id : Z)
    (check_date : date_str) (check_time : time_str)
    (comps : list competitor) (session_id : option Z) : db :=
  match comps with
  | [] => s
  | _ =>
      let c := fold_left
                 (save_competitor project_id keyword_id session_id check_date
                    check_time)
                 comps (mk_conn (competitors s) (domains s) 0) in
      set_competitors_domains s (cn_competitors c) (cn_domains c)
  end.

(** *** Snapshots *)

Inductive sqlite_error := IntegrityError | OperationalError.

Inductive outcome (A : Type) :=
| Returned (a : A)
| Raised (e : sqlite_error).
Arguments Returned {A} a.
Arguments Raised {A} e.

(** What the storage layer does to one call: the exception, if any, that the
    statements of the primary [with] block raise, and the one the fallback's
    block raises.  A block that raises is rolled back. *)
Record faults := mk_faults {
  main_fault : option sqlite_error;
  fallback_fault : option sqlite_error
}.

Definition no_faults : faults := mk_faults None None.

Definition snapshot_key_eqb (project_id keyword_id : Z) (date : date_str)
    (r : snapshot_row) : bool :=
  (sn_project_id r =? project_id) && (sn_keyword_id r =? keyword_id)
  && String.eqb (sn_snapshot_date r) date.

(** Modelled from the spec: the declaration of the [snapshots] table, which
    is not in the sources; it has one row per
    (project_id, keyword_id, snapshot_date), so [INSERT OR REPLACE] deletes
    the rows with the new row's key before it inserts. *)
Definition insert_or_replace_snapshot (rows : list snapshot_row)
    (project_id keyword_id : Z) (date : date_str) (top_10_json : string)
    (current_hash : string) : list snapshot_row :=
  filter (fun r => negb (snapshot_key_eqb project_id keyword_id date r)) rows
  ++ [mk_snapshot (next_id (map sn_id rows)) project_id keyword_id date
        top_10_json (Some current_hash) true].

Definition _force_update_snapshot (f : faults) (s : db)
    (project_id keyword_id : Z) (date : date_str) (top_10_json : string)
    (current_hash : string) : db * bool :=
  match fallback_fault f with
  | Some _ => (s, false)
  | None =>
      (set_snapshots s
         (insert_or_replace_snapshot (snapshots s) project_id keyword_id date
            top_10_json current_hash),
       true)
  end.

(** Python's truth value of the stored hash: NULL and the empty string are
    false. *)
Definition truthy_hash (h : option string) : bool :=
  match h with
  | Some (String _ _) => true
  | _ => false
  end.

Definition save_snapshot_if_changed (f : faults) (s : db)
    (project_id keyword_id : Z) (snapshot_date : date_str)
    (top_10 : list competitor) : db * outcome bool :=
  let top_10_json := Json.dumps top_10 in
  let current_hash := MD5.hexdigest top_10_json in
  match main_fault f with
  | Some IntegrityError =>
      let (s', r) := _force_update_snapshot f s project_id keyword_id
                       snapshot_date top_10_json current_hash in
      (s', Returned r)
  | Some e => (s, Raised e)
  | None =>
      match find (snapshot_key_eqb project_id keyword_id snapshot_date)
                 (snapshots s) with
      | Some existing =>
          let previous_hash := sn_previous_top_10_hash existing in
          let has_changes :=
            if truthy_hash previous_hash
            then negb (String.eqb current_hash (Py.or_else previous_hash EmptyString))
            else true in
          if has_changes then
            (set_snapshots s
               (update_where sn_id (sn_id existing)
                  (fun r =>
                     mk_snapshot (sn_id r) (sn_project_id r) (sn_keyword_id r)
                       (sn_snapshot_date r) top_10_json (Some current_hash) true)
                  (snapshots s)),
             Returned true)
          else
            (set_snapshots s
               (update_where sn_id (sn_id existing)
                  (fun r =>
                     mk_snapshot (sn_id r) (sn_project_id r) (sn_keyword_id r)
                       (sn_snapshot_date r) (sn_top_10_json r)
                       (sn_previous_top_10_hash r) false)
                  (snapshots s)),
             Returned false)
      | None =>
          (set_snapshots s
             (snapshots s ++
              [mk_snapshot (next_id (map sn_id (snapshots s))) project_id
                 keyword_id snapshot_date top_10_json (Some current_hash) true]),
           Returned true)
      end
  end.

End Database.

(** ** [core/data_collector.py]: class [DataCollector] *)
Module Collector.
Import Json Database.

(** An entry of [config['projects']]. *)
Record config_project := mk_config_project {
  cp_name : option string;
  cp_domain : option string
}.

(** What [_get_position_from_search] returns. *)
Record position_data := mk_position_data {
  pd_position : option Z;
  pd_url : option string;
  pd_total_results : Z;
  pd_method : string;
  pd_competitors : list competitor
}.

(** An entry of the list [check_positions] returns. *)
Record check_result := mk_result {
  cr_keyword : string;
  cr_position : option Z;
  cr_date : date_str;
  cr_time : time_str;
  cr_session_id : option Z;
  cr_search_engine : string;
  cr_url : option string;
  cr_total_results : Z;
  cr_method : string
}.

Inductive py_error := TypeError | NameError.

Inductive result (A : Type) :=
| Ok (a : A)
| Err (e : py_error).
Arguments Ok {A} a.
Arguments Err {A} e.

(** Everything outside the store that one batch reads: the loaded
    configuration, the wall clock at the [i]-th keyword, the answer of the
    file cache and of the position source at the [i]-th keyword, and the
    clock and texts used around a session.  The cache file written by
    [_save_to_cache] lives in this world, not in the store. *)
Record world := mk_world {
  w_config : list config_project;
  w_now : nat -> date_str * time_str;
  w_cache : nat -> string -> option check_result;
  w_search : nat -> string -> string -> string -> bool -> Z -> position_data;
  w_session_start : date_str * time_str;
  w_session_end : date_str * time_str;
  w_default_session_name : string;
  w_error_text : py_error -> string
}.

Definition clean_domain (domain : string) : string :=
  Py.strip "/"
    (Py.replace "https://" EmptyString (Py.replace "http://" EmptyString domain)).

Definition _find_project_by_domain (config : list config_project)
    (domain : string) : option config_project :=
  find (fun project =>
          String.eqb (clean_domain domain)
            (clean_domain (Py.or_else (cp_domain project) EmptyString)))
       config.

Definition _get_session_info (s : db) (session_id project_id : Z)
    : option session_row :=
  find (fun r => (ms_session_id r =? session_id)
                 && (ms_project_id r =? project_id))
       (monitoring_sessions s).

(** The local variables of [check_positions] that the loop changes;
    [ls_check] is [(check_date, check_time)], unbound before its first
    assignment. *)
Record loop_state := mk_loop {
  ls_db : db;
  ls_results : list check_result;
  ls_all_competitors : list competitor;
  ls_keyword_id : option Z;
  ls_check : option (date_str * time_str)
}.

Definition cache_key (search_engine domain keyword : string) : string :=
  String.append search_engine
    (String.append "_" (String.append domain (String.append "_" keyword))).

(** One iteration of [for i, keyword in enumerate(keywords)].  [session] is
    the session in force with its start time, when there is one.  The store
    calls of the loop are taken on a working store, so the [except] branch of
    the loop, which records an error entry for the keyword and goes on, is
    not entered; [time.sleep] changes nothing here. *)
Definition check_keyword (w : world) (domain search_engine : string)
    (use_cache track_competitors : bool) (competitors_limit : Z)
    (project_id : Z) (session : option (Z * (date_str * time_str)))
    (st : loop_state) (ik : nat * string) : loop_state :=
  let (i, keyword) := ik in
  let session_id := option_map fst session in
  let check :=
    match session with
    | Some (_, start) => start
    | None => w_now w i
    end in
  let cached_result :=
    if use_cache then w_cache w i (cache_key search_engine domain keyword)
    else None in
  match cached_result with
  | Some cached =>
      let (s1, keyword_id) := get_or_create_keyword (ls_db st) project_id keyword in
      let (s2, _) :=
        save_position s1 project_id keyword_id (fst check) (snd check)
          (cr_position cached) (cr_url cached) (cr_total_results cached)
          search_engine session_id in
      mk_loop s2 (ls_results st ++ [cached]) (ls_all_competitors st)
        (Some keyword_id) (Some check)
  | None =>
      let position_data :=
        w_search w i domain keyword search_engine track_competitors
          competitors_limit in
      let (s1, keyword_id) := get_or_create_keyword (ls_db st) project_id keyword in
      let (s2, _) :=
        save_position s1 project_id keyword_id (fst check) (snd check)
          (pd_position position_data) (pd_url position_data)
          (pd_total_results position_data) search_engine session_id in
      let comps := pd_competitors position_data in
      let saved :=
        match comps with
        | _ :: _ =>
            if track_competitors then Py.slice_to competitors_limit comps
            else []
        | [] => []
        end in
      let s3 :=
        match comps with
        | _ :: _ =>
            if track_competitors
            then save_competitors s2 project_id keyword_id (fst check)
                   (snd check) saved session_id
            else s2
        | [] => s2
        end in
      mk_loop s3
        (ls_results st ++
         [mk_result keyword (pd_position position_data) (fst check) (snd check)
            session_id search_engine (pd_url position_data)
            (pd_total_results position_data) (pd_method position_data)])
        (ls_all_competitors st ++ saved) (Some keyword_id) (Some check)
  end.

(** [enumerate(l)] *)
Definition enumerate {A : Type} (l : list A) : list (nat * A) :=
  combine (seq 0 (length l)) l.

(** [sorted(all_competitors, key=lambda x: x.get('position', 101))]: the
    key of an entry is its position, [None] included, and comparing [None]
    raises TypeError; a list of two or more entries compares every key. *)
Definition position_ltb (x y : competitor) : bool :=
  Py.or_else (c_position x) 101 <? Py.or_else (c_position y) 101.

Definition sorted_by_position (l : list competitor)
    : result (list competitor) :=
  if (2 <=? length l)%nat
     && existsb (fun x => match c_position x with None => true | _ => false end) l
  then Err TypeError
  else Ok (Py.sorted position_ltb l).

(** The session block at the head of [check_positions]: an unknown session
    is dropped, a known one gives its id and start time.  The second read of
    the session would raise TypeError on [None]. *)
Definition resolve_session (s1 : db) (session_id : option Z) (project_id : Z)
    : result (option (Z * (date_str * time_str))) :=
  let session_id :=
    match session_id with
    | Some sid =>
        match _get_session_info s1 sid project_id with
        | Some _ => Some sid
        | None => None
        end
    | None => None
    end in
  match session_id with
  | Some sid =>
      match _get_session_info s1 sid project_id with
      | Some session_info =>
          Ok (Some (sid, (ms_start_date session_info,
                          ms_start_time session_info)))
      | None => Err TypeError
      end
  | None => Ok None
  end.

(** The block after the loop: the snapshot of the batch. *)
Definition snapshot_after_loop (st : loop_state) (track_competitors : bool)
    (project_id : Z) : db * result (list check_result) :=
  match ls_all_competitors st with
  | _ :: _ =>
      if track_competitors then
        match sorted_by_position (ls_all_competitors st) with
        | Err e => (ls_db st, Err e)
        | Ok sorted_competitors =>
            let top_10 := firstn 10 sorted_competitors in
            match ls_keyword_id st with
            | Some keyword_id =>
                if keyword_id =? 0 then (ls_db st, Ok (ls_results st))
                else
                  match ls_check st with
                  | None => (ls_db st, Err NameError)
                  | Some check =>
                      (fst (save_snapshot_if_changed no_faults (ls_db st)
                              project_id keyword_id (fst check) top_10),
                       Ok (ls_results st))
                  end
            | None => (ls_db st, Ok (ls_results st))
            end
        end
      else (ls_db st, Ok (ls_results st))
  | [] => (ls_db st, Ok (ls_results st))
  end.

Definition check_positions (w : world) (s : db) (domain : string)
    (keywords : list string) (session_id : option Z) (search_engine : string)
    (use_cache track_competitors : bool) (competitors_limit : Z)
    : db * result (list check_result) :=
  match _find_project_by_domain (w_config w) domain with
  | None => (s, Ok [])
  | Some project =>
      let project_name := Py.or_else (cp_name project) domain in
      let (s1, project_id) := get_or_create_project s project_name domain in
      match resolve_session s1 session_id project_id with
      | Err e => (s1, Err e)
      | Ok session =>
          snapshot_after_loop
            (fold_left
               (check_keyword w domain search_engine use_cache track_competitors
                  competitors_limit project_id session)
               (enumerate keywords)
               (mk_loop s1 [] [] None (option_map snd session)))
            track_competitors project_id
      end
  end.

Definition check_positions_with_session (w : world) (s : db) (domain : string)
    (keywords : list string) (session_name : option string)
    (search_engine : string) (use_cache track_competitors : bool)
    (competitors_limit : Z) : db * (list check_result * Z) :=
  match _find_project_by_domain (w_config w) domain with
  | None => (s, ([], -1))
  | Some project =>
      let project_name := Py.or_else (cp_name project) domain in
      let (s1, project_id) := get_or_create_project s project_name domain in
      let session_name :=
        match session_name with
        | Some (String c n) => String c n
        | _ => w_default_session_name w
        end in
      let (s2, session_id) :=
        create_monitoring_session s1 (w_session_start w) project_id
          (Some session_name) in
      match check_positions w s2 domain keywords (Some session_id)
              search_engine use_cache track_competitors competitors_limit with
      | (s3, Ok results) =>
          let successful_checks :=
            Z.of_nat (length (filter (fun r => match cr_position r with
                                               | Some _ => true
                                               | None => false end) results)) in
          (complete_monitoring_session s3 (w_session_end w) session_id
             (Some (Z.of_nat (length keywords))) (Some successful_checks),
           (results, session_id))
      | (s3, Err e) =>
          (fail_monitoring_session s3 (w_session_end w) session_id
             (Some (w_error_text w e)),
           ([], session_id))
      end
  end.

End Collector.

(** ** [core/threat_detector.py]: class [ThreatDetector] *)
Module Detector.

(** A row of [get_position_history]: the columns the detector reads. *)
Record history_record := mk_record {
  h_check_date : string;
  h_check_time : string;
  h_keyword : string;
  h_position : option Z
}.

(** A threat dict.  [th_from], [th_to] and [th_change] are
    'previous_position', 'current_position' and 'change' of a position drop,
    and 'old_position', 'new_position' and 'positions_lost' of a
    displacement; [th_dropped_from_top20] is false where the dict has no such
    key.  The clock reading 'detected_at' and the durations
    'timeframe_hours' and 'time_period_days' are left out: nothing reads
    them back. *)
Record threat := mk_threat {
  th_type : string;
  th_keyword : string;
  th_from : Z;
  th_to : Z;
  th_change : Z;
  th_threat_level : string;
  th_dropped_from_top20 : bool
}.

(** [self.thresholds], as [__init__] sets it. *)
Definition critical_drop : Z := 10.
Definition significant_drop : Z := 3.
Definition days_to_analyze : Z := 7.
Definition min_check_frequency : nat := 2.

(** [keyword_data[keyword].append(record)] on a [defaultdict(list)], whose
    keys stay in order of first insertion. *)
Fixpoint group_add (keyword : string) (r : history_record)
    (groups : list (string * list history_record))
    : list (string * list history_record) :=
  match groups with
  | [] => [(keyword, [r])]
  | (k, rs) :: rest =>
      if String.eqb k keyword then (k, rs ++ [r]) :: rest
      else (k, rs) :: group_add keyword r rest
  end.

Definition group_by_keyword (history : list history_record)
    : list (string * list history_record) :=
  fold_left (fun groups r => group_add (h_keyword r) r groups) history [].

(** [(x['check_date'], x['check_time']) < (y['check_date'], y['check_time'])] *)
Definition record_ltb (x y : history_record) : bool :=
  Py.str_ltb (h_check_date x) (h_check_date y)
  || (String.eqb (h_check_date x) (h_check_date y)
      && Py.str_ltb (h_check_time x) (h_check_time y)).

Definition sort_records (records : list history_record) : list history_record :=
  Py.sorted record_ltb records.

(** The body of the loop of [analyze_position_changes] for one keyword: the
    threats it appends. *)
Definition position_drop_of (keyword : string) (records : list history_record)
    : list threat :=
  let sorted_records := sort_records records in
  if (min_check_frequency <=? length sorted_records)%nat then
    match Py.last_n min_check_frequency sorted_records with
    | [previous; latest] =>
        match h_position latest, h_position previous with
        | Some latest_pos, Some previous_pos =>
            let change := latest_pos - previous_pos in
            if critical_drop <=? change then
              [mk_threat "position_drop" keyword previous_pos latest_pos change
                 "critical" false]
            else if significant_drop <=? change then
              [mk_threat "position_drop" keyword previous_pos latest_pos change
                 "warning" false]
            else []
        | _, _ => []
        end
    | _ => []
    end
  else [].

Definition analyze_position_changes (history : list history_record)
    : list threat :=
  match history with
  | [] => []
  | _ =>
      flat_map (fun kr => position_drop_of (fst kr) (snd kr))
        (group_by_keyword history)
  end.

Definition displacement_of (keyword : string) (records : list history_record)
    : list threat :=
  if (length records <? 2)%nat then []
  else
    let sorted_records := sort_records records in
    match hd_error sorted_records, hd_error (rev sorted_records) with
    | Some oldest, Some latest =>
        match h_position oldest, h_position latest with
        | Some oldest_pos, Some latest_pos =>
            if (oldest_pos <=? 20) && (20 <? latest_pos) then
              [mk_threat "displacement" keyword oldest_pos latest_pos
                 (latest_pos - oldest_pos)
                 (if 50 <? latest_pos then "critical" else "warning") true]
            else []
        | _, _ => []
        end
    | _, _ => []
    end.

Definition detect_displacements (history : list history_record) : list threat :=
  if (length history <? 2)%nat then []
  else
    flat_map (fun kr => displacement_of (fst kr) (snd kr))
      (group_by_keyword history).

Definition keywords_of (n : nat) (threats : list threat) : string :=
  Py.join ", " (map th_keyword (firstn n threats)).

Definition rec_critical (threats : list threat) : string :=
  String.append "Критическое падение по запросам: "
    (String.append (keywords_of 3 threats)
       ". Требуется немедленный анализ конкурентов.").

Definition rec_warning (threats : list threat) : string :=
  String.append "Значительное падение по запросам: "
    (String.append (keywords_of 5 threats)
       ". Рекомендуется анализ страниц-конкурентов.").

Definition rec_displacement (threats : list threat) : string :=
  String.append "Вытеснение из топ-20 по запросам: "
    (String.append (keywords_of 3 threats)
       ". Необходимо срочное улучшение контента.").

Definition rec_generic : string :=
  "Обнаружены изменения в позициях. Рекомендуется провести анализ конкурентов.".

Definition rec_continue_monitoring : string :=
  "Значительных угроз не обнаружено. Продолжайте мониторинг.".

Definition nonempty {A : Type} (l : list A) : bool :=
  match l with [] => false | _ => true end.

Definition generate_recommendations (threats : list threat) : list string :=
  let position_drops :=
    filter (fun t => String.eqb (th_type t) "position_drop") threats in
  let displacements :=
    filter (fun t => String.eqb (th_type t) "displacement") threats in
  let critical_drops :=
    filter (fun t => String.eqb (th_threat_level t) "critical") position_drops in
  let warning_drops :=
    filter (fun t => String.eqb (th_threat_level t) "warning") position_drops in
  let top20_displacements := filter th_dropped_from_top20 displacements in
  let recommendations :=
    (if nonempty critical_drops then [rec_critical critical_drops] else [])
    ++ (if nonempty warning_drops then [rec_warning warning_drops] else [])
    ++ (if nonempty top20_displacements
        then [rec_displacement top20_displacements] else []) in
  let recommendations :=
    if nonempty threats && negb (nonempty recommendations)
    then recommendations ++ [rec_generic] else recommendations in
  if negb (nonempty threats)
  then recommendations ++ [rec_continue_monitoring] else recommendations.

(** The keys 'threats' and 'recommendations' of the dict [analyze_project]
    returns.  [history7] and [history30] are what [get_position_history]
    answers for 7 and for 30 days.  [assess_overall_situation] fills
    'overall_status', 'trend' and 'metrics' only. *)
Record analysis := mk_analysis {
  an_threats : list threat;
  an_recommendations : list string
}.

Definition analyze_project (history7 history30 : list history_record)
    : analysis :=
  let threats := analyze_position_changes history7
                 ++ detect_displacements history30 in
  mk_analysis threats
    (if nonempty threats then generate_recommendations threats else []).

End Detector.

Import Json Database Collector Detector.

(** * Notions the properties are stated with *)

(** The position rows stored under one (project, keyword, date, search
    engine) key. *)
Definition rows_with_key (project_id keyword_id : Z) (date search_engine : string)
    (s : db) : list position_row :=
  filter (position_key_eqb project_id keyword_id date search_engine)
    (positions s).

(** The session recorded under the key, if a row is there. *)
Definition recorded_session (project_id keyword_id : Z)
    (date search_engine : string) (s : db) : option Z :=
  match find (position_key_eqb project_id keyword_id date search_engine)
             (positions s) with
  | Some r => po_session_id r
  | None => None
  end.

(** The observations of one keyword in a history, in the history's order. *)
Definition records_of (keyword : string) (history : list history_record)
    : list history_record :=
  filter (fun r => String.eqb (h_keyword r) keyword) history.

(** The threats emitted for one keyword. *)
Definition threats_of (keyword : string) (threats : list threat) : list threat :=
  filter (fun t => String.eqb (th_keyword t) keyword) threats.

(** [keyword_data.get(keyword)] *)
Fixpoint group_lookup (keyword : string)
    (groups : list (string * list history_record))
    : option (list history_record) :=
  match groups with
  | [] => None
  | (k, rs) :: rest =>
      if String.eqb k keyword then Some rs else group_lookup keyword rest
  end.

(** The classification the thresholds prescribe for a change of position. *)
Definition classify_drop (keyword : string) (previous_pos latest_pos : Z)
    : list threat :=
  let change := latest_pos - previous_pos in
  if 10 <=? change then
    [mk_threat "position_drop" keyword previous_pos latest_pos change
       "critical" false]
  else if 3 <=? change then
    [mk_threat "position_drop" keyword previous_pos latest_pos change
       "warning" false]
  else [].

(** ** Example data *)

Definition store_one_position : db :=
  set_positions empty_db
    [mk_position 7 1 1 (Some 4) "2024-05-01" "09:00:00" (Some 12)
       (Some "https://example.com/a") 100 "yandex"].

Definition config_example : list config_project :=
  [mk_config_project (Some "Example") (Some "https://example.com/")].

Definition world_example : world :=
  mk_world config_example
    (fun i => ("2024-05-01", "15:30:00"))
    (fun _ _ => None)
    (fun i domain keyword engine track limit =>
       mk_position_data (Some 4) (Some "https://example.com/page") 100
         "xmlstock_api" [])
    ("2024-05-01", "10:00:00") ("2024-05-01", "10:05:00")
    "session" (fun _ => "error").

Definition history_drop_13 : list history_record :=
  [mk_record "2024-03-02" "09:00:00" "K" (Some 18);
   mk_record "2024-03-01" "09:00:00" "K" (Some 5)].

Definition history_drop_2 : list history_record :=
  [mk_record "2024-03-02" "09:00:00" "K" (Some 7);
   mk_record "2024-03-01" "09:00:00" "K" (Some 5)].

Definition history_two_keywords : list history_record :=
  [mk_record "2024-03-03" "09:00:00" "K" (Some 9);
   mk_record "2024-03-03" "09:00:00" "L" (Some 30);
   mk_record "2024-03-02" "09:00:00" "K" (Some 4);
   mk_record "2024-03-02" "09:00:00" "L" (Some 31);
   mk_record "2024-03-01" "09:00:00" "K" (Some 40)].

Definition competitor_a1 : competitor :=
  mk_competitor (Some 1) (Some "a.com") (Some "https://a.com/") (Some "A")
    (Some "first").

Definition competitor_c3 : competitor :=
  mk_competitor (Some 3) (Some "c.com") (Some "https://c.com/") (Some "C")
    (Some "third").

(** The domain and the number of appearances of every row of [domains]. *)
Definition appearances (s : db) : list (string * Z) :=
  map (fun r => (dm_domain r, dm_total_appearances r)) (domains s).

(** The competitor rows of a domain. *)
Definition competitor_rows_of (domain : string) (s : db) : list competitor_row :=
  filter (fun r => String.eqb (co_competitor_domain r) domain) (competitors s).

(** The sum of a list of positions. *)
Definition sum_positions (ps : list Z) : Z := fold_right Z.add 0 ps.

(** The snapshot rows stored under one (project, keyword, date) key. *)
Definition snapshots_with_key (project_id keyword_id : Z) (date : string)
    (s : db) : list snapshot_row :=
  filter (snapshot_key_eqb project_id keyword_id date) (snapshots s).

Definition entry (position : Z) (domain : string) : competitor :=
  mk_competitor (Some position) (Some domain) (Some EmptyString)
    (Some EmptyString) (Some EmptyString).

(** [[(1, a), (2, b)]] and the same entries in the other order. *)
Definition top_ab : list competitor := [entry 1 "a"; entry 2 "b"].
Definition top_ba : list competitor := [entry 1 "b"; entry 2 "a"].

(** A store whose snapshot for (1, 1, 2024-05-01) already holds [top_ab]. *)
Definition store_snapshot_ab : db :=
  fst (save_snapshot_if_changed no_faults empty_db 1 1 "2024-05-01" top_ab).

(** The storage layer raises an integrity conflict in the primary block. *)
Definition conflict : faults := mk_faults (Some IntegrityError) None.

(** ** Sessions and timestamps *)






(** The ids of [positions] are a primary key. *)
Definition position_ids_unique (s : db) : Prop :=
  NoDup (map po_id (positions s)).

(** A store with the project of [config_example] and one running session
    started at 10:00, before any check. *)
Definition store_with_session : db :=
  fst (create_monitoring_session
         (fst (get_or_create_project empty_db "Example" "example.com"))
         ("2024-05-01", "10:00:00") 1 (Some "morning")).




(** ** What one batch gathers *)

(** [(check_date, check_time)] at the [i]-th keyword. *)
Definition stamp_at (w : world) (session : option (Z * (string * string)))
    (i : nat) : string * string :=
  match session with
  | Some (_, start) => start
  | None => w_now w i
  end.

(** Whether the [i]-th keyword is answered by the cache. *)
Definition cache_hit (w : world) (domain search_engine : string)
    (use_cache : bool) (i : nat) (keyword : string) : bool :=
  match (if use_cache then w_cache w i (cache_key search_engine domain keyword)
         else None) with
  | Some _ => true
  | None => false
  end.

(** The competitors the [i]-th keyword brings: the list the position source
    returns, cut to the limit; nothing on a cache hit or with tracking off. *)
Definition contribution (w : world) (domain search_engine : string)
    (use_cache track_competitors : bool) (competitors_limit : Z)
    (ik : nat * string) : list competitor :=
  if cache_hit w domain search_engine use_cache (fst ik) (snd ik) then []
  else
    match pd_competitors
            (w_search w (fst ik) domain (snd ik) search_engine
               track_competitors competitors_limit) with
    | [] => []
    | comps =>
        if track_competitors then Py.slice_to competitors_limit comps else []
    end.

(** [all_competitors] at the end of the loop. *)
Definition gathered (w : world) (domain search_engine : string)
    (use_cache track_competitors : bool) (competitors_limit : Z)
    (keywords : list string) : list competitor :=
  flat_map (contribution w domain search_engine use_cache track_competitors
              competitors_limit)
    (enumerate keywords).

Definition competitor_b2 : competitor :=
  mk_competitor (Some 2) (Some "b.com") (Some "https://b.com/") (Some "B")
    (Some "second").

(** A position source that knows one competitor per keyword: a.com at 1 for
    k1, b.com at 2 for every other keyword. *)
Definition world_two_keywords : world :=
  mk_world config_example
    (fun i => ("2024-05-01", "15:30:00"))
    (fun _ _ => None)
    (fun i domain keyword engine track limit =>
       mk_position_data (Some 4) (Some "https://example.com/page") 100
         "xmlstock_api"
         (if String.eqb keyword "k1" then [competitor_a1] else [competitor_b2]))
    ("2024-05-01", "10:00:00") ("2024-05-01", "10:05:00")
    "session" (fun _ => "error").

Definition after_two_keywords : db :=
  fst (check_positions world_two_keywords empty_db "example.com" ["k1"; "k2"]
         None "yandex" false true 20).

Definition snapshot_contents (s : db) : list (Z * string) :=
  map (fun r => (sn_keyword_id r, sn_top_10_json r)) (snapshots s).

(** A competitor row for the keyword, the timestamp, the domain and the
    position is stored. *)
Definition stored_competitor (project_id keyword_id : Z)
    (stamp : string * string) (domain : string) (position : Z) (s : db)
    : Prop :=
  exists row,
    In row (competitors s)
    /\ competitor_key_eqb project_id keyword_id (fst stamp) (snd stamp) domain
         position row = true.

(** An entry that [save_competitors] does not skip and the table accepts. *)
Definition valid_entry (comp : competitor) (domain : string) (position : Z)
    : Prop :=
  c_domain comp = Some domain /\ domain <> EmptyString
  /\ c_position comp = Some position /\ 1 <= position <= 100.

(** The keyword has the active row [keyword_id], and the competitor is stored
    under it. *)
Definition kept (project_id keyword_id : Z) (keyword : string)
    (stamp : string * string) (domain : string) (position : Z) (s : db)
    : Prop :=
  In (mk_keyword keyword_id project_id keyword true) (keywords s)
  /\ stored_competitor project_id keyword_id stamp domain position s.

(** * Notions of the further properties *)

(** At most one position row per (project, keyword, date, search engine). *)
Definition positions_unique (s : db) : Prop :=
  forall (project_id keyword_id : Z) (date search_engine : string),
    (length (rows_with_key project_id keyword_id date search_engine s) <= 1)%nat.

(** At most one competitor row per (project, keyword, date, time, domain,
    position). *)
Definition competitors_unique (rows : list competitor_row) : Prop :=
  forall (project_id keyword_id : Z) (date time domain : string) (position : Z),
    (length (filter (competitor_key_eqb project_id keyword_id date time domain
                       position) rows) <= 1)%nat.

(** The row of a domain in the reference, as [_update_domain_reference]
    reads it. *)
Definition domain_row_of (domain : string) (rows : list domain_row)
    : option domain_row :=
  find (fun r => String.eqb (dm_domain r) domain) rows.

(** One appearance of a domain: the date and the position. *)
Definition appear (c : conn) (domain : string) (visit : string * Z) : conn :=
  _update_domain_reference c domain (fst visit) (snd visit).

(** At most one snapshot row per (project, keyword, date). *)
Definition snapshots_unique (s : db) : Prop :=
  forall (project_id keyword_id : Z) (date : string),
    (length (snapshots_with_key project_id keyword_id date s) <= 1)%nat.

(** Every snapshot row stores the digest of the JSON it stores. *)
Definition snapshot_hashes_ok (s : db) : Prop :=
  forall r, In r (snapshots s) ->
    sn_previous_top_10_hash r = Some (MD5.hexdigest (sn_top_10_json r)).

(** The entry of the result list for the [i]-th keyword: the cached entry on
    a cache hit, and otherwise the answer of the position source with the
    timestamp and the session of the check. *)
Definition expected_result (w : world) (domain search_engine : string)
    (use_cache track_competitors : bool) (competitors_limit : Z)
    (session : option (Z * (string * string))) (ik : nat * string)
    : check_result :=
  match (if use_cache
         then w_cache w (fst ik) (cache_key search_engine domain (snd ik))
         else None) with
  | Some cached => cached
  | None =>
      let pd := w_search w (fst ik) domain (snd ik) search_engine
                  track_competitors competitors_limit in
      mk_result (snd ik) (pd_position pd)
        (fst (stamp_at w session (fst ik))) (snd (stamp_at w session (fst ik)))
        (option_map fst session) search_engine (pd_url pd)
        (pd_total_results pd) (pd_method pd)
  end.

(** The keyword has the active row [keyword_id] and a position row is stored
    under (project, keyword, date, search engine). *)
Definition observed (project_id keyword_id : Z) (keyword date : string)
    (search_engine : string) (s : db) : Prop :=
  In (mk_keyword keyword_id project_id keyword true) (keywords s)
  /\ exists row,
       In row (positions s)
       /\ position_key_eqb project_id keyword_id date search_engine row = true.

(** The displacement the thresholds prescribe for the oldest and the latest
    position of a keyword. *)
Definition classify_displacement (keyword : string)
    (oldest latest : option Z) : list threat :=
  match oldest, latest with
  | Some oldest_pos, Some latest_pos =>
      if (oldest_pos <=? 20) && (20 <? latest_pos) then
        [mk_threat "displacement" keyword oldest_pos latest_pos
           (latest_pos - oldest_pos)
           (if 50 <? latest_pos then "critical" else "warning") true]
      else []
  | _, _ => []
  end.

Definition history_displaced : list history_record :=
  [mk_record "2024-03-20" "09:00:00" "K" (Some 55);
   mk_record "2024-03-10" "09:00:00" "K" None;
   mk_record "2024-03-01" "09:00:00" "K" (Some 15)].

(** A threat [generate_recommendations] has a category for: a position drop
    of level critical or warning, or a displacement out of the top 20. *)
Definition categorised (t : threat) : bool :=
  (String.eqb (th_type t) "position_drop"
   && (String.eqb (th_threat_level t) "critical"
       || String.eqb (th_threat_level t) "warning"))
  || (String.eqb (th_type t) "displacement" && th_dropped_from_top20 t).

Definition threat_of_other_type : threat :=
  mk_threat "new_competitor" "K" 3 4 1 "info" false.

Definition history_drop_and_displacement : list history_record :=
  [mk_record "2024-03-01" "09:00:00" "K" (Some 15);
   mk_record "2024-03-02" "09:00:00" "K" (Some 55)].

(** * The position source: [RealPositionParser.get_yandex_position] *)
Module Parser.

(** An entry of the list [get_search_results] answers, as
    [_extract_result_from_group] builds it.  'position' is the rank of the
    group in the response; the texts are [None] where the XML element is
    empty. *)
Record search_result := mk_search_result {
  sr_position : Z;
  sr_url : option string;
  sr_title : option string;
  sr_domain : option string;
  sr_snippet : option string
}.

(** The dict [get_yandex_position] returns on a cache miss; 'competitors' and
    'top_competitors' are present only when competitors were asked for. *)
Record yandex_result := mk_yandex_result {
  yr_position : Z;
  yr_url : option string;
  yr_title : option string;
  yr_found : bool;
  yr_total_results : Z;
  yr_competitors : option (list competitor);
  yr_top_competitors : option (list competitor)
}.

Definition competitor_of (r : search_result) : competitor :=
  mk_competitor (Some (sr_position r)) (sr_domain r) (sr_url r) (sr_title r)
    (sr_snippet r).

(** The loop that gathers the competitors.  [domains_match] stands for
    [_domains_match], applied to the 'domain' of a result and to the domain
    asked for; [found] tells whether [our_result] is set. *)
Fixpoint competitors_loop (domains_match : option string -> string -> bool)
    (domain : string) (found : bool) (competitors_limit : Z)
    (results : list search_result) (competitors : list competitor)
    : list competitor :=
  match results with
  | [] => competitors
  | r :: rest =>
      if found && domains_match (sr_domain r) domain then
        competitors_loop domains_match domain found competitors_limit rest
          competitors
      else
        let competitors := competitors ++ [competitor_of r] in
        if competitors_limit <=? Z.of_nat (length competitors) then competitors
        else
          competitors_loop domains_match domain found competitors_limit rest
            competitors
  end.

Definition get_yandex_position (domains_match : option string -> string -> bool)
    (domain : string) (all_results : list search_result)
    (include_competitors : bool) (competitors_limit : Z) : yandex_result :=
  let our_result :=
    find (fun r => domains_match (sr_domain r) domain) all_results in
  let our_position := option_map sr_position our_result in
  let competitors :=
    if include_competitors && (0 <? competitors_limit) then
      competitors_loop domains_match domain
        (match our_result with Some _ => true | None => false end)
        competitors_limit (Py.slice_to (competitors_limit + 10) all_results) []
    else [] in
  mk_yandex_result
    (match our_position with Some p => p | None => 101 end)
    (match our_result with Some r => sr_url r | None => Some EmptyString end)
    (match our_result with Some r => sr_title r | None => Some EmptyString end)
    (match our_position with Some p => p <=? 100 | None => false end)
    (Z.of_nat (length all_results))
    (if include_competitors then Some competitors else None)
    (if include_competitors then Some (firstn 10 competitors) else None).

(** [DataCollector._get_real_yandex_position]: the answer of the parser
    in the shape [check_positions] reads. *)
Definition _get_real_yandex_position
    (domains_match : option string -> string -> bool)
    (domain : string) (all_results : list search_result)
    (include_competitors : bool) (competitors_limit : Z) : position_data :=
  let result :=
    get_yandex_position domains_match domain all_results include_competitors
      competitors_limit in
  let competitors :=
    match yr_competitors result with
    | Some cs => if include_competitors && nonempty cs then cs else []
    | None => []
    end in
  mk_position_data (Some (yr_position result)) (yr_url result)
    (yr_total_results result) "xmlstock_api" competitors.

End Parser.

Import Parser.

(** The results within the competitor window that are not the domain asked
    for. *)
Definition foreign_results (domains_match : option string -> string -> bool)
    (domain : string) (competitors_limit : Z)
    (all_results : list search_result) : list search_result :=
  filter (fun r => negb (domains_match (sr_domain r) domain))
    (firstn (Z.to_nat (competitors_limit + 10)) all_results).

(** A stand-in for [_domains_match] on the example: equality with the domain
    asked for. *)
Definition same_domain (d : option string) (domain : string) : bool :=
  match d with Some x => String.eqb x domain | None => false end.

Definition result_at (position : Z) (domain : string) : search_result :=
  mk_search_result position None None (Some domain) None.

Definition results_example : list search_result :=
  [result_at 1 "a.ru"; result_at 2 "shop.ru"; result_at 3 "b.ru";
   result_at 4 "shop.ru"; result_at 5 "c.ru"].

(** * Opening the store *)

(** [SEODatabase._init_database], which [SEODatabase.__init__] runs for
    every new handle (one per [DataCollector] and one per [ThreatDetector]):
    it drops the table [competitors] and creates it again, empty, with its
    id sequence reset.  No other table is named. *)
Definition _init_database (s : db) : db :=
  set_competitors_domains s [] (domains s).

(** [total_appearances] of a domain in the reference, 0 when it has no
    row. *)
Definition total_appearances_of (domain : string) (rows : list domain_row)
    : Z :=
  match domain_row_of domain rows with
  | Some row => dm_total_appearances row
  | None => 0
  end.

(** * Reading the store *)

(** The text SQLite stores in [start_time]: CURRENT_TIMESTAMP, a date, a
    space and a time. *)
Definition start_time_text (date time : string) : string :=
  String.append date (String.append " " time).

Definition ms_start_text (r : session_row) : string :=
  start_time_text (ms_start_date r) (ms_start_time r).

(** [get_latest_session]: the first row of the project's sessions
    [ORDER BY start_time DESC LIMIT 1].  SQLite leaves the order of rows with
    equal [start_time] open, so the query is a relation between the store
    and its answer: a session of the project that no other session of the
    project is later than, or [None] when the project has no session. *)
Definition latest_among (rows : list session_row) (project_id : Z)
    (answer : option session_row) : Prop :=
  match answer with
  | Some r =>
      In r rows /\ ms_project_id r = project_id
      /\ forall r', In r' rows -> ms_project_id r' = project_id ->
                    Py.str_ltb (ms_start_text r) (ms_start_text r') = false
  | None => forall r, In r rows -> ms_project_id r <> project_id
  end.

Definition get_latest_session (s : db) (project_id : Z)
    (answer : option session_row) : Prop :=
  latest_among (monitoring_sessions s) project_id answer.

(** A second run on the day of [world_two_keywords], started at 11:00. *)
Definition world_second_run : world :=
  mk_world config_example
    (fun i => ("2024-05-01", "15:30:00"))
    (fun _ _ => None)
    (fun i domain keyword engine track limit =>
       mk_position_data (Some 4) (Some "https://example.com/page") 100
         "xmlstock_api" [])
    ("2024-05-01", "11:00:00") ("2024-05-01", "11:05:00")
    "session" (fun _ => "error").

(** A row of [get_session_positions]. *)
Record session_position := mk_session_position {
  sp_check_date : date_str;
  sp_check_time : time_str;
  sp_keyword : string;
  sp_position : option Z;
  sp_url : option string;
  sp_search_engine : string;
  sp_total_results : Z
}.

(** [positions p JOIN keywords k ON p.keyword_id = k.id
     WHERE p.session_id = ?], in the order of the tables. *)
Definition session_join (s : db) (session_id : Z) : list session_position :=
  flat_map
    (fun p =>
       match po_session_id p with
       | Some sid =>
           if sid =? session_id then
             map (fun k =>
                    mk_session_position (po_check_date p) (po_check_time p)
                      (kw_keyword k) (po_position p) (po_url p)
                      (po_search_engine p) (po_total_results p))
               (filter (fun k => kw_id k =? po_keyword_id p) (keywords s))
           else []
       | None => []
       end)
    (positions s).

(** [ORDER BY p.check_time, k.keyword] *)
Definition session_position_ltb (x y : session_position) : bool :=
  Py.str_ltb (sp_check_time x) (sp_check_time y)
  || (String.eqb (sp_check_time x) (sp_check_time y)
      && Py.str_ltb (sp_keyword x) (sp_keyword y)).

(** [get_session_positions].  Rows equal in (check_time, keyword) keep the
    order of the join here; SQLite leaves their order open. *)
Definition get_session_positions (s : db) (session_id : Z)
    : list session_position :=
  Py.sorted session_position_ltb (session_join s session_id).

(** [positions p JOIN keywords k ON p.keyword_id = k.id
     JOIN projects pr ON p.project_id = pr.id
     WHERE pr.domain = ? AND p.check_date >= date('now', '-N days')];
    [cutoff] is the text of that date. *)
Definition history_join (s : db) (domain cutoff : string)
    : list history_record :=
  flat_map
    (fun p =>
       if negb (Py.str_ltb (po_check_date p) cutoff) then
         flat_map
           (fun k =>
              map (fun pr =>
                     mk_record (po_check_date p) (po_check_time p)
                       (kw_keyword k) (po_position p))
                (filter (fun pr => (pr_id pr =? po_project_id p)
                                   && String.eqb (pr_domain pr) domain)
                   (projects s)))
           (filter (fun k => kw_id k =? po_keyword_id p) (keywords s))
       else [])
    (positions s).

(** [ORDER BY p.check_date DESC, p.check_time DESC, k.keyword] *)
Definition history_ltb (x y : history_record) : bool :=
  Py.str_ltb (h_check_date y) (h_check_date x)
  || (String.eqb (h_check_date x) (h_check_date y)
      && (Py.str_ltb (h_check_time y) (h_check_time x)
          || (String.eqb (h_check_time x) (h_check_time y)
              && Py.str_ltb (h_keyword x) (h_keyword y)))).

(** [get_position_history], with the same remark on equal rows. *)
Definition get_position_history (s : db) (domain cutoff : string)
    : list history_record :=
  Py.sorted history_ltb (history_join s domain cutoff).

(** [ThreatDetector.analyze_project] on the store: the 7-day and the 30-day
    history are read with the cut-off dates of their queries. *)
Definition analyze_stored_project (s : db) (domain cutoff7 cutoff30 : string)
    : analysis :=
  analyze_project (get_position_history s domain cutoff7)
    (get_position_history s domain cutoff30).

(** The keys of the store: a domain names one project row, an id one keyword
    row, a (project, text) one keyword id, and the keyword of a position row
    is a keyword of the position's project. *)
Definition project_domains_unique (s : db) : Prop :=
  NoDup (map pr_domain (projects s)).

Definition keyword_ids_unique (s : db) : Prop :=
  NoDup (map kw_id (keywords s)).

Definition keyword_texts_unique (s : db) : Prop :=
  forall k1 k2,
    In k1 (keywords s) -> In k2 (keywords s) ->
    kw_project_id k1 = kw_project_id k2 -> kw_keyword k1 = kw_keyword k2 ->
    kw_id k1 = kw_id k2.

Definition keyword_references_ok (s : db) : Prop :=
  forall p k,
    In p (positions s) -> In k (keywords s) -> kw_id k = po_keyword_id p ->
    kw_project_id k = po_project_id p.

(** Every position stored for the domain's project is of one date and one
    search engine. *)
Definition observed_on_one_day (s : db) (domain date search_engine : string)
    : Prop :=
  forall p pr,
    In p (positions s) -> In pr (projects s) ->
    pr_id pr = po_project_id p -> pr_domain pr = domain ->
    po_check_date p = date /\ po_search_engine p = search_engine.

(** The check of [world_two_keywords] repeated at 18:00 of the same day,
    when both keywords are found at position 30 instead of 4. *)
Definition world_evening : world :=
  mk_world config_example
    (fun i => ("2024-05-01", "18:00:00"))
    (fun _ _ => None)
    (fun i domain keyword engine track limit =>
       mk_position_data (Some 30) (Some "https://example.com/page") 100
         "xmlstock_api" [])
    ("2024-05-01", "18:00:00") ("2024-05-01", "18:05:00")
    "session" (fun _ => "error").

Definition after_evening_check : db :=
  fst (check_positions world_evening after_two_keywords "example.com"
         ["k1"; "k2"] None "yandex" false true 20).

(** * The response of the search API *)

(** What [_extract_result_from_group] reads from one group of the response
    that has a 'doc' element. *)
Record group := mk_group {
  g_url : option string;
  g_title : option string;
  g_domain : option string;
  g_snippet : option string
}.

(** The parsed response: whether it carries an 'error' element, and its
    groups in document order, [None] for a group from which
    [_extract_result_from_group] returns [None]. *)
Record response := mk_response {
  rp_error : bool;
  rp_groups : list (option group)
}.

(** [settings['max_results']] *)
Definition max_results : Z := 100.

(** The loop of [_parse_all_search_results] from the group numbered
    [position] on. *)
Fixpoint parse_groups (limit position : Z) (groups : list (option group))
    : list search_result :=
  match groups with
  | [] => []
  | g :: rest =>
      if limit <? position then []
      else
        match g with
        | Some d =>
            mk_search_result position (g_url d) (g_title d) (g_domain d)
              (g_snippet d)
            :: parse_groups limit (position + 1) rest
        | None => parse_groups limit (position + 1) rest
        end
  end.

(** [_parse_all_search_results]; [None] is a text [ET.fromstring] rejects. *)
Definition _parse_all_search_results (xml : option response) (limit : Z)
    : list search_result :=
  match xml with
  | None => []
  | Some r => if rp_error r then [] else parse_groups limit 1 (rp_groups r)
  end.

(** [get_yandex_position] on a response that [get_search_results] received
    and parsed. *)
Definition position_in_response
    (domains_match : option string -> string -> bool) (domain : string)
    (xml : option response) (include_competitors : bool)
    (competitors_limit : Z) : yandex_result :=
  get_yandex_position domains_match domain
    (_parse_all_search_results xml max_results) include_competitors
    competitors_limit.

(** * Properties *)

(** ** Lists and tables *)
Section Tables.
Context {A : Type}.

Lemma find_hd_filter (p : A -> bool) (l : list A) :
  find p l = hd_error (filter p l).
Proof.
  induction l as [|x l IH]; simpl; [reflexivity|].
  destruct (p x); simpl; auto.
Qed.

Lemma filter_map_stable (p : A -> bool) (g : A -> A) (l : list A) :
  (forall r, p (g r) = p r) -> filter p (map g l) = map g (filter p l).
Proof.
  intros Hg. induction l as [|x l IH]; simpl; [reflexivity|].
  rewrite Hg. destruct (p x); simpl; congruence.
Qed.

Lemma filter_none (p : A -> bool) (l : list A) :
  (forall x, In x l -> p x = false) -> filter p l = [].
Proof.
  induction l as [|x l IH]; simpl; intros H; [reflexivity|].
  rewrite (H x (or_introl eq_refl)). apply IH. intros y Hy. apply H. now right.
Qed.

Lemma filter_all (p : A -> bool) (l : list A) :
  (forall x, In x l -> p x = true) -> filter p l = l.
Proof.
  induction l as [|x l IH]; simpl; intros H; [reflexivity|].
  rewrite (H x (or_introl eq_refl)). f_equal. apply IH. intros y Hy.
  apply H. now right.
Qed.

Lemma update_where_length (id_of : A -> Z) (id : Z) (f : A -> A) (l : list A) :
  length (update_where id_of id f l) = length l.
Proof. apply length_map. Qed.

Lemma next_id_above (ids : list Z) : forall i, In i ids -> i < next_id ids.
Proof.
  unfold next_id. induction ids as [|x ids IH]; cbn [fold_right In];
    intros i Hi; [tauto|].
  destruct Hi as [->|Hi]; [lia|]. specialize (IH i Hi). lia.
Qed.

Lemma next_id_positive (ids : list Z) : 0 < next_id ids.
Proof.
  unfold next_id. induction ids as [|x ids IH]; cbn [fold_right]; lia.
Qed.
End Tables.

(** ** [save_position] *)
Section SavePosition.
Variables (project_id keyword_id : Z) (date search_engine : string).

Let key := position_key_eqb project_id keyword_id date search_engine.
Let rows := rows_with_key project_id keyword_id date search_engine.
Let recorded := recorded_session project_id keyword_id date search_engine.

Lemma position_key_eqb_true (r : position_row) :
  key r = true ->
  po_project_id r = project_id /\ po_keyword_id r = keyword_id
  /\ po_check_date r = date /\ po_search_engine r = search_engine.
Proof.
  unfold key, position_key_eqb. intros H.
  repeat (apply andb_prop in H; destruct H as [H ?]).
  repeat split;
    first [ now apply Z.eqb_eq | now apply String.eqb_eq ].
Qed.

Lemma position_key_eqb_refl (id : Z) sid t p u n :
  key (mk_position id project_id keyword_id sid date t p u n search_engine)
  = true.
Proof.
  unfold key, position_key_eqb. simpl.
  now rewrite !Z.eqb_refl, !String.eqb_refl.
Qed.

Lemma save_position_rows (s : db) t p u n sid :
  (length (rows s) <= 1)%nat ->
  let r := save_position s project_id keyword_id date t p u n search_engine sid in
  rows (fst r)
  = [mk_position (snd r) project_id keyword_id
       (coalesce sid (recorded s)) date t p u n search_engine].
Proof.
  unfold rows, recorded, rows_with_key, recorded_session, save_position. fold key.
  intros Hlen. rewrite (find_hd_filter key).
  destruct (filter key (positions s)) as [|row rest] eqn:Hf; simpl.
  - rewrite filter_app, Hf. simpl.
    rewrite position_key_eqb_refl. now destruct sid.
  - assert (rest = []) by (destruct rest; [reflexivity | simpl in Hlen; lia]).
    subst rest.
    assert (Hrow : key row = true).
    { assert (Hin : In row (filter key (positions s))) by (rewrite Hf; now left).
      now apply filter_In in Hin. }
    destruct (position_key_eqb_true row Hrow) as (Hp & Hk & Hd & He).
    unfold update_where. rewrite filter_map_stable.
    + rewrite Hf. simpl. rewrite Z.eqb_refl.
      now rewrite Hp, Hk, Hd, He.
    + intros r. destruct (po_id r =? po_id row); reflexivity.
Qed.

Lemma save_position_existing (s : db) (row : position_row) t p u n sid :
  rows s = [row] ->
  let r := save_position s project_id keyword_id date t p u n search_engine sid in
  snd r = po_id row
  /\ recorded s = po_session_id row
  /\ length (positions (fst r)) = length (positions s).
Proof.
  unfold rows, recorded, rows_with_key, recorded_session, save_position. fold key.
  intros Hf. rewrite (find_hd_filter key), Hf. simpl.
  repeat split. apply update_where_length.
Qed.
End SavePosition.

(** C1.  Two [save_position] calls under one (project, keyword, date, search
    engine) key, on a store holding at most one row under that key, return
    the same id and leave exactly one row under the key; the row carries the
    second call's position, url, total_results and check_time; its
    session_id is the second call's when that is not null and otherwise the
    one recorded after the first call; the second call adds no row. *)
Theorem save_position_idempotent :
  forall (s : db) (project_id keyword_id : Z) (date search_engine : string)
         t1 p1 u1 n1 sid1 t2 p2 u2 n2 sid2,
    (length (rows_with_key project_id keyword_id date search_engine s) <= 1)%nat ->
    let r1 := save_position s project_id keyword_id date t1 p1 u1 n1
                search_engine sid1 in
    let r2 := save_position (fst r1) project_id keyword_id date t2 p2 u2 n2
                search_engine sid2 in
    snd r1 = snd r2
    /\ (exists session1,
          rows_with_key project_id keyword_id date search_engine (fst r1)
          = [mk_position (snd r1) project_id keyword_id session1 date
               t1 p1 u1 n1 search_engine]
          /\ rows_with_key project_id keyword_id date search_engine (fst r2)
             = [mk_position (snd r2) project_id keyword_id
                  (match sid2 with Some v => Some v | None => session1 end)
                  date t2 p2 u2 n2 search_engine])
    /\ length (positions (fst r2)) = length (positions (fst r1)).
Proof.
  intros s pid kid date eng t1 p1 u1 n1 sid1 t2 p2 u2 n2 sid2 Hlen r1 r2.
  pose proof (save_position_rows pid kid date eng s t1 p1 u1 n1 sid1 Hlen) as H1.
  cbv zeta in H1. fold r1 in H1.
  pose proof (save_position_existing pid kid date eng (fst r1) _
                t2 p2 u2 n2 sid2 H1) as (Hid & Hsess & Hl).
  fold r2 in Hid, Hl. simpl in Hid, Hsess.
  assert (Hlen1 : (length (rows_with_key pid kid date eng (fst r1)) <= 1)%nat)
    by (rewrite H1; simpl; lia).
  pose proof (save_position_rows pid kid date eng (fst r1) t2 p2 u2 n2 sid2 Hlen1)
    as H2.
  cbv zeta in H2. fold r2 in H2. rewrite Hsess in H2.
  split; [congruence|]. split; [|exact Hl].
  exists (coalesce sid1 (recorded_session pid kid date eng s)).
  split; [exact H1|exact H2].
Qed.

Lemma save_position_idempotent_witness :
  (length (rows_with_key 1 1 "2024-05-01" "yandex" store_one_position) <= 1)%nat
  /\ rows_with_key 1 1 "2024-05-01" "yandex"
       (fst (save_position
               (fst (save_position store_one_position 1 1 "2024-05-01"
                       "10:00:00" (Some 5) (Some "https://example.com/a") 100
                       "yandex" (Some 9)))
               1 1 "2024-05-01" "11:30:00" (Some 8)
               (Some "https://example.com/b") 90 "yandex" None))
     = [mk_position 7 1 1 (Some 9) "2024-05-01" "11:30:00" (Some 8)
          (Some "https://example.com/b") 90 "yandex"].
Proof.
  assert (H : (length (rows_with_key 1 1 "2024-05-01" "yandex"
                         store_one_position) <= 1)%nat) by (vm_compute; lia).
  split; [exact H|].
  pose proof (save_position_idempotent store_one_position 1 1 "2024-05-01"
                "yandex" "10:00:00" (Some 5) (Some "https://example.com/a") 100
                (Some 9) "11:30:00" (Some 8) (Some "https://example.com/b") 90
                None H) as W.
  cbv zeta in W. destruct W as (_ & (session1 & W1 & W2) & _).
  rewrite W2. vm_compute in W1. injection W1 as <-. reflexivity.
Defined.

(** ** [get_or_create_project] *)

(** C8, as the code has it.  [get_or_create_project] returns an id for every
    name and every domain, the empty domain included: after the call a
    project row with that id, that domain and that name is stored, and the
    table has grown by one row exactly when no row had the domain. *)
Theorem get_or_create_project_total :
  forall (s : db) (name domain : string),
    let r := get_or_create_project s name domain in
    In (mk_project (snd r) name domain) (projects (fst r))
    /\ length (projects (fst r))
       = (length (projects s)
          + match find (fun p => String.eqb (pr_domain p) domain) (projects s) with
            | Some _ => 0
            | None => 1
            end)%nat.
Proof.
  intros s name domain. unfold get_or_create_project.
  destruct (find _ (projects s)) as [row|] eqn:Hfind; simpl.
  - apply find_some in Hfind. destruct Hfind as [Hin Hdom].
    apply String.eqb_eq in Hdom. split.
    + unfold update_where. apply in_map_iff. exists row.
      rewrite Z.eqb_refl, Hdom. auto.
    + rewrite update_where_length. lia.
  - split.
    + apply in_or_app. right. now left.
    + rewrite length_app. reflexivity.
Qed.

(** C8, as the claim has it, fails: on the empty store the call with an empty
    domain is not rejected; it writes a project row and returns its id. *)
Lemma get_or_create_project_empty_domain :
  let r := get_or_create_project empty_db "Site" EmptyString in
  projects (fst r) = [mk_project 1 "Site" EmptyString]
  /\ snd r = 1
  /\ fst r <> empty_db.
Proof. repeat split. discriminate. Qed.

(** ** A domain that the configuration does not know *)

(** C9.  When [_find_project_by_domain] finds no project for the domain,
    [check_positions] returns the empty list and [check_positions_with_session]
    returns the empty list with -1, and both leave every table of the store
    as it was: no project, keyword, observation or session is created. *)
Theorem unknown_domain_no_write :
  forall (w : world) (s : db) (domain : string) (keywords : list string)
         (session_id : option Z) (session_name : option string)
         (search_engine : string) (use_cache track_competitors : bool)
         (competitors_limit : Z),
    _find_project_by_domain (w_config w) domain = None ->
    check_positions w s domain keywords session_id search_engine use_cache
      track_competitors competitors_limit = (s, Ok [])
    /\ check_positions_with_session w s domain keywords session_name
         search_engine use_cache track_competitors competitors_limit
       = (s, ([], -1)).
Proof.
  intros w s domain keywords session_id session_name search_engine use_cache
    track_competitors competitors_limit Hnone.
  unfold check_positions, check_positions_with_session.
  rewrite Hnone. split; reflexivity.
Qed.

Lemma unknown_domain_no_write_witness :
  _find_project_by_domain (w_config world_example) "other.org" = None
  /\ check_positions world_example empty_db "other.org" ["k1"; "k2"] (Some 3)
       "yandex" true true 20 = (empty_db, Ok [])
  /\ check_positions_with_session world_example empty_db "other.org"
       ["k1"; "k2"] None "yandex" true true 20 = (empty_db, ([], -1)).
Proof.
  assert (H : _find_project_by_domain (w_config world_example) "other.org" = None)
    by reflexivity.
  split; [exact H|].
  exact (unknown_domain_no_write world_example empty_db "other.org"
           ["k1"; "k2"] (Some 3) None "yandex" true true 20 H).
Defined.

Lemma known_domain_found :
  _find_project_by_domain config_example "http://example.com"
  = Some (mk_config_project (Some "Example") (Some "https://example.com/")).
Proof. reflexivity. Qed.

(** ** Grouping the history by keyword *)
Section Grouping.

Lemma group_lookup_add (k k' : string) (r : history_record) groups :
  group_lookup k (group_add k' r groups)
  = if String.eqb k' k
    then Some (match group_lookup k groups with
               | Some rs => rs ++ [r]
               | None => [r]
               end)
    else group_lookup k groups.
Proof.
  induction groups as [|[k0 rs] groups IH]; simpl.
  - destruct (String.eqb k' k); reflexivity.
  - destruct (String.eqb k0 k') eqn:E0; simpl.
    + apply String.eqb_eq in E0. subst k0.
      destruct (String.eqb k' k); reflexivity.
    + destruct (String.eqb k0 k) eqn:E1.
      * apply String.eqb_eq in E1. subst k0.
        rewrite String.eqb_sym, E0. reflexivity.
      * exact IH.
Qed.

Lemma group_add_keys (k' : string) (r : history_record) groups :
  forall k, In k (map fst (group_add k' r groups)) ->
            k = k' \/ In k (map fst groups).
Proof.
  induction groups as [|[k0 rs] groups IH]; simpl; intros k Hin.
  - destruct Hin as [<-|[]]. now left.
  - destruct (String.eqb k0 k'); simpl in Hin.
    + right. exact Hin.
    + destruct Hin as [<-|Hin]; [right; now left|].
      destruct (IH k Hin); auto.
Qed.

Lemma group_add_NoDup (k' : string) (r : history_record) groups :
  NoDup (map fst groups) -> NoDup (map fst (group_add k' r groups)).
Proof.
  induction groups as [|[k0 rs] groups IH]; simpl; intros Hnd.
  - constructor; [tauto|constructor].
  - inversion Hnd as [|? ? Hnotin Hnd']; subst.
    destruct (String.eqb k0 k') eqn:E0; simpl.
    + constructor; assumption.
    + constructor; [|auto].
      intros Hin. apply group_add_keys in Hin. destruct Hin as [->|Hin].
      * rewrite String.eqb_refl in E0. discriminate.
      * contradiction.
Qed.

Lemma group_fold_NoDup (history : list history_record) :
  forall groups,
    NoDup (map fst groups) ->
    NoDup (map fst (fold_left (fun g r => group_add (h_keyword r) r g)
                      history groups)).
Proof.
  induction history as [|r history IH]; simpl; intros groups Hnd; [exact Hnd|].
  apply IH, group_add_NoDup, Hnd.
Qed.

Lemma group_fold_lookup (k : string) (history : list history_record) :
  forall groups,
    group_lookup k (fold_left (fun g r => group_add (h_keyword r) r g)
                      history groups)
    = match records_of k history with
      | [] => group_lookup k groups
      | rs => Some (match group_lookup k groups with
                    | Some old => old ++ rs
                    | None => rs
                    end)
      end.
Proof.
  induction history as [|r history IH]; simpl; intros groups; [reflexivity|].
  rewrite IH, group_lookup_add.
  destruct (String.eqb (h_keyword r) k).
  - destruct (records_of k history) as [|r' rs'];
      destruct (group_lookup k groups); simpl; try reflexivity.
    now rewrite <- app_assoc.
  - reflexivity.
Qed.

(** The group of a keyword holds its observations, in the history's order. *)
Lemma group_by_keyword_lookup (k : string) (history : list history_record) :
  group_lookup k (group_by_keyword history)
  = match records_of k history with
    | [] => None
    | rs => Some rs
    end.
Proof.
  unfold group_by_keyword. rewrite group_fold_lookup. reflexivity.
Qed.

Lemma group_lookup_absent (k : string) groups :
  ~ In k (map fst groups) -> group_lookup k groups = None.
Proof.
  induction groups as [|[k0 rs] groups IH]; simpl; intros Hnotin; [reflexivity|].
  destruct (String.eqb k0 k) eqn:E.
  - apply String.eqb_eq in E. tauto.
  - apply IH. tauto.
Qed.

(** Threats of one keyword come from that keyword's group alone. *)
Lemma threats_of_flat_map (f : string -> list history_record -> list threat)
    (k : string) groups :
  (forall k' rs t, In t (f k' rs) -> th_keyword t = k') ->
  NoDup (map fst groups) ->
  threats_of k (flat_map (fun kr => f (fst kr) (snd kr)) groups)
  = match group_lookup k groups with
    | Some rs => f k rs
    | None => []
    end.
Proof.
  intros Hkw. unfold threats_of.
  induction groups as [|[k0 rs] groups IH]; simpl; intros Hnd; [reflexivity|].
  inversion Hnd as [|? ? Hnotin Hnd']; subst.
  rewrite filter_app, (IH Hnd').
  destruct (String.eqb k0 k) eqn:E.
  - apply String.eqb_eq in E. subst k0.
    rewrite (group_lookup_absent _ _ Hnotin), app_nil_r.
    apply filter_all. intros t Ht.
    rewrite (Hkw _ _ _ Ht). apply String.eqb_refl.
  - rewrite filter_none; [reflexivity|]. intros t Ht.
    rewrite (Hkw _ _ _ Ht). exact E.
Qed.

End Grouping.

(** ** [sorted] *)
Section Sorting.
Context {A : Type} (lt : A -> A -> bool).

(** [a] may stand before [b] in an ascending list. *)
Let not_after (a b : A) : Prop := lt b a = false.

Lemma insert_sorted_perm (x : A) (l : list A) :
  Permutation (Py.insert_sorted lt x l) (x :: l).
Proof.
  induction l as [|y l IH]; simpl; [reflexivity|].
  destruct (lt y x); [|reflexivity].
  rewrite IH. apply perm_swap.
Qed.

Lemma sorted_perm (l : list A) : Permutation (Py.sorted lt l) l.
Proof.
  induction l as [|x l IH]; simpl; [reflexivity|].
  rewrite insert_sorted_perm. now constructor.
Qed.

Hypothesis lt_asym : forall a b, lt a b = true -> lt b a = false.

Lemma insert_sorted_HdRel (x y : A) (l : list A) :
  lt y x = true -> HdRel not_after y l ->
  HdRel not_after y (Py.insert_sorted lt x l).
Proof.
  intros Hyx Hhd. destruct l as [|z l]; simpl.
  - constructor. apply lt_asym, Hyx.
  - destruct (lt z x).
    + constructor. now inversion Hhd.
    + constructor. apply lt_asym, Hyx.
Qed.

Lemma insert_sorted_Sorted (x : A) (l : list A) :
  Sorted not_after l -> Sorted not_after (Py.insert_sorted lt x l).
Proof.
  induction l as [|y l IH]; simpl; intros Hs.
  - repeat constructor.
  - inversion Hs as [|? ? Hs' Hhd]; subst.
    destruct (lt y x) eqn:E.
    + constructor; [auto|]. now apply insert_sorted_HdRel.
    + constructor; [exact Hs|]. constructor. exact E.
Qed.

(** [sorted] returns its argument in ascending order of the key. *)
Lemma sorted_Sorted (l : list A) : Sorted not_after (Py.sorted lt l).
Proof.
  induction l as [|x l IH]; simpl; [constructor|].
  now apply insert_sorted_Sorted.
Qed.

End Sorting.

Lemma str_ltb_asym (a b : string) :
  Py.str_ltb a b = true -> Py.str_ltb b a = false.
Proof.
  unfold Py.str_ltb. rewrite (String.compare_antisym a b).
  destruct (String.compare b a); simpl; congruence.
Qed.

Lemma str_ltb_irrefl (a : string) : Py.str_ltb a a = false.
Proof.
  unfold Py.str_ltb.
  pose proof (String.compare_antisym a a) as H.
  destruct (String.compare a a); simpl in H; congruence.
Qed.

Lemma record_ltb_asym (x y : history_record) :
  record_ltb x y = true -> record_ltb y x = false.
Proof.
  unfold record_ltb. intros H.
  apply orb_true_iff in H. destruct H as [H|H].
  - rewrite (str_ltb_asym _ _ H). simpl.
    destruct (String.eqb_spec (h_check_date y) (h_check_date x)) as [E|E];
      [|reflexivity].
    rewrite E, str_ltb_irrefl in H. discriminate.
  - apply andb_true_iff in H. destruct H as [Hd Ht].
    apply String.eqb_eq in Hd. rewrite Hd, str_ltb_irrefl, String.eqb_refl.
    simpl. now apply str_ltb_asym.
Qed.

(** The classifier's order of a keyword's observations: the same
    observations, ascending by (check_date, check_time). *)
Lemma sort_records_ascending (records : list history_record) :
  Permutation (sort_records records) records
  /\ Sorted (fun a b => record_ltb b a = false) (sort_records records).
Proof.
  split; [apply sorted_perm|].
  apply sorted_Sorted, record_ltb_asym.
Qed.

(** ** Position drops *)
Section PositionDrops.

Lemma position_drop_keyword (k : string) (rs : list history_record) (t : threat) :
  In t (position_drop_of k rs) -> th_keyword t = k.
Proof.
  unfold position_drop_of.
  destruct (_ <=? _)%nat; [|intros []].
  destruct (Py.last_n _ _) as [|a [|b [|c l]]]; try (intros []).
  destruct (h_position b) as [lp|]; [|intros []].
  destruct (h_position a) as [pp|]; [|intros []].
  destruct (critical_drop <=? lp - pp).
  - intros [<-|[]]. reflexivity.
  - destruct (significant_drop <=? lp - pp); [|intros []].
    intros [<-|[]]. reflexivity.
Qed.

Lemma position_drop_of_nil (k : string) : position_drop_of k [] = [].
Proof. reflexivity. Qed.

(** The threats of a keyword are decided by its own observations. *)
Lemma analyze_position_changes_keyword (history : list history_record)
    (k : string) :
  threats_of k (analyze_position_changes history)
  = position_drop_of k (records_of k history).
Proof.
  unfold analyze_position_changes.
  destruct history as [|r0 history0] eqn:Hh; [reflexivity|].
  rewrite <- Hh. clear Hh.
  rewrite (threats_of_flat_map position_drop_of).
  - rewrite group_by_keyword_lookup.
    destruct (records_of k history); reflexivity.
  - intros k' rs t. apply position_drop_keyword.
  - apply group_fold_NoDup. constructor.
Qed.

Lemma last_n_two {A : Type} (pre : list A) (a b : A) :
  Py.last_n 2 (pre ++ [a; b]) = [a; b].
Proof.
  unfold Py.last_n. rewrite length_app. simpl.
  replace (length pre + 2 - 2)%nat with (length pre + 0)%nat by lia.
  rewrite skipn_app, Nat.add_0_r, skipn_all.
  replace (length pre - length pre)%nat with 0%nat by lia. reflexivity.
Qed.

Lemma position_drop_of_last_two (k : string) (rs pre : list history_record)
    (previous latest : history_record) (previous_pos latest_pos : Z) :
  sort_records rs = pre ++ [previous; latest] ->
  h_position previous = Some previous_pos ->
  h_position latest = Some latest_pos ->
  position_drop_of k rs = classify_drop k previous_pos latest_pos.
Proof.
  intros Hs Hp Hl. unfold position_drop_of, min_check_frequency.
  rewrite Hs, last_n_two, Hp, Hl.
  replace (2 <=? length (pre ++ [previous; latest]))%nat with true.
  - reflexivity.
  - symmetry. apply Nat.leb_le. rewrite length_app. simpl. lia.
Qed.

End PositionDrops.

(** C6.  Let the observations of a keyword in the 7-day history, sorted
    ascending by (date, time) as the classifier sorts them, end with
    [previous] and [latest], both with a position.  With
    change = latest - previous, the classifier emits for that keyword exactly
    one position-drop threat of level critical when change >= 10, exactly one
    of level warning when 3 <= change < 10, and none otherwise.  On the
    history (day 1: 5, day 2: 18) the result is one critical threat with
    change 13, and on (day 1: 5, day 2: 7) it is empty. *)
Theorem position_drop_classification :
  (forall (history : list history_record) (keyword : string)
          (pre : list history_record) (previous latest : history_record)
          (previous_pos latest_pos : Z),
      sort_records (records_of keyword history) = pre ++ [previous; latest] ->
      h_position previous = Some previous_pos ->
      h_position latest = Some latest_pos ->
      let change := latest_pos - previous_pos in
      let emitted := threats_of keyword (analyze_position_changes history) in
      (10 <= change ->
       emitted = [mk_threat "position_drop" keyword previous_pos latest_pos
                    change "critical" false])
      /\ (3 <= change < 10 ->
          emitted = [mk_threat "position_drop" keyword previous_pos latest_pos
                       change "warning" false])
      /\ (change < 3 -> emitted = []))
  /\ analyze_position_changes history_drop_13
     = [mk_threat "position_drop" "K" 5 18 13 "critical" false]
  /\ analyze_position_changes history_drop_2 = [].
Proof.
  split; [|split; reflexivity].
  intros history keyword pre previous latest previous_pos latest_pos Hs Hp Hl
    change emitted.
  assert (He : emitted = classify_drop keyword previous_pos latest_pos).
  { unfold emitted. rewrite analyze_position_changes_keyword.
    eapply position_drop_of_last_two; eassumption. }
  rewrite He. unfold classify_drop. fold change.
  repeat split; intros Hc.
  - replace (10 <=? change) with true by (symmetry; apply Z.leb_le; lia).
    reflexivity.
  - replace (10 <=? change) with false by (symmetry; apply Z.leb_gt; lia).
    replace (3 <=? change) with true by (symmetry; apply Z.leb_le; lia).
    reflexivity.
  - replace (10 <=? change) with false by (symmetry; apply Z.leb_gt; lia).
    replace (3 <=? change) with false by (symmetry; apply Z.leb_gt; lia).
    reflexivity.
Qed.

Lemma position_drop_classification_witness :
  sort_records (records_of "K" history_two_keywords)
  = [mk_record "2024-03-01" "09:00:00" "K" (Some 40)]
    ++ [mk_record "2024-03-02" "09:00:00" "K" (Some 4);
        mk_record "2024-03-03" "09:00:00" "K" (Some 9)]
  /\ (3 <= 9 - 4 < 10 ->
      threats_of "K" (analyze_position_changes history_two_keywords)
      = [mk_threat "position_drop" "K" 4 9 (9 - 4) "warning" false]).
Proof.
  assert (H : sort_records (records_of "K" history_two_keywords)
              = [mk_record "2024-03-01" "09:00:00" "K" (Some 40)]
                ++ [mk_record "2024-03-02" "09:00:00" "K" (Some 4);
                    mk_record "2024-03-03" "09:00:00" "K" (Some 9)])
    by reflexivity.
  split; [exact H|].
  exact (proj1 (proj2 (proj1 position_drop_classification
                         history_two_keywords "K" _ _ _ 4 9 H
                         eq_refl eq_refl))).
Defined.

(** ** Recommendations *)

(** [generate_recommendations] never returns an empty list: with no threat it
    answers the advice to continue monitoring, and with threats none of which
    falls under a category it answers the generic advice. *)
Lemma generate_recommendations_nonempty (threats : list threat) :
  generate_recommendations threats <> []
  /\ (threats = [] ->
      generate_recommendations threats = [rec_continue_monitoring]).
Proof.
  split.
  - unfold generate_recommendations.
    destruct threats as [|t threats].
    + simpl. discriminate.
    + cbn [nonempty negb andb].
      match goal with
      | |- context [nonempty ?l] => destruct l as [|r l']
      end; cbn [nonempty negb app]; discriminate.
  - intros ->. reflexivity.
Qed.

(** C7, on the code.  [analyze_project] calls [generate_recommendations] only
    when it found a threat: an analysis without threats returns an empty
    'recommendations' list, although [generate_recommendations] on no threat
    answers the advice to continue monitoring. *)
Theorem analyze_project_without_threats :
  (forall history7 history30 : list history_record,
      an_threats (analyze_project history7 history30) = [] ->
      an_recommendations (analyze_project history7 history30) = [])
  /\ analyze_project history_drop_2 history_drop_2 = mk_analysis [] []
  /\ generate_recommendations [] = [rec_continue_monitoring].
Proof.
  split; [|split; reflexivity].
  intros history7 history30. unfold analyze_project. simpl.
  intros ->. reflexivity.
Qed.

Lemma analyze_project_without_threats_witness :
  an_threats (analyze_project [] []) = []
  /\ an_recommendations (analyze_project [] []) = [].
Proof.
  assert (H : an_threats (analyze_project [] []) = []) by reflexivity.
  split; [exact H|].
  exact (proj1 analyze_project_without_threats [] [] H).
Defined.

(** ** Competitors and the domain reference *)

(** C3, on the code.  With (a.com, 1) already stored for the timestamp, a
    call that brings the new entry (c.com, 3) followed by (a.com, 1) again
    inserts one row and ignores the duplicate, yet counts a.com a second
    time: [conn.total_changes] is positive from the first insert on.  The
    same happens to an entry repeated inside one call. *)
Theorem save_competitors_counts_ignored_duplicate :
  let s1 := save_competitors empty_db 1 1 "2024-05-01" "10:00:00"
              [competitor_a1] None in
  let s2 := save_competitors s1 1 1 "2024-05-01" "10:00:00"
              [competitor_c3; competitor_a1] None in
  let s3 := save_competitors empty_db 1 1 "2024-05-01" "10:00:00"
              [competitor_a1; competitor_a1] None in
  appearances s1 = [("a.com", 1)]
  /\ length (competitor_rows_of "a.com" s2) = 1%nat
  /\ appearances s2 = [("a.com", 2); ("c.com", 1)]
  /\ length (competitor_rows_of "a.com" s3) = 1%nat
  /\ appearances s3 = [("a.com", 2)].
Proof. vm_compute. repeat split. Qed.

(** The reference update itself keeps the running mean: on a table holding
    the row of the domain alone, one more appearance at position [p] gives
    [(avg * n + p) / (n + 1)]. *)
Lemma update_known_domain (c : conn) (d date : string) (p n : Z) (avg : Q) :
  d <> EmptyString ->
  cn_domains c = [mk_domain 1 d date date n (Some avg)] ->
  cn_domains (_update_domain_reference c d date p)
  = [mk_domain 1 d date date (n + 1)
       (Some ((avg * inject_Z n + inject_Z p) / inject_Z (n + 1))%Q)].
Proof.
  intros Hd Hc. unfold _update_domain_reference.
  rewrite (proj2 (String.eqb_neq d EmptyString) Hd), Hc.
  simpl. rewrite String.eqb_refl. simpl. reflexivity.
Qed.

Lemma update_unknown_domain (c : conn) (d date : string) (p : Z) :
  d <> EmptyString ->
  cn_domains c = [] ->
  cn_domains (_update_domain_reference c d date p)
  = [mk_domain 1 d date date 1 (Some (inject_Z p))].
Proof.
  intros Hd Hc. unfold _update_domain_reference.
  rewrite (proj2 (String.eqb_neq d EmptyString) Hd), Hc. reflexivity.
Qed.

Lemma running_mean_step (avg : Q) (n s p : Z) :
  0 < n ->
  (avg * inject_Z n == inject_Z s)%Q ->
  ((avg * inject_Z n + inject_Z p) / inject_Z (n + 1) * inject_Z (n + 1)
   == inject_Z (s + p))%Q.
Proof.
  intros Hn Havg.
  assert (Hnz : ~ (inject_Z (n + 1) == 0)%Q).
  { unfold Qeq. simpl. lia. }
  rewrite Havg, (inject_Z_plus s p).
  generalize dependent (inject_Z (n + 1)). intros q Hq. field. exact Hq.
Qed.

Lemma running_mean_fold (d date : string) (ps : list Z) :
  d <> EmptyString ->
  forall (c : conn) (n s : Z) (avg : Q),
    0 < n ->
    cn_domains c = [mk_domain 1 d date date n (Some avg)] ->
    (avg * inject_Z n == inject_Z s)%Q ->
    exists avg',
      cn_domains (fold_left (fun c p => _update_domain_reference c d date p) ps c)
      = [mk_domain 1 d date date (n + Z.of_nat (length ps)) (Some avg')]
      /\ (avg' * inject_Z (n + Z.of_nat (length ps))
          == inject_Z (s + sum_positions ps))%Q.
Proof.
  intros Hd. induction ps as [|p ps IH]; intros c n s avg Hn Hc Havg.
  - exists avg. simpl. rewrite !Z.add_0_r. auto.
  - cbn [fold_left].
    destruct (IH (_update_domain_reference c d date p) (n + 1) (s + p)
                ((avg * inject_Z n + inject_Z p) / inject_Z (n + 1))%Q)
      as (avg' & Hc' & Havg').
    + lia.
    + now apply update_known_domain.
    + now apply running_mean_step.
    + exists avg'. cbn [length sum_positions fold_right].
      replace (n + Z.of_nat (S (length ps))) with (n + 1 + Z.of_nat (length ps))
        by lia.
      replace (s + (p + fold_right Z.add 0 ps)) with (s + p + sum_positions ps)
        by (unfold sum_positions; lia).
      auto.
Qed.

(** After [N] updates of an unknown domain, [total_appearances] is [N] and
    [avg_position] is the arithmetic mean of the [N] positions. *)
Lemma domain_reference_mean (d date : string) (p : Z) (ps : list Z) (c : conn) :
  d <> EmptyString ->
  cn_domains c = [] ->
  exists avg,
    cn_domains (fold_left (fun c p => _update_domain_reference c d date p)
                  (p :: ps) c)
    = [mk_domain 1 d date date (Z.of_nat (length (p :: ps))) (Some avg)]
    /\ (avg == inject_Z (sum_positions (p :: ps))
               / inject_Z (Z.of_nat (length (p :: ps))))%Q.
Proof.
  intros Hd Hc. cbn [fold_left].
  destruct (running_mean_fold d date ps Hd (_update_domain_reference c d date p)
              1 p (inject_Z p)) as (avg & Hdom & Havg).
  - lia.
  - now apply update_unknown_domain.
  - change (inject_Z 1) with 1%Q. ring.
  - exists avg. cbn [length sum_positions fold_right].
    replace (Z.of_nat (S (length ps))) with (1 + Z.of_nat (length ps)) by lia.
    split; [exact Hdom|].
    fold (sum_positions ps). rewrite <- Havg.
    assert (Hnz : ~ (inject_Z (1 + Z.of_nat (length ps)) == 0)%Q).
    { unfold Qeq, inject_Z. cbn [Qnum Qden]. lia. }
    generalize dependent (inject_Z (1 + Z.of_nat (length ps))).
    intros q _ Hq. field. exact Hq.
Qed.

(** ** The digest *)

Example md5_empty : MD5.hexdigest EmptyString = "d41d8cd98f00b204e9800998ecf8427e".
Proof. vm_compute. reflexivity. Qed.

Example md5_abc : MD5.hexdigest "abc" = "900150983cd24fb0d6963f7d28e17f72".
Proof. vm_compute. reflexivity. Qed.

Example md5_two_blocks :
  MD5.hexdigest
    "12345678901234567890123456789012345678901234567890123456789012345678901234567890"
  = "57edf4a22be3c955ac49da2e2107b67a".
Proof. vm_compute. reflexivity. Qed.

Lemma le_bytes_length (k : nat) : forall n, length (MD5.le_bytes k n) = k.
Proof. induction k as [|k IH]; simpl; intros n; [reflexivity|]. now rewrite IH. Qed.

Lemma hex_bytes_length (bs : list Z) :
  String.length (MD5.hex_bytes bs) = (2 * length bs)%nat.
Proof.
  induction bs as [|b bs IH]; [reflexivity|].
  cbn [MD5.hex_bytes fold_right length]. fold (MD5.hex_bytes bs).
  unfold MD5.hex_byte. cbn [String.append String.length].
  rewrite IH. lia.
Qed.

(** A digest is 32 hexadecimal characters. *)
Lemma hexdigest_length (s : string) : String.length (MD5.hexdigest s) = 32%nat.
Proof.
  unfold MD5.hexdigest.
  destruct (MD5.process_blocks _ _ _) as [[[a b] c] d].
  rewrite hex_bytes_length, !length_app, !le_bytes_length. reflexivity.
Qed.

Lemma hexdigest_truthy (s : string) :
  truthy_hash (Some (MD5.hexdigest s)) = true.
Proof.
  pose proof (hexdigest_length s) as H.
  destruct (MD5.hexdigest s); [discriminate|reflexivity].
Qed.

(** ** Snapshots *)
Section Snapshots.
Variables (project_id keyword_id : Z) (date : string).

Let key := snapshot_key_eqb project_id keyword_id date.

Lemma snapshot_update_keeps_key (id : Z) (f : snapshot_row -> snapshot_row)
    (rows : list snapshot_row) :
  (forall r, key (f r) = key r) ->
  forall r, key (if sn_id r =? id then f r else r) = key r.
Proof. intros Hf r. destruct (sn_id r =? id); auto. Qed.

Lemma find_update_where (id : Z) (f : snapshot_row -> snapshot_row)
    (rows : list snapshot_row) (row : snapshot_row) :
  (forall r, key (f r) = key r) ->
  find key rows = Some row ->
  sn_id row = id ->
  find key (update_where sn_id id f rows) = Some (f row).
Proof.
  intros Hf Hfind Hid. unfold update_where.
  induction rows as [|r rows IH]; simpl in *; [discriminate|].
  rewrite (snapshot_update_keeps_key id f rows Hf).
  destruct (key r).
  - injection Hfind as ->. now rewrite Hid, Z.eqb_refl.
  - auto.
Qed.

Lemma find_app_new (rows : list snapshot_row) (row : snapshot_row) :
  find key rows = None -> key row = true -> find key (rows ++ [row]) = Some row.
Proof.
  intros Hnone Hrow. induction rows as [|r rows IH]; simpl in *.
  - now rewrite Hrow.
  - destruct (key r); [discriminate|auto].
Qed.

Lemma snapshot_key_eqb_refl (id : Z) json h c :
  key (mk_snapshot id project_id keyword_id date json h c) = true.
Proof.
  unfold key, snapshot_key_eqb. simpl.
  now rewrite !Z.eqb_refl, String.eqb_refl.
Qed.



End Snapshots.




Lemma insert_or_replace_rows (rows : list snapshot_row)
    (project_id keyword_id : Z) (date json h : string) :
  filter (snapshot_key_eqb project_id keyword_id date)
    (insert_or_replace_snapshot rows project_id keyword_id date json h)
  = [mk_snapshot (next_id (map sn_id rows)) project_id keyword_id date json
       (Some h) true].
Proof.
  unfold insert_or_replace_snapshot. rewrite filter_app.
  rewrite filter_none.
  - simpl. now rewrite snapshot_key_eqb_refl.
  - intros r Hr. apply filter_In in Hr. destruct Hr as [_ Hr].
    now apply negb_true_iff in Hr.
Qed.

(** C10, as the code has it.  When the primary block raises an integrity
    conflict and the fallback's write succeeds, the call returns true and the
    key then holds one row, with the new JSON and hash and has_changes set,
    whatever was stored before, the same content included.  When the
    fallback's write raises, whatever the exception, the call returns false
    and the store is as before.  The call returns a value unless the primary
    block raises an exception that is not an integrity conflict; that
    exception reaches the caller, with the store as before. *)
Theorem snapshot_conflict_fallback :
  (forall (s : db) (project_id keyword_id : Z) (date : string)
          (top_10 : list competitor),
      let r := save_snapshot_if_changed conflict s project_id keyword_id date
                 top_10 in
      snd r = Returned true
      /\ snapshots_with_key project_id keyword_id date (fst r)
         = [mk_snapshot (next_id (map sn_id (snapshots s))) project_id
              keyword_id date (Json.dumps top_10)
              (Some (MD5.hexdigest (Json.dumps top_10))) true])
  /\ (forall (e : sqlite_error) (s : db) (project_id keyword_id : Z)
             (date : string) (top_10 : list competitor),
         save_snapshot_if_changed (mk_faults (Some IntegrityError) (Some e)) s
           project_id keyword_id date top_10
         = (s, Returned false))
  /\ (forall (f : faults) (s : db) (project_id keyword_id : Z) (date : string)
             (top_10 : list competitor),
         main_fault f <> Some OperationalError ->
         exists b, snd (save_snapshot_if_changed f s project_id keyword_id date
                          top_10) = Returned b)
  /\ (forall (f : faults) (s : db) (project_id keyword_id : Z) (date : string)
             (top_10 : list competitor),
         main_fault f = Some OperationalError ->
         save_snapshot_if_changed f s project_id keyword_id date top_10
         = (s, Raised OperationalError))
  /\ snd (save_snapshot_if_changed conflict store_snapshot_ab 1 1 "2024-05-01"
            top_ab)
     = Returned true.
Proof.
  split; [|split; [|split; [|split]]].
  - intros s project_id keyword_id date top_10.
    unfold save_snapshot_if_changed, _force_update_snapshot, conflict.
    cbn [main_fault fallback_fault fst snd]. split; [reflexivity|].
    unfold snapshots_with_key. cbn [snapshots set_snapshots].
    apply insert_or_replace_rows.
  - intros e s project_id keyword_id date top_10. reflexivity.
  - intros f s project_id keyword_id date top_10 Hf.
    unfold save_snapshot_if_changed, _force_update_snapshot.
    destruct (main_fault f) as [[|]|].
    + destruct (fallback_fault f); eexists; reflexivity.
    + congruence.
    + destruct (find _ _).
      * match goal with
        | |- context [if ?b then _ else _] => destruct b
        end; eexists; reflexivity.
      * eexists; reflexivity.
  - intros f s project_id keyword_id date top_10 Hf.
    unfold save_snapshot_if_changed. now rewrite Hf.
  - reflexivity.
Qed.

Lemma snapshot_conflict_fallback_witness :
  main_fault no_faults <> Some OperationalError
  /\ main_fault (mk_faults (Some OperationalError) None) = Some OperationalError
  /\ (exists b, snd (save_snapshot_if_changed no_faults store_snapshot_ab 1 1
                       "2024-05-01" top_ba) = Returned b)
  /\ save_snapshot_if_changed (mk_faults (Some OperationalError) None)
       store_snapshot_ab 1 1 "2024-05-01" top_ba
     = (store_snapshot_ab, Raised OperationalError).
Proof.
  assert (H1 : main_fault no_faults <> Some OperationalError) by discriminate.
  assert (H2 : main_fault (mk_faults (Some OperationalError) None)
               = Some OperationalError) by reflexivity.
  split; [exact H1|]. split; [exact H2|]. split.
  - exact (proj1 (proj2 (proj2 snapshot_conflict_fallback)) no_faults
             store_snapshot_ab 1 1 "2024-05-01" top_ba H1).
  - exact (proj1 (proj2 (proj2 (proj2 snapshot_conflict_fallback)))
             (mk_faults (Some OperationalError) None) store_snapshot_ab 1 1
             "2024-05-01" top_ba H2).
Defined.

(** C10, as the claim has it, fails: an exception of the primary block other
    than an integrity conflict is not caught, so a storage exception does
    reach the caller. *)
Lemma snapshot_storage_error_propagates :
  ~ (forall (f : faults) (s : db) (project_id keyword_id : Z) (date : string)
            (top_10 : list competitor),
        exists b, snd (save_snapshot_if_changed f s project_id keyword_id date
                         top_10) = Returned b).
Proof.
  intros H.
  destruct (H (mk_faults (Some OperationalError) None) empty_db 1 1
              "2024-05-01" top_ab) as [b Hb].
  discriminate.
Qed.

(** ** What each store operation leaves alone *)

Lemma get_or_create_project_frame (s : db) (name domain : string) :
  let s' := fst (get_or_create_project s name domain) in
  keywords s' = keywords s /\ monitoring_sessions s' = monitoring_sessions s
  /\ positions s' = positions s /\ competitors s' = competitors s
  /\ snapshots s' = snapshots s.
Proof. unfold get_or_create_project. destruct (find _ _); repeat split. Qed.

Lemma get_or_create_keyword_frame (s : db) (project_id : Z) (keyword : string) :
  let s' := fst (get_or_create_keyword s project_id keyword) in
  monitoring_sessions s' = monitoring_sessions s
  /\ positions s' = positions s /\ competitors s' = competitors s
  /\ snapshots s' = snapshots s.
Proof. unfold get_or_create_keyword. destruct (find _ _); repeat split. Qed.

Lemma save_position_frame (s : db) pid kid d t p u n e sid :
  let s' := fst (save_position s pid kid d t p u n e sid) in
  keywords s' = keywords s /\ monitoring_sessions s' = monitoring_sessions s
  /\ competitors s' = competitors s /\ snapshots s' = snapshots s.
Proof. unfold save_position. destruct (find _ _); repeat split. Qed.

Lemma save_competitors_frame (s : db) pid kid d t comps sid :
  let s' := save_competitors s pid kid d t comps sid in
  keywords s' = keywords s /\ monitoring_sessions s' = monitoring_sessions s
  /\ positions s' = positions s /\ snapshots s' = snapshots s.
Proof. unfold save_competitors. destruct comps; repeat split. Qed.

Lemma save_snapshot_frame (f : faults) (s : db) pid kid d top_10 :
  let s' := fst (save_snapshot_if_changed f s pid kid d top_10) in
  keywords s' = keywords s /\ monitoring_sessions s' = monitoring_sessions s
  /\ positions s' = positions s /\ competitors s' = competitors s.
Proof.
  unfold save_snapshot_if_changed, _force_update_snapshot.
  destruct (main_fault f) as [[|]|].
  - destruct (fallback_fault f); repeat split.
  - repeat split.
  - destruct (find _ _).
    + match goal with
      | |- context [if ?b then _ else _] => destruct b
      end; repeat split.
    + repeat split.
Qed.

(** The snapshot table after a call depends on the snapshot table alone. *)
Lemma save_snapshot_table (f : faults) (s s' : db) pid kid d top_10 :
  snapshots s = snapshots s' ->
  snapshots (fst (save_snapshot_if_changed f s pid kid d top_10))
  = snapshots (fst (save_snapshot_if_changed f s' pid kid d top_10)).
Proof.
  intros H. unfold save_snapshot_if_changed, _force_update_snapshot.
  destruct (main_fault f) as [[|]|].
  - destruct (fallback_fault f); simpl; [exact H|now rewrite H].
  - exact H.
  - rewrite H. destruct (find _ _).
    + match goal with
      | |- context [if ?b then _ else _] => destruct b
      end; reflexivity.
    + reflexivity.
Qed.

(** ** Rows written by [save_position] and [save_competitors] *)

Lemma NoDup_map_inj {A : Type} (id_of : A -> Z) (l : list A) (a b : A) :
  NoDup (map id_of l) -> In a l -> In b l -> id_of a = id_of b -> a = b.
Proof.
  induction l as [|x l IH]; simpl; intros Hnd Ha Hb Hid; [tauto|].
  inversion Hnd as [|? ? Hnotin Hnd']; subst.
  destruct Ha as [->|Ha], Hb as [->|Hb]; auto.
  - exfalso. apply Hnotin. rewrite Hid. now apply in_map.
  - exfalso. apply Hnotin. rewrite <- Hid. now apply in_map.
Qed.

Lemma save_position_written (s : db) pid kid d t p u n e sid :
  position_ids_unique s ->
  let s' := fst (save_position s pid kid d t p u n e sid) in
  position_ids_unique s'
  /\ forall r, In r (positions s') ->
       In r (positions s)
       \/ (po_check_date r = d /\ po_check_time r = t
           /\ forall v, sid = Some v -> po_session_id r = Some v).
Proof.
  unfold position_ids_unique, save_position. intros Hnd.
  destruct (find _ (positions s)) as [row|] eqn:Hfind;
    cbn [fst positions set_positions].
  - apply find_some in Hfind. destruct Hfind as [Hin Hkey].
    apply position_key_eqb_true in Hkey.
    destruct Hkey as (_ & _ & Hd & _).
    split.
    + unfold update_where. rewrite map_map.
      erewrite map_ext; [exact Hnd|].
      intros r. destruct (po_id r =? po_id row); reflexivity.
    + intros r Hr. unfold update_where in Hr.
      apply in_map_iff in Hr. destruct Hr as (y & Hy & Hiny).
      destruct (po_id y =? po_id row) eqn:E.
      * apply Z.eqb_eq in E.
        assert (y = row) by (eapply NoDup_map_inj; eauto). subst y.
        right. subst r. cbn. repeat split; [exact Hd|].
        intros v ->. reflexivity.
      * left. now subst r.
  - split.
    + rewrite map_app. simpl. apply NoDup_app; [exact Hnd|repeat constructor; tauto|].
      intros i Hi [<-|[]].
      pose proof (next_id_above _ _ Hi). lia.
    + intros r Hr. apply in_app_or in Hr. destruct Hr as [Hr|[<-|[]]].
      * now left.
      * right. cbn. repeat split. intros v ->. reflexivity.
Qed.


Lemma update_domain_reference_competitors (c : conn) domain d position :
  cn_competitors (_update_domain_reference c domain d position)
  = cn_competitors c.
Proof.
  unfold _update_domain_reference.
  destruct (String.eqb domain EmptyString); [reflexivity|].
  destruct (find _ _); reflexivity.
Qed.




(** ** One batch under a session *)
Section SessionBatch.
Variables (sid : Z) (start : string * string).







End SessionBatch.




(** The store a batch returns holds the observations its loop left. *)
Lemma snapshot_after_loop_frame (st : loop_state) (track : bool) (pid : Z) :
  let s' := fst (snapshot_after_loop st track pid) in
  keywords s' = keywords (ls_db st)
  /\ positions s' = positions (ls_db st)
  /\ competitors s' = competitors (ls_db st).
Proof.
  unfold snapshot_after_loop.
  destruct (ls_all_competitors st); [now repeat split|].
  destruct track; [|now repeat split].
  destruct (sorted_by_position _) as [sorted_competitors|]; [|now repeat split].
  destruct (ls_keyword_id st) as [kid|]; [|now repeat split].
  destruct (kid =? 0); [now repeat split|].
  destruct (ls_check st) as [check|]; [|now repeat split].
  cbn [fst].
  destruct (save_snapshot_frame no_faults (ls_db st) pid kid (fst check)
              (firstn 10 sorted_competitors)) as (Hk & _ & Hp & Hc).
  now repeat split.
Qed.





(** ** What the loop of a batch gathers *)
Section Loop.
Variables (w : world) (domain search_engine : string)
          (use_cache track : bool) (limit pid : Z)
          (session : option (Z * (string * string))).

Let step := check_keyword w domain search_engine use_cache track limit pid
              session.

Lemma get_or_create_keyword_row (s : db) (keyword : string) :
  let r := get_or_create_keyword s pid keyword in
  In (mk_keyword (snd r) pid keyword true) (keywords (fst r)).
Proof.
  unfold get_or_create_keyword.
  destruct (find _ (keywords s)) as [row|] eqn:Hfind; simpl.
  - apply find_some in Hfind. destruct Hfind as [Hin Hk].
    apply andb_prop in Hk. destruct Hk as [Hp Hk].
    apply Z.eqb_eq in Hp. apply String.eqb_eq in Hk.
    unfold update_where. apply in_map_iff. exists row.
    rewrite Z.eqb_refl, Hp, Hk. auto.
  - apply in_or_app. right. now left.
Qed.

(** One iteration: what it appends to [all_competitors], what it leaves in
    [keyword_id] and in [(check_date, check_time)], and that it leaves the
    snapshots alone. *)
Lemma check_keyword_effect (st : loop_state) (ik : nat * string) :
  let st' := step st ik in
  ls_all_competitors st'
  = ls_all_competitors st
    ++ contribution w domain search_engine use_cache track limit ik
  /\ snapshots (ls_db st') = snapshots (ls_db st)
  /\ ls_check st' = Some (stamp_at w session (fst ik))
  /\ exists kid,
       ls_keyword_id st' = Some kid
       /\ In (mk_keyword kid pid (snd ik) true) (keywords (ls_db st')).
Proof.
  destruct ik as [i keyword]. unfold step, check_keyword, contribution,
    cache_hit, stamp_at. cbn [fst snd].
  pose proof (get_or_create_keyword_row (ls_db st) keyword) as Hrow.
  destruct (get_or_create_keyword_frame (ls_db st) pid keyword)
    as (_ & _ & _ & Hsn1).
  destruct (get_or_create_keyword (ls_db st) pid keyword) as [s1 kid].
  cbn [fst snd] in Hrow, Hsn1.
  destruct (if use_cache then _ else None) as [cached|].
  - match goal with
    | |- context [save_position ?a ?b ?c ?d ?e ?f ?g ?h ?i ?j] =>
        destruct (save_position_frame a b c d e f g h i j)
          as (Hk2 & _ & _ & Hsn2);
        destruct (save_position a b c d e f g h i j) as [s2 x]
    end.
    cbn [fst snd ls_all_competitors ls_db ls_check ls_keyword_id] in *.
    split; [now rewrite List.app_nil_r|].
    split; [congruence|]. split; [reflexivity|].
    exists kid. split; [reflexivity|]. now rewrite Hk2.
  - match goal with
    | |- context [save_position ?a ?b ?c ?d ?e ?f ?g ?h ?i ?j] =>
        destruct (save_position_frame a b c d e f g h i j)
          as (Hk2 & _ & _ & Hsn2);
        destruct (save_position a b c d e f g h i j) as [s2 x]
    end.
    cbn [fst snd ls_all_competitors ls_db ls_check ls_keyword_id] in *.
    assert (Hkw : In (mk_keyword kid pid keyword true) (keywords s2))
      by now rewrite Hk2.
    assert (Hsn : snapshots s2 = snapshots (ls_db st)) by congruence.
    split; [destruct (pd_competitors _); reflexivity|].
    split; [|split; [reflexivity|exists kid]].
    + destruct (pd_competitors _) as [|c0 cs]; [exact Hsn|].
      destruct track; [|exact Hsn].
      match goal with
      | |- context [save_competitors ?a ?b ?c ?d ?e ?f ?g] =>
          destruct (save_competitors_frame a b c d e f g)
            as (_ & _ & _ & Hsn3)
      end.
      congruence.
    + split; [reflexivity|].
      destruct (pd_competitors _) as [|c0 cs]; [exact Hkw|].
      destruct track; [|exact Hkw].
      match goal with
      | |- context [save_competitors ?a ?b ?c ?d ?e ?f ?g] =>
          destruct (save_competitors_frame a b c d e f g)
            as (Hk3 & _ & _ & _)
      end.
      now rewrite Hk3.
Qed.

Lemma check_loop_gathers (iks : list (nat * string)) :
  forall st,
    let st' := fold_left step iks st in
    ls_all_competitors st'
    = ls_all_competitors st
      ++ flat_map (contribution w domain search_engine use_cache track limit)
           iks
    /\ snapshots (ls_db st') = snapshots (ls_db st).
Proof.
  induction iks as [|ik iks IH]; intros st; cbn [fold_left flat_map].
  - now rewrite List.app_nil_r.
  - destruct (IH (step st ik)) as [Ha Hs].
    destruct (check_keyword_effect st ik) as (Ha1 & Hs1 & _).
    cbv zeta. rewrite Ha, Hs, Ha1, Hs1, app_assoc. auto.
Qed.

End Loop.

(** ** [enumerate] *)

Lemma combine_app_same {A B : Type} (l1 l2 : list A) (m1 m2 : list B) :
  length l1 = length m1 ->
  combine (l1 ++ l2) (m1 ++ m2) = combine l1 m1 ++ combine l2 m2.
Proof.
  revert m1. induction l1 as [|x l1 IH]; intros [|y m1] Hlen;
    try discriminate; [reflexivity|].
  simpl. f_equal. apply IH. now injection Hlen.
Qed.

Lemma enumerate_from_app {A : Type} (a : nat) (l1 l2 : list A) :
  combine (seq a (length (l1 ++ l2))) (l1 ++ l2)
  = combine (seq a (length l1)) l1
    ++ combine (seq (a + length l1) (length l2)) l2.
Proof.
  rewrite length_app, seq_app. apply combine_app_same. apply length_seq.
Qed.

Lemma enumerate_snoc {A : Type} (pre : list A) (x : A) :
  enumerate (pre ++ [x]) = enumerate pre ++ [(length pre, x)].
Proof. unfold enumerate. now rewrite enumerate_from_app. Qed.

Lemma flat_map_all_nil {A B : Type} (f : A -> list B) (l : list A) :
  (forall x, f x = []) -> flat_map f l = [].
Proof.
  intros H. induction l as [|x l IH]; simpl; [reflexivity|].
  now rewrite H, IH.
Qed.

Lemma gathered_nil (w : world) (domain search_engine : string)
    (use_cache track : bool) (limit : Z) :
  gathered w domain search_engine use_cache track limit [] = [].
Proof. reflexivity. Qed.

(** The session block never raises: its two reads of the session agree. *)
Lemma resolve_session_total (s1 : db) (session_id : option Z) (pid : Z) :
  exists session, resolve_session s1 session_id pid = Ok session.
Proof.
  unfold resolve_session. destruct session_id as [sid|]; [|eauto].
  destruct (_get_session_info s1 sid pid) as [info|] eqn:E.
  - rewrite E. eauto.
  - eauto.
Qed.

(** The snapshot table after a batch: as before when no keyword brought a
    competitor or when sorting raises, and otherwise that of one
    [save_snapshot_if_changed] call on the competitors of all keywords put
    together, under the id of the last keyword. *)
Lemma batch_snapshot_table :
  forall (w : world) (s : db) (domain : string) (keywords : list string)
         (session_id : option Z) (search_engine : string)
         (use_cache track : bool) (limit : Z) (project : config_project),
    _find_project_by_domain (w_config w) domain = Some project ->
    let created := get_or_create_project s (Py.or_else (cp_name project) domain)
                     domain in
    let pid := snd created in
    let all_competitors := gathered w domain search_engine use_cache track
                             limit keywords in
    let r := check_positions w s domain keywords session_id search_engine
               use_cache track limit in
    (all_competitors = [] -> snapshots (fst r) = snapshots s)
    /\ (forall e, sorted_by_position all_competitors = Err e ->
                  snapshots (fst r) = snapshots s)
    /\ (forall sorted_competitors,
          all_competitors <> [] ->
          sorted_by_position all_competitors = Ok sorted_competitors ->
          exists pre last_keyword kid session,
            keywords = pre ++ [last_keyword]
            /\ resolve_session (fst created) session_id pid = Ok session
            /\ In (mk_keyword kid pid last_keyword true) (Database.keywords (fst r))
            /\ snapshots (fst r)
               = if kid =? 0 then snapshots s
                 else snapshots
                        (fst (save_snapshot_if_changed no_faults s pid kid
                                (fst (stamp_at w session (length pre)))
                                (firstn 10 sorted_competitors)))).
Proof.
  intros w s domain keywords session_id search_engine use_cache track limit
    project Hproj created pid all_competitors r.
  subst r pid created. unfold check_positions. rewrite Hproj.
  destruct (get_or_create_project_frame s (Py.or_else (cp_name project) domain)
              domain) as (_ & _ & _ & _ & Hsn1).
  destruct (get_or_create_project s _ domain) as [s1 pid1].
  cbn [fst snd] in *.
  destruct (resolve_session_total s1 session_id pid1) as [session Hsession].
  rewrite Hsession.
  set (st0 := mk_loop s1 [] [] None (option_map snd session)).
  set (step := check_keyword w domain search_engine use_cache track limit pid1
                 session).
  destruct (check_loop_gathers w domain search_engine use_cache track limit
              pid1 session (enumerate keywords) st0) as [Hall Hsn].
  fold step in Hall, Hsn. cbn [ls_all_competitors ls_db st0 app] in Hall, Hsn.
  fold (gathered w domain search_engine use_cache track limit keywords) in Hall.
  fold all_competitors in Hall.
  assert (Hsame : snapshots (ls_db (fold_left step (enumerate keywords) st0))
                  = snapshots s) by congruence.
  split; [|split].
  - intros Hnil. unfold snapshot_after_loop. rewrite Hall, Hnil. exact Hsame.
  - intros e He. unfold snapshot_after_loop. rewrite Hall.
    destruct all_competitors; [exact Hsame|].
    destruct track; [|exact Hsame]. rewrite He. exact Hsame.
  - intros sorted_competitors Hne Hsorted.
    destruct (exists_last (l := keywords)) as (pre & last_keyword & Hkw).
    { intros ->. apply Hne. reflexivity. }
    assert (Htrack : track = true).
    { destruct track; [reflexivity|]. exfalso. apply Hne.
      unfold all_competitors, gathered.
      apply flat_map_all_nil. intros ik. unfold contribution.
      destruct (cache_hit _ _ _ _ _ _); [reflexivity|].
      destruct (pd_competitors _); reflexivity. }
    pose proof (snapshot_after_loop_frame
                  (fold_left step (enumerate keywords) st0) track pid1)
      as (Hkf & _ & _).
    cbv zeta in Hkf.
    set (st := fold_left step (enumerate pre) st0).
    assert (Hfold : fold_left step (enumerate keywords) st0
                    = step st (length pre, last_keyword)).
    { rewrite Hkw, enumerate_snoc, fold_left_app. reflexivity. }
    destruct (check_keyword_effect w domain search_engine use_cache track
                limit pid1 session st (length pre, last_keyword))
      as (_ & _ & Hcheck & kid & Hkid & Hrow).
    fold step in Hcheck, Hkid, Hrow. cbn [fst snd] in Hcheck, Hrow.
    rewrite <- Hfold in Hcheck, Hkid, Hrow.
    exists pre, last_keyword, kid, session.
    split; [exact Hkw|]. split; [reflexivity|]. split.
    + rewrite Hkf. exact Hrow.
    + unfold snapshot_after_loop. rewrite Hall.
      destruct all_competitors as [|c0 cs]; [congruence|].
      rewrite Htrack, Hsorted, Hkid, Hcheck.
      destruct (kid =? 0); [exact Hsame|].
      cbn [fst]. apply save_snapshot_table. exact Hsame.
Qed.

(** ** Competitors are stored and stay stored *)
Section StoredCompetitors.
Variables (pid kid : Z) (sid : option Z) (d t : string).

Lemma insert_or_ignore_keeps (c : conn) domain position r :
  In r (cn_competitors c) ->
  In r (cn_competitors (insert_or_ignore_competitor c pid kid sid d t domain
                          position)).
Proof.
  unfold insert_or_ignore_competitor. intros Hr.
  destruct (_ && _); [|exact Hr]. cbn. apply in_or_app. now left.
Qed.

Lemma save_competitor_keeps (c : conn) (comp : competitor) r :
  In r (cn_competitors c) ->
  In r (cn_competitors (save_competitor pid kid sid d t c comp)).
Proof.
  unfold save_competitor. intros Hr.
  destruct (_ || _); [exact Hr|].
  destruct (0 <? _).
  - rewrite update_domain_reference_competitors.
    now apply insert_or_ignore_keeps.
  - now apply insert_or_ignore_keeps.
Qed.

Lemma fold_save_competitor_keeps (comps : list competitor) :
  forall (c : conn) r,
    In r (cn_competitors c) ->
    In r (cn_competitors (fold_left (save_competitor pid kid sid d t) comps c)).
Proof.
  induction comps as [|comp comps IH]; intros c r Hr; [exact Hr|].
  cbn [fold_left]. apply IH. now apply save_competitor_keeps.
Qed.

Lemma competitor_key_eqb_refl (id : Z) domain position :
  competitor_key_eqb pid kid d t domain position
    (mk_competitor_row id pid kid sid d t domain position) = true.
Proof.
  unfold competitor_key_eqb. cbn.
  now rewrite !Z.eqb_refl, !String.eqb_refl.
Qed.

Lemma insert_or_ignore_stores (c : conn) domain position :
  1 <= position <= 100 ->
  exists row,
    In row (cn_competitors (insert_or_ignore_competitor c pid kid sid d t
                              domain position))
    /\ competitor_key_eqb pid kid d t domain position row = true.
Proof.
  intros Hrange. unfold insert_or_ignore_competitor.
  replace (1 <=? position) with true by (symmetry; apply Z.leb_le; lia).
  replace (position <=? 100) with true by (symmetry; apply Z.leb_le; lia).
  cbn [andb].
  destruct (existsb _ (cn_competitors c)) eqn:E; cbn [negb].
  - apply existsb_exists in E. exact E.
  - eexists. split.
    + cbn. apply in_or_app. right. left. reflexivity.
    + apply competitor_key_eqb_refl.
Qed.

Lemma save_competitor_stores (c : conn) (comp : competitor) domain position :
  valid_entry comp domain position ->
  exists row,
    In row (cn_competitors (save_competitor pid kid sid d t c comp))
    /\ competitor_key_eqb pid kid d t domain position row = true.
Proof.
  intros (Hd & Hne & Hp & Hrange). unfold save_competitor.
  rewrite Hd, Hp. cbn [Py.or_else].
  rewrite (proj2 (String.eqb_neq _ _) Hne).
  replace (position =? 0) with false by (symmetry; apply Z.eqb_neq; lia).
  cbn [orb].
  destruct (0 <? _).
  - rewrite update_domain_reference_competitors.
    now apply insert_or_ignore_stores.
  - now apply insert_or_ignore_stores.
Qed.

Lemma fold_save_competitor_stores (comps : list competitor) (comp : competitor)
    domain position :
  In comp comps ->
  valid_entry comp domain position ->
  forall c,
  exists row,
    In row (cn_competitors (fold_left (save_competitor pid kid sid d t) comps c))
    /\ competitor_key_eqb pid kid d t domain position row = true.
Proof.
  intros Hin Hvalid.
  induction comps as [|x comps IH]; intros c; [destruct Hin|].
  cbn [fold_left]. destruct Hin as [->|Hin].
  - destruct (save_competitor_stores c comp domain position Hvalid)
      as (row & Hrow & Hkey).
    exists row. split; [|exact Hkey].
    now apply fold_save_competitor_keeps.
  - now apply IH.
Qed.

(** Every valid entry handed to [save_competitors] is stored under its key
    after the call, and rows stored before stay. *)
Lemma save_competitors_stores (s : db) (comps : list competitor) :
  (forall r, In r (competitors s) ->
             In r (competitors (save_competitors s pid kid d t comps sid)))
  /\ (forall comp domain position,
        In comp comps -> valid_entry comp domain position ->
        stored_competitor pid kid (d, t) domain position
          (save_competitors s pid kid d t comps sid)).
Proof.
  unfold save_competitors, stored_competitor.
  destruct comps as [|comp0 comps0].
  - split; [auto|]. intros comp domain position [].
  - cbn [competitors set_competitors_domains fst snd]. split.
    + intros r Hr. now apply fold_save_competitor_keeps.
    + intros comp domain position Hin Hvalid.
      now apply fold_save_competitor_stores with (comp := comp).
Qed.

End StoredCompetitors.

Lemma get_or_create_keyword_keeps (s : db) (pid' : Z) (keyword' : string)
    (kid pid : Z) (keyword : string) :
  In (mk_keyword kid pid keyword true) (keywords s) ->
  In (mk_keyword kid pid keyword true)
    (keywords (fst (get_or_create_keyword s pid' keyword'))).
Proof.
  intros Hin. unfold get_or_create_keyword.
  destruct (find _ (keywords s)) as [row|]; cbn [fst keywords set_keywords].
  - unfold update_where. apply in_map_iff.
    exists (mk_keyword kid pid keyword true). split; [|exact Hin].
    destruct (_ =? _); reflexivity.
  - apply in_or_app. now left.
Qed.

(** ** What one iteration stores, and that later iterations keep it *)
Section LoopStores.
Variables (w : world) (domain search_engine : string)
          (use_cache track : bool) (limit pid : Z)
          (session : option (Z * (string * string))).

Let step := check_keyword w domain search_engine use_cache track limit pid
              session.

Lemma check_keyword_keeps kid keyword stamp dom pos (st : loop_state)
    (ik : nat * string) :
  kept pid kid keyword stamp dom pos (ls_db st) ->
  kept pid kid keyword stamp dom pos (ls_db (step st ik)).
Proof.
  intros [Hkw (row & Hrow & Hkey)]. destruct ik as [i keyword'].
  unfold step, check_keyword.
  pose proof (get_or_create_keyword_keeps (ls_db st) pid keyword' _ _ _ Hkw)
    as Hkw1.
  destruct (get_or_create_keyword_frame (ls_db st) pid keyword')
    as (_ & _ & Hc1 & _).
  destruct (get_or_create_keyword (ls_db st) pid keyword') as [s1 kid'].
  cbn [fst snd] in Hkw1, Hc1.
  assert (Hkept2 : forall a b c e f g h sid,
             kept pid kid keyword stamp dom pos
               (fst (save_position s1 pid a b c e f g h sid))).
  { intros a b c e f g h sid0.
    destruct (save_position_frame s1 pid a b c e f g h sid0)
      as (Hk2 & _ & Hc2 & _).
    split; [now rewrite Hk2|]. exists row. split; [|exact Hkey].
    now rewrite Hc2, Hc1. }
  destruct (if use_cache then _ else None) as [cached|].
  - match goal with
    | |- context [save_position s1 pid ?a ?b ?c ?e ?f ?g ?h ?i] =>
        specialize (Hkept2 a b c e f g h i);
        destruct (save_position s1 pid a b c e f g h i) as [s2 x]
    end.
    exact Hkept2.
  - match goal with
    | |- context [save_position s1 pid ?a ?b ?c ?e ?f ?g ?h ?i] =>
        specialize (Hkept2 a b c e f g h i);
        destruct (save_position s1 pid a b c e f g h i) as [s2 x]
    end.
    cbn [fst ls_db] in *.
    destruct (pd_competitors _) as [|c0 cs]; [exact Hkept2|].
    destruct track; [|exact Hkept2].
    destruct Hkept2 as [Hkw2 (row2 & Hrow2 & Hkey2)].
    match goal with
    | |- context [save_competitors ?a ?b ?c ?e ?f ?g ?h] =>
        destruct (save_competitors_frame a b c e f g h) as (Hk3 & _);
        destruct (save_competitors_stores b c h e f a g) as [Hkeep _]
    end.
    split; [now rewrite Hk3|].
    exists row2. split; [now apply Hkeep|exact Hkey2].
Qed.

Lemma check_loop_keeps kid keyword stamp dom pos (iks : list (nat * string)) :
  forall st,
    kept pid kid keyword stamp dom pos (ls_db st) ->
    kept pid kid keyword stamp dom pos (ls_db (fold_left step iks st)).
Proof.
  induction iks as [|ik iks IH]; intros st H; [exact H|].
  cbn [fold_left]. apply IH. now apply check_keyword_keeps.
Qed.

Lemma check_keyword_stores (st : loop_state) (i : nat) (keyword : string)
    (comp : competitor) (dom : string) (pos : Z) :
  In comp (contribution w domain search_engine use_cache track limit
             (i, keyword)) ->
  valid_entry comp dom pos ->
  exists kid,
    kept pid kid keyword (stamp_at w session i) dom pos
      (ls_db (step st (i, keyword))).
Proof.
  unfold contribution, cache_hit, step, check_keyword, stamp_at.
  cbn [fst snd]. intros Hin Hvalid.
  pose proof (get_or_create_keyword_row pid (ls_db st) keyword) as Hrow.
  destruct (get_or_create_keyword (ls_db st) pid keyword) as [s1 kid].
  cbn [fst snd] in Hrow. exists kid.
  destruct (if use_cache then _ else None) as [cached|]; [destruct Hin|].
  match goal with
  | |- context [save_position s1 pid ?a ?b ?c ?e ?f ?g ?h ?i] =>
      destruct (save_position_frame s1 pid a b c e f g h i) as (Hk2 & _);
      destruct (save_position s1 pid a b c e f g h i) as [s2 x]
  end.
  cbn [fst ls_db] in *.
  destruct (pd_competitors _) as [|c0 cs]; [destruct Hin|].
  destruct track; [|destruct Hin].
  match goal with
  | |- context [save_competitors ?a ?b ?c ?e ?f ?g ?h] =>
      destruct (save_competitors_frame a b c e f g h) as (Hk3 & _);
      destruct (save_competitors_stores b c h e f a g) as [_ Hstore]
  end.
  split.
  - now rewrite Hk3, Hk2.
  - specialize (Hstore comp dom pos Hin Hvalid).
    destruct session as [[sid0 [d0 t0]]|]; [exact Hstore|].
    destruct (w_now w i). exact Hstore.
Qed.

End LoopStores.

(** Every valid competitor entry that a keyword of the batch brings is stored
    under that keyword's id and the timestamp of its check when the batch
    returns. *)
Lemma batch_saves_competitors :
  forall (w : world) (s : db) (domain : string) (keywords : list string)
         (session_id : option Z) (search_engine : string)
         (use_cache track : bool) (limit : Z) (project : config_project)
         (session : option (Z * (string * string))),
    _find_project_by_domain (w_config w) domain = Some project ->
    let created := get_or_create_project s (Py.or_else (cp_name project) domain)
                     domain in
    resolve_session (fst created) session_id (snd created) = Ok session ->
    forall (i : nat) (keyword : string) (comp : competitor) (dom : string)
           (pos : Z),
      nth_error keywords i = Some keyword ->
      In comp (contribution w domain search_engine use_cache track limit
                 (i, keyword)) ->
      valid_entry comp dom pos ->
      exists kid,
        kept (snd created) kid keyword (stamp_at w session i) dom pos
          (fst (check_positions w s domain keywords session_id search_engine
                  use_cache track limit)).
Proof.
  intros w s domain keywords session_id search_engine use_cache track limit
    project session Hproj created Hsession i keyword comp dom pos Hnth Hin
    Hvalid.
  subst created. unfold check_positions. rewrite Hproj.
  destruct (get_or_create_project s _ domain) as [s1 pid].
  cbn [fst snd] in *. rewrite Hsession. cbv beta iota.
  match goal with
  | |- context [fold_left _ _ ?st] => remember st as st0 eqn:Hst0
  end.
  set (step := check_keyword w domain search_engine use_cache track limit pid
                 session).
  apply nth_error_split in Hnth. destruct Hnth as (pre & post & Hkw & Hlen).
  assert (Hfold : fold_left step (enumerate keywords) st0
                  = fold_left step
                      (combine (seq (0 + length pre) (length (keyword :: post)))
                         (keyword :: post))
                      (fold_left step (enumerate pre) st0)).
  { rewrite Hkw. unfold enumerate. rewrite enumerate_from_app.
    apply fold_left_app. }
  cbn [length seq combine fold_left] in Hfold. rewrite Nat.add_0_l, Hlen in Hfold.
  destruct (check_keyword_stores w domain search_engine use_cache track limit
              pid session (fold_left step (enumerate pre) st0) i keyword comp
              dom pos Hin Hvalid) as [kid Hkept].
  fold step in Hkept.
  exists kid.
  pose proof (check_loop_keeps w domain search_engine use_cache track limit pid
                session kid keyword (stamp_at w session i) dom pos
                (combine (seq (S i) (length post)) post) _ Hkept) as Hfinal.
  fold step in Hfinal. rewrite <- Hfold in Hfinal.
  destruct (snapshot_after_loop_frame (fold_left step (enumerate keywords) st0)
              track pid) as (Hk & _ & Hc).
  destruct Hfinal as [Hkwrow (row & Hrow & Hkey)].
  split.
  - now rewrite Hk.
  - exists row. split; [now rewrite Hc|exact Hkey].
Qed.

Lemma save_snapshot_length (s : db) pid kid d top_10 :
  (length (snapshots (fst (save_snapshot_if_changed no_faults s pid kid d
                             top_10)))
   <= length (snapshots s) + 1)%nat.
Proof.
  unfold save_snapshot_if_changed. cbn [main_fault no_faults].
  destruct (find _ _).
  - match goal with
    | |- context [if ?b then _ else _] => destruct b
    end; cbn [fst snapshots set_snapshots]; rewrite update_where_length; lia.
  - cbn [fst snapshots set_snapshots]. rewrite length_app. simpl. lia.
Qed.

(** C5, as the code has it.  For every keyword of a batch that is not
    answered by the cache, with competitor tracking on, every valid entry of
    the competitor list the position source returned, cut to the limit, is
    stored under that keyword's id and the timestamp of its check.  The
    snapshot is written once per batch, after the loop, and only when some
    keyword brought competitors: the competitors of all keywords of the batch
    are put together, sorted ascending by position, cut to ten, and handed
    to one [save_snapshot_if_changed] call under the id of the last keyword
    of the batch and the date of its check; a batch adds at most one snapshot
    row.  When no keyword brought a competitor, and when sorting raises, the
    snapshots are as before. *)
Theorem batch_competitors_and_snapshot :
  forall (w : world) (s : db) (domain : string) (keywords : list string)
         (session_id : option Z) (search_engine : string)
         (use_cache track : bool) (limit : Z) (project : config_project)
         (session : option (Z * (string * string))),
    _find_project_by_domain (w_config w) domain = Some project ->
    let created := get_or_create_project s (Py.or_else (cp_name project) domain)
                     domain in
    let pid := snd created in
    resolve_session (fst created) session_id pid = Ok session ->
    let all_competitors := gathered w domain search_engine use_cache track
                             limit keywords in
    let r := check_positions w s domain keywords session_id search_engine
               use_cache track limit in
    (forall (i : nat) (keyword : string) (comp : competitor) (dom : string)
            (pos : Z),
        nth_error keywords i = Some keyword ->
        In comp (contribution w domain search_engine use_cache track limit
                   (i, keyword)) ->
        valid_entry comp dom pos ->
        exists kid, kept pid kid keyword (stamp_at w session i) dom pos (fst r))
    /\ (all_competitors = [] -> snapshots (fst r) = snapshots s)
    /\ (forall e, sorted_by_position all_competitors = Err e ->
                  snapshots (fst r) = snapshots s)
    /\ (forall sorted_competitors,
          all_competitors <> [] ->
          sorted_by_position all_competitors = Ok sorted_competitors ->
          exists pre last_keyword kid,
            keywords = pre ++ [last_keyword]
            /\ In (mk_keyword kid pid last_keyword true)
                 (Database.keywords (fst r))
            /\ snapshots (fst r)
               = if kid =? 0 then snapshots s
                 else snapshots
                        (fst (save_snapshot_if_changed no_faults s pid kid
                                (fst (stamp_at w session (length pre)))
                                (firstn 10 sorted_competitors))))
    /\ (length (snapshots (fst r)) <= length (snapshots s) + 1)%nat.
Proof.
  intros w s domain keywords session_id search_engine use_cache track limit
    project session Hproj created pid Hsession all_competitors r.
  destruct (batch_snapshot_table w s domain keywords session_id search_engine
              use_cache track limit project Hproj) as (Hnil & Herr & Hsome).
  fold created in Hsome. fold pid in Hsome.
  fold all_competitors in Hnil, Herr, Hsome. fold r in Hnil, Herr, Hsome.
  assert (Hone : forall sorted_competitors,
             all_competitors <> [] ->
             sorted_by_position all_competitors = Ok sorted_competitors ->
             exists pre last_keyword kid,
               keywords = pre ++ [last_keyword]
               /\ In (mk_keyword kid pid last_keyword true)
                    (Database.keywords (fst r))
               /\ snapshots (fst r)
                  = if kid =? 0 then snapshots s
                    else snapshots
                           (fst (save_snapshot_if_changed no_faults s pid kid
                                   (fst (stamp_at w session (length pre)))
                                   (firstn 10 sorted_competitors)))).
  { intros sorted_competitors Hne Hsorted.
    destruct (Hsome sorted_competitors Hne Hsorted)
      as (pre & last_keyword & kid & session' & Hkw & Hs' & Hrow & Hsn).
    assert (session' = session) by congruence. subst session'.
    exists pre, last_keyword, kid. auto. }
  split; [|split; [exact Hnil|split; [exact Herr|split; [exact Hone|]]]].
  - intros i keyword comp dom pos Hnth Hin Hvalid.
    exact (batch_saves_competitors w s domain keywords session_id search_engine
             use_cache track limit project session Hproj Hsession i keyword
             comp dom pos Hnth Hin Hvalid).
  - destruct all_competitors as [|c0 cs] eqn:Hall.
    + rewrite Hnil by reflexivity. lia.
    + destruct (sorted_by_position (c0 :: cs)) as [sorted_competitors|e] eqn:Hs.
      * destruct (Hone sorted_competitors) as (pre & last & kid & _ & _ & Hsn);
          [discriminate|reflexivity|].
        rewrite Hsn. destruct (kid =? 0); [lia|apply save_snapshot_length].
      * rewrite (Herr e) by reflexivity. lia.
Qed.

Lemma batch_competitors_and_snapshot_witness :
  _find_project_by_domain (w_config world_two_keywords) "example.com"
  = Some (mk_config_project (Some "Example") (Some "https://example.com/"))
  /\ resolve_session
       (fst (get_or_create_project empty_db "Example" "example.com")) None
       (snd (get_or_create_project empty_db "Example" "example.com"))
     = Ok None
  /\ (length (snapshots after_two_keywords)
      <= length (snapshots empty_db) + 1)%nat
  /\ exists kid,
       kept 1 kid "k1" ("2024-05-01", "15:30:00") "a.com" 1 after_two_keywords.
Proof.
  assert (H1 : _find_project_by_domain (w_config world_two_keywords)
                 "example.com"
               = Some (mk_config_project (Some "Example")
                         (Some "https://example.com/"))) by reflexivity.
  assert (H2 : resolve_session
                 (fst (get_or_create_project empty_db "Example" "example.com"))
                 None
                 (snd (get_or_create_project empty_db "Example" "example.com"))
               = Ok None) by reflexivity.
  split; [exact H1|]. split; [exact H2|].
  pose proof (batch_competitors_and_snapshot world_two_keywords empty_db
                "example.com" ["k1"; "k2"] None "yandex" false true 20 _ None
                H1 H2) as W.
  cbv zeta in W. destruct W as (Wsaved & _ & _ & _ & Wlen).
  split; [exact Wlen|].
  apply (Wsaved 0%nat "k1" competitor_a1 "a.com" 1).
  - reflexivity.
  - left. reflexivity.
  - repeat split; try discriminate; lia.
Defined.

(** C5, as the claim has it, fails.  In a batch over k1 (competitor a.com at
    1) and k2 (competitor b.com at 2) both keywords bring a competitor list,
    yet one snapshot row is written: it is under the id of k2 and holds the
    entry of k1's list beside that of k2's; no snapshot is under the id of
    k1. *)
Lemma batch_snapshot_mixes_keywords :
  map (fun r => (kw_id r, kw_keyword r)) (Database.keywords after_two_keywords)
  = [(1, "k1"); (2, "k2")]
  /\ snapshot_contents after_two_keywords
     = [(2, Json.dumps [competitor_a1; competitor_b2])]
  /\ snapshots_with_key 1 1 "2024-05-01" after_two_keywords = [].
Proof. vm_compute. repeat split. Qed.

(** * Further properties of the store *)

Lemma find_map_stable {A : Type} (p : A -> bool) (g : A -> A) (l : list A) :
  (forall r, p (g r) = p r) -> find p (map g l) = option_map g (find p l).
Proof.
  intros Hg. induction l as [|x l IH]; simpl; [reflexivity|].
  rewrite Hg. destruct (p x); [reflexivity|exact IH].
Qed.

Lemma find_app_none {A : Type} (p : A -> bool) (l : list A) (x : A) :
  find p l = None -> p x = true -> find p (l ++ [x]) = Some x.
Proof.
  intros Hnone Hx. induction l as [|y l IH]; simpl in *.
  - now rewrite Hx.
  - destruct (p y); [discriminate|auto].
Qed.

Lemma map_id_in {A : Type} (g : A -> A) (l : list A) :
  (forall r, In r l -> g r = r) -> map g l = l.
Proof.
  intros H. induction l as [|x l IH]; simpl; [reflexivity|].
  rewrite H by now left. f_equal. apply IH. intros r Hr. apply H. now right.
Qed.

(** ** [get_or_create_keyword] *)



(** ** [get_or_create_project] *)

Lemma get_or_create_project_found (s : db) (name domain : string) :
  let r := get_or_create_project s name domain in
  exists row,
    find (fun x => String.eqb (pr_domain x) domain) (projects (fst r)) = Some row
    /\ pr_id row = snd r.
Proof.
  unfold get_or_create_project.
  destruct (find _ (projects s)) as [row|] eqn:Hfind;
    cbn [fst snd projects set_projects].
  - unfold update_where. rewrite find_map_stable.
    + rewrite Hfind. cbn [option_map]. eexists. split; [reflexivity|].
      now rewrite Z.eqb_refl.
    + intros x. destruct (pr_id x =? pr_id row); reflexivity.
  - eexists. split.
    + apply find_app_none; [exact Hfind|]. cbn. apply String.eqb_refl.
    + reflexivity.
Qed.

(** X2.  Resolving a domain again, under any name, returns the id of the
    first call and adds no project row; the project then carries the new
    name, so a project is renamed in place and never duplicated. *)
Theorem get_or_create_project_renames_in_place :
  forall (s : db) (name name' domain : string),
    let r1 := get_or_create_project s name domain in
    let r2 := get_or_create_project (fst r1) name' domain in
    snd r2 = snd r1
    /\ length (projects (fst r2)) = length (projects (fst r1))
    /\ In (mk_project (snd r1) name' domain) (projects (fst r2))
    /\ map pr_domain (projects (fst r2)) = map pr_domain (projects (fst r1))
    /\ map pr_id (projects (fst r2)) = map pr_id (projects (fst r1)).
Proof.
  intros s name name' domain r1 r2.
  destruct (get_or_create_project_found s name domain) as (row & Hfind & Hid).
  fold r1 in Hfind, Hid.
  pose proof (find_some _ _ Hfind) as [Hin Hdom].
  apply String.eqb_eq in Hdom.
  unfold r2, get_or_create_project. rewrite Hfind.
  cbn [fst snd projects set_projects].
  split; [exact Hid|]. split; [apply update_where_length|].
  unfold update_where. split; [|split].
  - apply in_map_iff. exists row. rewrite Z.eqb_refl.
    split; [|exact Hin]. now rewrite Hid, Hdom.
  - rewrite map_map. apply map_ext. intros x.
    destruct (pr_id x =? pr_id row); reflexivity.
  - rewrite map_map. apply map_ext. intros x.
    destruct (pr_id x =? pr_id row); reflexivity.
Qed.

(** ** [save_position] keeps the keys of the table *)

Lemma position_key_eqb_same (pid kid : Z) (d e : string) (pid' kid' : Z)
    (d' e' : string) (r : position_row) :
  position_key_eqb pid kid d e r = true ->
  position_key_eqb pid' kid' d' e' r = true ->
  pid' = pid /\ kid' = kid /\ d' = d /\ e' = e.
Proof.
  intros H H'.
  apply position_key_eqb_true in H. apply position_key_eqb_true in H'.
  destruct H as (<- & <- & <- & <-), H' as (<- & <- & <- & <-). auto.
Qed.

(** X3.  On a store whose position ids are a primary key and that holds at
    most one row per (project, keyword, date, search engine), [save_position]
    keeps both properties, and every row stored under another key is still
    there unchanged. *)
Theorem save_position_keeps_uniqueness :
  forall (s : db) pid kid d t p u n e sid,
    position_ids_unique s ->
    positions_unique s ->
    let s' := fst (save_position s pid kid d t p u n e sid) in
    position_ids_unique s'
    /\ positions_unique s'
    /\ forall r, In r (positions s) ->
                 position_key_eqb pid kid d e r = false ->
                 In r (positions s').
Proof.
  intros s pid kid d t p u n e sid Hids Huniq s'.
  split; [exact (proj1 (save_position_written s pid kid d t p u n e sid Hids))|].
  unfold s', save_position.
  destruct (find _ (positions s)) as [row|] eqn:Hfind;
    cbn [fst positions set_positions].
  - pose proof (find_some _ _ Hfind) as [Hin Hkey]. split.
    + intros pid' kid' d' e'. unfold rows_with_key.
      cbn [positions set_positions]. unfold update_where.
      rewrite filter_map_stable, length_map; [apply Huniq|].
      intros r. destruct (po_id r =? po_id row); reflexivity.
    + intros r Hr Hneq. unfold update_where. apply in_map_iff. exists r.
      split; [|exact Hr].
      destruct (po_id r =? po_id row) eqn:E; [|reflexivity].
      apply Z.eqb_eq in E.
      assert (r = row) by (eapply NoDup_map_inj; eauto). subst r. congruence.
  - split.
    + intros pid' kid' d' e'. unfold rows_with_key.
      cbn [positions set_positions]. rewrite filter_app, length_app.
      cbn [filter].
      destruct (position_key_eqb pid' kid' d' e' _) eqn:E.
      * destruct (position_key_eqb_same pid kid d e pid' kid' d' e' _
                    (position_key_eqb_refl pid kid d e _ sid t p u n) E)
          as (-> & -> & -> & ->).
        rewrite find_hd_filter in Hfind.
        destruct (filter _ (positions s)); [simpl; lia|discriminate].
      * simpl. specialize (Huniq pid' kid' d' e'). unfold rows_with_key in Huniq.
        lia.
    + intros r Hr _. apply in_or_app. now left.
Qed.

Lemma save_position_keeps_uniqueness_witness :
  position_ids_unique store_one_position
  /\ positions_unique store_one_position
  /\ positions_unique
       (fst (save_position store_one_position 1 2 "2024-05-01" "10:00:00"
               (Some 3) None 100 "yandex" None)).
Proof.
  assert (H1 : position_ids_unique store_one_position).
  { repeat constructor. intros []. }
  assert (H2 : positions_unique store_one_position).
  { intros pid kid d e. unfold rows_with_key. cbn.
    destruct (position_key_eqb _ _ _ _ _); simpl; lia. }
  split; [exact H1|]. split; [exact H2|].
  exact (proj1 (proj2 (save_position_keeps_uniqueness store_one_position 1 2
                         "2024-05-01" "10:00:00" (Some 3) None 100 "yandex"
                         None H1 H2))).
Defined.

(** ** [save_competitors]: a retry changes nothing, and no duplicate rows *)

Lemma competitor_key_eqb_true (pid kid : Z) (d t dom : string) (pos : Z)
    (r : competitor_row) :
  competitor_key_eqb pid kid d t dom pos r = true ->
  co_project_id r = pid /\ co_keyword_id r = kid /\ co_check_date r = d
  /\ co_check_time r = t /\ co_competitor_domain r = dom
  /\ co_competitor_position r = pos.
Proof.
  unfold competitor_key_eqb. intros H.
  repeat (apply andb_prop in H; destruct H as [H ?]).
  repeat split;
    first [ now apply Z.eqb_eq | now apply String.eqb_eq ].
Qed.

Lemma save_competitor_noop (pid kid : Z) (sid : option Z) (d t : string)
    (c : conn) (comp : competitor) :
  cn_total_changes c = 0 ->
  (forall dom pos, valid_entry comp dom pos ->
     exists row, In row (cn_competitors c)
                 /\ competitor_key_eqb pid kid d t dom pos row = true) ->
  save_competitor pid kid sid d t c comp = c.
Proof.
  intros Htc Hstored. unfold save_competitor.
  destruct (String.eqb (Py.or_else (c_domain comp) EmptyString) EmptyString)
    eqn:Edom; [reflexivity|].
  destruct (Py.or_else (c_position comp) 0 =? 0) eqn:Epos; [reflexivity|].
  cbn [orb].
  assert (Hins : insert_or_ignore_competitor c pid kid sid d t
                   (Py.or_else (c_domain comp) EmptyString)
                   (Py.or_else (c_position comp) 0) = c).
  { unfold insert_or_ignore_competitor.
    destruct ((1 <=? Py.or_else (c_position comp) 0)
              && (Py.or_else (c_position comp) 0 <=? 100)) eqn:Erange;
      [|reflexivity].
    cbn [andb].
    destruct (c_domain comp) as [dom|] eqn:Hd; [|discriminate].
    destruct (c_position comp) as [pos|] eqn:Hp; [|discriminate].
    cbn [Py.or_else] in *.
    apply andb_prop in Erange. destruct Erange as [Hlo Hhi].
    apply Z.leb_le in Hlo. apply Z.leb_le in Hhi.
    apply String.eqb_neq in Edom.
    destruct (Hstored dom pos) as (row & Hrow & Hkey).
    { repeat split; auto. }
    replace (existsb _ (cn_competitors c)) with true; [reflexivity|].
    symmetry. apply existsb_exists. eauto. }
  rewrite Hins, Htc. reflexivity.
Qed.

Lemma fold_save_competitor_noop (pid kid : Z) (sid : option Z) (d t : string)
    (comps : list competitor) (c : conn) :
  cn_total_changes c = 0 ->
  (forall comp dom pos, In comp comps -> valid_entry comp dom pos ->
     exists row, In row (cn_competitors c)
                 /\ competitor_key_eqb pid kid d t dom pos row = true) ->
  fold_left (save_competitor pid kid sid d t) comps c = c.
Proof.
  intros Htc. induction comps as [|comp comps IH]; intros Hstored;
    [reflexivity|].
  cbn [fold_left]. rewrite save_competitor_noop; auto.
  - apply IH. intros comp' dom pos Hin. apply Hstored. now right.
  - intros dom pos. apply Hstored. now left.
Qed.

Lemma set_competitors_domains_same (s : db) :
  set_competitors_domains s (competitors s) (domains s) = s.
Proof. now destruct s. Qed.

(** X4.  Repeating a [save_competitors] call with the same keyword,
    timestamp and list, under any session, changes nothing: every entry is
    then a duplicate or is skipped, no row is added and no domain is
    counted. *)
Theorem save_competitors_retry_is_noop :
  forall (s : db) (pid kid : Z) (d t : string) (comps : list competitor)
         (sid sid' : option Z),
    save_competitors (save_competitors s pid kid d t comps sid) pid kid d t
      comps sid'
    = save_competitors s pid kid d t comps sid.
Proof.
  intros s pid kid d t comps sid sid'.
  destruct (save_competitors_stores pid kid sid d t s comps) as [_ Hstored].
  set (s1 := save_competitors s pid kid d t comps sid) in *.
  unfold save_competitors at 1.
  destruct comps as [|comp0 comps0]; [reflexivity|].
  rewrite fold_save_competitor_noop.
  - apply set_competitors_domains_same.
  - reflexivity.
  - intros comp dom pos Hin Hvalid. exact (Hstored comp dom pos Hin Hvalid).
Qed.

Lemma insert_or_ignore_unique (c : conn) pid kid sid d t dom pos :
  competitors_unique (cn_competitors c) ->
  competitors_unique
    (cn_competitors (insert_or_ignore_competitor c pid kid sid d t dom pos)).
Proof.
  intros Huniq. unfold insert_or_ignore_competitor.
  destruct ((1 <=? pos) && (pos <=? 100)); [|exact Huniq]. cbn [andb].
  destruct (existsb _ (cn_competitors c)) eqn:E; [exact Huniq|].
  cbn [negb cn_competitors].
  intros pid' kid' d' t' dom' pos'. rewrite filter_app, length_app.
  cbn [filter].
  destruct (competitor_key_eqb pid' kid' d' t' dom' pos' _) eqn:E'.
  - apply competitor_key_eqb_true in E'. cbn in E'.
    destruct E' as (<- & <- & <- & <- & <- & <-).
    rewrite filter_none; [simpl; lia|].
    intros x Hx.
    destruct (competitor_key_eqb pid kid d t dom pos x) eqn:Ex; [|reflexivity].
    assert (existsb (competitor_key_eqb pid kid d t dom pos) (cn_competitors c)
            = true) by (apply existsb_exists; eauto).
    congruence.
  - simpl. specialize (Huniq pid' kid' d' t' dom' pos'). lia.
Qed.

(** X5.  [save_competitors] never stores a second row for a (project,
    keyword, date, time, domain, position) that is already there: a table
    without duplicates stays without duplicates. *)
Theorem save_competitors_no_duplicates :
  forall (s : db) (pid kid : Z) (d t : string) (comps : list competitor)
         (sid : option Z),
    competitors_unique (competitors s) ->
    competitors_unique (competitors (save_competitors s pid kid d t comps sid)).
Proof.
  intros s pid kid d t comps sid Huniq. unfold save_competitors.
  destruct comps as [|comp0 comps0]; [exact Huniq|].
  cbn [competitors set_competitors_domains].
  assert (Hfold : forall comps c,
             competitors_unique (cn_competitors c) ->
             competitors_unique
               (cn_competitors
                  (fold_left (save_competitor pid kid sid d t) comps c))).
  { induction comps as [|comp comps IH]; intros c Hc; [exact Hc|].
    cbn [fold_left]. apply IH. unfold save_competitor.
    destruct (_ || _); [exact Hc|].
    destruct (0 <? _).
    - rewrite update_domain_reference_competitors.
      now apply insert_or_ignore_unique.
    - now apply insert_or_ignore_unique. }
  apply Hfold. exact Huniq.
Qed.

Lemma save_competitors_no_duplicates_witness :
  competitors_unique (competitors empty_db)
  /\ competitors_unique
       (competitors (save_competitors empty_db 1 1 "2024-05-01" "10:00:00"
                       [competitor_a1; competitor_a1; competitor_c3] None)).
Proof.
  assert (H : competitors_unique (competitors empty_db)).
  { intros pid kid d t dom pos. simpl. lia. }
  split; [exact H|].
  exact (save_competitors_no_duplicates empty_db 1 1 "2024-05-01" "10:00:00"
           [competitor_a1; competitor_a1; competitor_c3] None H).
Defined.

(** ** The domain reference *)

Lemma update_domain_reference_row (c : conn) (d date : string) (p : Z) :
  d <> EmptyString ->
  domain_row_of d (cn_domains (_update_domain_reference c d date p))
  = Some
      match domain_row_of d (cn_domains c) with
      | Some row =>
          mk_domain (dm_id row) (dm_domain row) (dm_first_seen row) date
            (dm_total_appearances row + 1)
            (Some match dm_avg_position row with
                  | None => inject_Z p
                  | Some avg =>
                      ((avg * inject_Z (dm_total_appearances row) + inject_Z p)
                       / inject_Z (dm_total_appearances row + 1))%Q
                  end)
      | None =>
          mk_domain (next_id (map dm_id (cn_domains c))) d date date 1
            (Some (inject_Z p))
      end.
Proof.
  intros Hd. unfold _update_domain_reference, domain_row_of.
  rewrite (proj2 (String.eqb_neq d EmptyString) Hd).
  destruct (find _ (cn_domains c)) as [row|] eqn:Hfind; cbn [cn_domains].
  - unfold update_where. rewrite find_map_stable.
    + rewrite Hfind. cbn [option_map]. now rewrite Z.eqb_refl.
    + intros r. destruct (dm_id r =? dm_id row); reflexivity.
  - apply find_app_none; [exact Hfind|]. cbn. apply String.eqb_refl.
Qed.

Lemma last_cons_default {A : Type} (l : list A) :
  forall x d, last (x :: l) d = last l x.
Proof.
  induction l as [|y l IH]; intros x d; [reflexivity|].
  change (last (x :: y :: l) d) with (last (y :: l) d).
  rewrite (IH y d), (IH y x). reflexivity.
Qed.

Lemma domain_reference_fold (d : string) (visits : list (string * Z)) :
  d <> EmptyString ->
  forall (c : conn) (row : domain_row) (avg : Q) (s : Z),
    domain_row_of d (cn_domains c) = Some row ->
    0 < dm_total_appearances row ->
    dm_avg_position row = Some avg ->
    (avg * inject_Z (dm_total_appearances row) == inject_Z s)%Q ->
    exists row' avg',
      domain_row_of d (cn_domains (fold_left (fun c v => appear c d v) visits c))
      = Some row'
      /\ dm_total_appearances row'
         = dm_total_appearances row + Z.of_nat (length visits)
      /\ dm_avg_position row' = Some avg'
      /\ (avg' * inject_Z (dm_total_appearances row')
          == inject_Z (s + sum_positions (map snd visits)))%Q
      /\ dm_first_seen row' = dm_first_seen row
      /\ dm_last_seen row' = last (map fst visits) (dm_last_seen row).
Proof.
  intros Hd. induction visits as [|[date p] visits IH];
    intros c row avg s Hrow Hn Havg Hmean.
  - exists row, avg. cbn. rewrite !Z.add_0_r.
    split; [exact Hrow|]. split; [reflexivity|]. split; [exact Havg|].
    split; [exact Hmean|]. split; reflexivity.
  - cbn [fold_left]. unfold appear at 2. cbn [fst snd].
    pose proof (update_domain_reference_row c d date p Hd) as Hstep.
    rewrite Hrow, Havg in Hstep.
    destruct (IH _ _
                ((avg * inject_Z (dm_total_appearances row) + inject_Z p)
                 / inject_Z (dm_total_appearances row + 1))%Q
                (s + p) Hstep)
      as (row' & avg' & H1 & H2 & H3 & H4 & H5 & H6).
    + cbn. lia.
    + reflexivity.
    + cbn [dm_total_appearances]. now apply running_mean_step.
    + exists row', avg'. cbn [dm_total_appearances dm_first_seen dm_last_seen]
        in *.
      split; [exact H1|]. split; [rewrite H2; cbn [length]; lia|].
      split; [exact H3|]. split.
      * rewrite H4. cbn [map snd sum_positions fold_right].
        replace (s + p + sum_positions (map snd visits))
          with (s + (p + fold_right Z.add 0 (map snd visits)))
          by (unfold sum_positions; lia).
        reflexivity.
      * split; [exact H5|]. rewrite H6. cbn [map fst].
        now rewrite last_cons_default.
Qed.

(** X6.  A domain unknown to the reference that then appears [N] times has
    [total_appearances = N], [avg_position] the arithmetic mean of the [N]
    positions, [first_seen] the date of the first appearance and [last_seen]
    that of the last one, whatever other domains the table holds. *)
Theorem domain_reference_aggregate :
  forall (c : conn) (d : string) (visit : string * Z)
         (visits : list (string * Z)),
    d <> EmptyString ->
    domain_row_of d (cn_domains c) = None ->
    exists row avg,
      domain_row_of d
        (cn_domains (fold_left (fun c v => appear c d v) (visit :: visits) c))
      = Some row
      /\ dm_total_appearances row = Z.of_nat (length (visit :: visits))
      /\ dm_avg_position row = Some avg
      /\ (avg == inject_Z (sum_positions (map snd (visit :: visits)))
                 / inject_Z (Z.of_nat (length (visit :: visits))))%Q
      /\ dm_first_seen row = fst visit
      /\ dm_last_seen row = last (map fst (visit :: visits)) (fst visit).
Proof.
  intros c d [date p] visits Hd Hnone. cbn [fold_left].
  unfold appear at 2. cbn [fst snd].
  pose proof (update_domain_reference_row c d date p Hd) as Hstep.
  rewrite Hnone in Hstep.
  destruct (domain_reference_fold d visits Hd _ _ (inject_Z p) p Hstep)
    as (row & avg & H1 & H2 & H3 & H4 & H5 & H6).
  - cbn. lia.
  - reflexivity.
  - cbn [dm_total_appearances]. change (inject_Z 1) with 1%Q. ring.
  - cbn [dm_total_appearances dm_first_seen dm_last_seen] in *.
    exists row, avg. split; [exact H1|].
    split; [rewrite H2; cbn [length]; lia|]. split; [exact H3|].
    split; [|split; [exact H5|]].
    + cbn [map snd sum_positions fold_right length].
      fold (sum_positions (map snd visits)).
      assert (Hn : dm_total_appearances row
                   = Z.of_nat (S (length visits))) by lia.
      rewrite Hn in H4. rewrite <- H4.
      assert (Hnz : ~ (inject_Z (Z.of_nat (S (length visits))) == 0)%Q).
      { unfold Qeq, inject_Z. cbn [Qnum Qden]. lia. }
      generalize dependent (inject_Z (Z.of_nat (S (length visits)))).
      intros q _ Hq. field. exact Hq.
    + rewrite H6. cbn [map fst]. now rewrite last_cons_default.
Qed.

Lemma domain_reference_aggregate_witness :
  "a.com" <> EmptyString
  /\ domain_row_of "a.com" (cn_domains (mk_conn [] [] 0)) = None
  /\ exists row avg,
       domain_row_of "a.com"
         (cn_domains
            (fold_left (fun c v => appear c "a.com" v)
               [("2024-05-01", 2); ("2024-05-02", 4); ("2024-05-03", 9)]
               (mk_conn [] [] 0)))
       = Some row
       /\ dm_total_appearances row = 3
       /\ dm_avg_position row = Some avg
       /\ (avg == 5)%Q.
Proof.
  assert (H1 : "a.com" <> EmptyString) by discriminate.
  assert (H2 : domain_row_of "a.com" (cn_domains (mk_conn [] [] 0)) = None)
    by reflexivity.
  split; [exact H1|]. split; [exact H2|].
  destruct (domain_reference_aggregate (mk_conn [] [] 0) "a.com"
              ("2024-05-01", 2) [("2024-05-02", 4); ("2024-05-03", 9)] H1 H2)
    as (row & avg & W1 & W2 & W3 & W4 & _).
  exists row, avg. split; [exact W1|]. split; [exact W2|]. split; [exact W3|].
  rewrite W4. reflexivity.
Defined.

(** ** Snapshots: the flag, the keys and the digests *)

(** X7.  On a working store the answer of [save_snapshot_if_changed] is the
    [has_changes] flag it leaves on the row of the key: the flag says whether
    the latest write differed from what was stored. *)
Theorem save_snapshot_flag_is_answer :
  forall (s : db) (pid kid : Z) (d : string) (top_10 : list competitor),
    let r := save_snapshot_if_changed no_faults s pid kid d top_10 in
    exists (b : bool) (row : snapshot_row),
      snd r = Returned b
      /\ find (snapshot_key_eqb pid kid d) (snapshots (fst r)) = Some row
      /\ sn_has_changes row = b.
Proof.
  intros s pid kid d top_10. unfold save_snapshot_if_changed.
  cbn [main_fault no_faults].
  destruct (find _ (snapshots s)) as [existing|] eqn:Hfind.
  - match goal with
    | |- context [if ?b then _ else _] => destruct b
    end; cbn [fst snd snapshots set_snapshots].
    + exists true. eexists. split; [reflexivity|]. split.
      * apply find_update_where; [reflexivity|exact Hfind|reflexivity].
      * reflexivity.
    + exists false. eexists. split; [reflexivity|]. split.
      * apply find_update_where; [reflexivity|exact Hfind|reflexivity].
      * reflexivity.
  - cbn [fst snd snapshots set_snapshots].
    exists true. eexists. split; [reflexivity|]. split.
    + apply find_app_new; [exact Hfind|apply snapshot_key_eqb_refl].
    + reflexivity.
Qed.

Lemma filter_filter_length {A : Type} (p q : A -> bool) (l : list A) :
  (length (filter p (filter q l)) <= length (filter p l))%nat.
Proof.
  induction l as [|x l IH]; simpl; [lia|].
  destruct (q x), (p x) eqn:E; simpl; rewrite ?E; simpl; lia.
Qed.

Lemma filter_length_bound {A : Type} (p : A -> bool) (l : list A) :
  (length (filter p l) <= length l)%nat.
Proof.
  induction l as [|x l IH]; simpl; [lia|]. destruct (p x); simpl; lia.
Qed.

Lemma snapshot_key_eqb_true (pid kid : Z) (d : string) (r : snapshot_row) :
  snapshot_key_eqb pid kid d r = true ->
  sn_project_id r = pid /\ sn_keyword_id r = kid /\ sn_snapshot_date r = d.
Proof.
  unfold snapshot_key_eqb. intros H.
  repeat (apply andb_prop in H; destruct H as [H ?]).
  repeat split; first [ now apply Z.eqb_eq | now apply String.eqb_eq ].
Qed.

Lemma snapshots_unique_update (rows : list snapshot_row) (id : Z)
    (f : snapshot_row -> snapshot_row) (pid kid : Z) (d : string) :
  (forall r, sn_project_id (f r) = sn_project_id r
             /\ sn_keyword_id (f r) = sn_keyword_id r
             /\ sn_snapshot_date (f r) = sn_snapshot_date r) ->
  length (filter (snapshot_key_eqb pid kid d) (update_where sn_id id f rows))
  = length (filter (snapshot_key_eqb pid kid d) rows).
Proof.
  intros Hf. unfold update_where. rewrite filter_map_stable; [apply length_map|].
  intros r. destruct (sn_id r =? id); [|reflexivity].
  unfold snapshot_key_eqb. destruct (Hf r) as (-> & -> & ->). reflexivity.
Qed.

Lemma snapshots_unique_append (rows : list snapshot_row) (new : snapshot_row)
    (pid kid : Z) (d : string) :
  (forall pid' kid' d',
     (length (filter (snapshot_key_eqb pid' kid' d') rows) <= 1)%nat) ->
  filter (snapshot_key_eqb (sn_project_id new) (sn_keyword_id new)
            (sn_snapshot_date new)) rows = [] ->
  (length (filter (snapshot_key_eqb pid kid d) (rows ++ [new])) <= 1)%nat.
Proof.
  intros Huniq Hnone. rewrite filter_app, length_app. cbn [filter].
  destruct (snapshot_key_eqb pid kid d new) eqn:E.
  - apply snapshot_key_eqb_true in E. destruct E as (<- & <- & <-).
    rewrite Hnone. simpl. lia.
  - simpl. specialize (Huniq pid kid d). lia.
Qed.

(** X8.  Whatever the storage layer does to the call (no fault, an integrity
    conflict with a working or a failing fallback, another error),
    [save_snapshot_if_changed] keeps at most one snapshot row per (project,
    keyword, date) and keeps every stored hash equal to the digest of the
    stored JSON. *)
Theorem save_snapshot_keeps_table_sound :
  forall (f : faults) (s : db) (pid kid : Z) (d : string)
         (top_10 : list competitor),
    snapshots_unique s ->
    snapshot_hashes_ok s ->
    let s' := fst (save_snapshot_if_changed f s pid kid d top_10) in
    snapshots_unique s' /\ snapshot_hashes_ok s'.
Proof.
  intros f s pid kid d top_10 Huniq Hhash.
  unfold save_snapshot_if_changed, _force_update_snapshot.
  assert (Hreplace :
    snapshots_unique
      (set_snapshots s
         (insert_or_replace_snapshot (snapshots s) pid kid d
            (Json.dumps top_10) (MD5.hexdigest (Json.dumps top_10))))
    /\ snapshot_hashes_ok
         (set_snapshots s
            (insert_or_replace_snapshot (snapshots s) pid kid d
               (Json.dumps top_10) (MD5.hexdigest (Json.dumps top_10))))).
  { split.
    - intros pid' kid' d'. unfold snapshots_with_key, insert_or_replace_snapshot.
      cbn [snapshots set_snapshots].
      apply snapshots_unique_append.
      + intros p k dd.
        etransitivity; [apply filter_filter_length|]. apply Huniq.
      + cbn. apply filter_none. intros r Hr. apply filter_In in Hr.
        destruct Hr as [_ Hr]. now apply negb_true_iff in Hr.
    - intros r Hr. cbn [snapshots set_snapshots] in Hr.
      unfold insert_or_replace_snapshot in Hr. apply in_app_or in Hr.
      destruct Hr as [Hr|[<-|[]]].
      + apply filter_In in Hr. now apply Hhash.
      + reflexivity. }
  destruct (main_fault f) as [[|]|].
  - destruct (fallback_fault f); cbn [fst]; [now split|exact Hreplace].
  - now split.
  - destruct (find _ (snapshots s)) as [existing|] eqn:Hfind.
    + match goal with
      | |- context [if ?b then _ else _] => destruct b
      end; cbn [fst]; split.
      * intros pid' kid' d'. unfold snapshots_with_key.
        cbn [snapshots set_snapshots].
        rewrite snapshots_unique_update; [apply Huniq|]. intros r. now cbn.
      * intros r Hr. cbn [snapshots set_snapshots] in Hr.
        unfold update_where in Hr. apply in_map_iff in Hr.
        destruct Hr as (y & Hy & Hiny).
        destruct (sn_id y =? sn_id existing); subst r; [reflexivity|].
        now apply Hhash.
      * intros pid' kid' d'. unfold snapshots_with_key.
        cbn [snapshots set_snapshots].
        rewrite snapshots_unique_update; [apply Huniq|]. intros r. now cbn.
      * intros r Hr. cbn [snapshots set_snapshots] in Hr.
        unfold update_where in Hr. apply in_map_iff in Hr.
        destruct Hr as (y & Hy & Hiny).
        destruct (sn_id y =? sn_id existing); subst r; cbn; now apply Hhash.
    + cbn [fst]. split.
      * intros pid' kid' d'. unfold snapshots_with_key.
        cbn [snapshots set_snapshots]. apply snapshots_unique_append.
        -- intros p k dd. apply Huniq.
        -- cbn. rewrite find_hd_filter in Hfind.
           destruct (filter _ (snapshots s)); [reflexivity|discriminate].
      * intros r Hr. cbn [snapshots set_snapshots] in Hr.
        apply in_app_or in Hr. destruct Hr as [Hr|[<-|[]]].
        -- now apply Hhash.
        -- reflexivity.
Qed.

Lemma save_snapshot_keeps_table_sound_witness :
  snapshots_unique store_snapshot_ab
  /\ snapshot_hashes_ok store_snapshot_ab
  /\ snapshots_unique
       (fst (save_snapshot_if_changed conflict store_snapshot_ab 1 1
               "2024-05-01" top_ba)).
Proof.
  assert (H1 : snapshots_unique store_snapshot_ab).
  { intros pid kid d. unfold snapshots_with_key. cbn [store_snapshot_ab].
    etransitivity; [apply filter_length_bound|]. vm_compute. lia. }
  assert (H2 : snapshot_hashes_ok store_snapshot_ab).
  { intros r Hr. vm_compute in Hr. destruct Hr as [<-|[]].
    vm_compute. reflexivity. }
  split; [exact H1|]. split; [exact H2|].
  exact (proj1 (save_snapshot_keeps_table_sound conflict store_snapshot_ab 1 1
                  "2024-05-01" top_ba H1 H2)).
Defined.

(** ** Monitoring sessions *)

Lemma find_app_split {A : Type} (p : A -> bool) (l l' : list A) :
  find p (l ++ l') = match find p l with
                     | Some x => Some x
                     | None => find p l'
                     end.
Proof.
  induction l as [|x l IH]; simpl; [reflexivity|].
  destruct (p x); [reflexivity|exact IH].
Qed.

Lemma find_none_fresh_session (rows : list session_row) (pid : Z) :
  find (fun r => (ms_session_id r =? next_id (map ms_session_id rows))
                 && (ms_project_id r =? pid)) rows = None.
Proof.
  destruct (find _ rows) as [x|] eqn:E; [|reflexivity].
  apply find_some in E. destruct E as [Hin Hp].
  apply andb_prop in Hp. destruct Hp as [Hid _]. apply Z.eqb_eq in Hid.
  pose proof (next_id_above _ _ (in_map ms_session_id _ _ Hin)). lia.
Qed.

(** X9.  A session just created is found under its id for its project, as
    running, with the creation time as start time and no end time; it is not
    found for another project; and every session found before is found as
    before. *)
Theorem create_monitoring_session_lookup :
  forall (s : db) (now : string * string) (pid : Z) (name : option string),
    let r := create_monitoring_session s now pid name in
    _get_session_info (fst r) (snd r) pid
    = Some (mk_session (snd r) pid name (fst now) (snd now) None running
              None None)
    /\ (forall pid', pid' <> pid -> _get_session_info (fst r) (snd r) pid' = None)
    /\ (forall sid pid' info,
          _get_session_info s sid pid' = Some info ->
          _get_session_info (fst r) sid pid' = Some info).
Proof.
  intros s now pid name. unfold create_monitoring_session, _get_session_info.
  cbn [fst snd monitoring_sessions set_monitoring_sessions].
  split; [|split].
  - rewrite find_app_split, find_none_fresh_session. cbn.
    now rewrite !Z.eqb_refl.
  - intros pid' Hneq. rewrite find_app_split, find_none_fresh_session. cbn.
    rewrite Z.eqb_refl. cbn.
    now rewrite (proj2 (Z.eqb_neq pid pid')) by congruence.
  - intros sid pid' info Hfind. now rewrite find_app_split, Hfind.
Qed.




(** * Further properties of the collector *)

(** X11.  When the session id handed to a batch is not that of a session of
    the resolved project, the batch does exactly what the batch without
    session does: same store, same results. *)
Theorem unknown_session_falls_back :
  forall (w : world) (s : db) (domain : string) (keywords : list string)
         (sid : Z) (search_engine : string) (use_cache track : bool)
         (limit : Z) (project : config_project),
    _find_project_by_domain (w_config w) domain = Some project ->
    _get_session_info s sid
      (snd (get_or_create_project s (Py.or_else (cp_name project) domain)
              domain)) = None ->
    check_positions w s domain keywords (Some sid) search_engine use_cache
      track limit
    = check_positions w s domain keywords None search_engine use_cache track
        limit.
Proof.
  intros w s domain keywords sid search_engine use_cache track limit project
    Hproj Hnone.
  unfold check_positions. rewrite Hproj.
  destruct (get_or_create_project_frame s (Py.or_else (cp_name project) domain)
              domain) as (_ & Hms & _).
  destruct (get_or_create_project s _ domain) as [s1 pid].
  cbn [fst snd] in *.
  assert (Hnone1 : _get_session_info s1 sid pid = None)
    by (unfold _get_session_info in *; now rewrite Hms).
  unfold resolve_session. rewrite Hnone1. reflexivity.
Qed.

Lemma unknown_session_falls_back_witness :
  _find_project_by_domain (w_config world_two_keywords) "example.com"
  = Some (mk_config_project (Some "Example") (Some "https://example.com/"))
  /\ _get_session_info store_with_session 7
       (snd (get_or_create_project store_with_session "Example" "example.com"))
     = None
  /\ check_positions world_two_keywords store_with_session "example.com"
       ["k1"; "k2"] (Some 7) "yandex" false true 20
     = check_positions world_two_keywords store_with_session "example.com"
         ["k1"; "k2"] None "yandex" false true 20.
Proof.
  assert (H1 : _find_project_by_domain (w_config world_two_keywords)
                 "example.com"
               = Some (mk_config_project (Some "Example")
                         (Some "https://example.com/"))) by reflexivity.
  assert (H2 : _get_session_info store_with_session 7
                 (snd (get_or_create_project store_with_session
                         (Py.or_else
                            (cp_name (mk_config_project (Some "Example")
                                        (Some "https://example.com/")))
                            "example.com")
                         "example.com"))
               = None) by reflexivity.
  split; [exact H1|]. split; [exact H2|].
  exact (unknown_session_falls_back world_two_keywords store_with_session
           "example.com" ["k1"; "k2"] 7 "yandex" false true 20 _ H1 H2).
Defined.

(** ** Domains are compared without their protocol *)

Lemma replace_http_prefix (d : string) :
  Py.replace "http://" EmptyString (String.append "http://" d)
  = Py.replace "http://" EmptyString d.
Proof. destruct d; reflexivity. Qed.

Lemma replace_https_prefix (d : string) :
  Py.replace "https://" EmptyString (String.append "https://" d)
  = Py.replace "https://" EmptyString d.
Proof. destruct d; reflexivity. Qed.

Lemma replace_http_skips_https (d : string) :
  Py.replace "http://" EmptyString (String.append "https://" d)
  = String.append "https://" (Py.replace "http://" EmptyString d).
Proof. reflexivity. Qed.

Lemma clean_domain_http (d : string) :
  clean_domain (String.append "http://" d) = clean_domain d.
Proof. unfold clean_domain. now rewrite replace_http_prefix. Qed.

Lemma clean_domain_https (d : string) :
  clean_domain (String.append "https://" d) = clean_domain d.
Proof.
  unfold clean_domain.
  now rewrite replace_http_skips_https, replace_https_prefix.
Qed.

(** X12.  The project of a domain is looked up without regard to a leading
    "http://" or "https://", on the side of the request and on the side of
    the configuration. *)
Theorem find_project_ignores_protocol :
  forall (config : list config_project) (d : string),
    _find_project_by_domain config (String.append "http://" d)
    = _find_project_by_domain config d
    /\ _find_project_by_domain config (String.append "https://" d)
       = _find_project_by_domain config d
    /\ (forall name d',
          clean_domain d' = clean_domain d ->
          _find_project_by_domain
            (mk_config_project name (Some (String.append "https://" d')) :: config)
            d
          = Some (mk_config_project name (Some (String.append "https://" d')))
          /\ _find_project_by_domain
               (mk_config_project name (Some (String.append "http://" d')) :: config)
               d
             = Some (mk_config_project name (Some (String.append "http://" d')))).
Proof.
  intros config d. unfold _find_project_by_domain.
  rewrite clean_domain_http, clean_domain_https.
  split; [reflexivity|]. split; [reflexivity|].
  intros name d' Hd'. cbn [find cp_domain Py.or_else].
  rewrite clean_domain_http, clean_domain_https, Hd', String.eqb_refl.
  split; reflexivity.
Qed.

Lemma find_project_ignores_protocol_witness :
  clean_domain "example.com/" = clean_domain "example.com"
  /\ _find_project_by_domain
       [mk_config_project (Some "Example") (Some "https://example.com/")]
       "example.com"
     = Some (mk_config_project (Some "Example") (Some "https://example.com/")).
Proof.
  assert (H : clean_domain "example.com/" = clean_domain "example.com")
    by reflexivity.
  split; [exact H|].
  exact (proj1 (proj2 (proj2 (find_project_ignores_protocol [] "example.com"))
                  (Some "Example") "example.com/" H)).
Defined.

(** ** The result list of a batch *)
Section Results.
Variables (w : world) (domain search_engine : string)
          (use_cache track : bool) (limit pid : Z)
          (session : option (Z * (string * string))).

Let step := check_keyword w domain search_engine use_cache track limit pid
              session.

Lemma check_keyword_result (st : loop_state) (ik : nat * string) :
  ls_results (step st ik)
  = ls_results st
    ++ [expected_result w domain search_engine use_cache track limit session ik].
Proof.
  destruct ik as [i keyword].
  unfold step, check_keyword, expected_result, stamp_at. cbn [fst snd].
  destruct (get_or_create_keyword (ls_db st) pid keyword) as [s1 kid].
  destruct (if use_cache then _ else None) as [cached|].
  - destruct (save_position s1 _ _ _ _ _ _ _ _ _) as [s2 x]. reflexivity.
  - destruct (save_position s1 _ _ _ _ _ _ _ _ _) as [s2 x]. reflexivity.
Qed.

Lemma check_loop_results (iks : list (nat * string)) :
  forall st,
    ls_results (fold_left step iks st)
    = ls_results st
      ++ map (expected_result w domain search_engine use_cache track limit
                session) iks.
Proof.
  induction iks as [|ik iks IH]; intros st; cbn [fold_left map].
  - now rewrite List.app_nil_r.
  - rewrite IH, check_keyword_result, <- app_assoc. reflexivity.
Qed.

End Results.

Lemma length_enumerate {A : Type} (l : list A) :
  length (enumerate l) = length l.
Proof.
  unfold enumerate. rewrite length_combine, length_seq. apply Nat.min_id.
Qed.

(** X13.  A batch for a configured domain fails only when sorting the
    competitors of the batch fails (an entry without position among two or
    more); otherwise it returns one entry per keyword, in the order of the
    keywords: the cached entry for a keyword answered by the cache, and for
    the others the position, url, total and method of the position source
    with the timestamp and session of the check.  What the store holds does
    not affect the entries. *)
Theorem check_positions_results :
  forall (w : world) (s : db) (domain : string) (keywords : list string)
         (session_id : option Z) (search_engine : string)
         (use_cache track : bool) (limit : Z) (project : config_project)
         (session : option (Z * (string * string))),
    _find_project_by_domain (w_config w) domain = Some project ->
    let created := get_or_create_project s (Py.or_else (cp_name project) domain)
                     domain in
    resolve_session (fst created) session_id (snd created) = Ok session ->
    let all_competitors := gathered w domain search_engine use_cache track
                             limit keywords in
    let entries := map (expected_result w domain search_engine use_cache track
                          limit session) (enumerate keywords) in
    snd (check_positions w s domain keywords session_id search_engine
           use_cache track limit)
    = match all_competitors with
      | [] => Ok entries
      | _ :: _ =>
          match sorted_by_position all_competitors with
          | Ok _ => Ok entries
          | Err e => Err e
          end
      end
    /\ length entries = length keywords.
Proof.
  intros w s domain keywords session_id search_engine use_cache track limit
    project session Hproj created Hsession all_competitors entries.
  split; [|unfold entries; now rewrite length_map, length_enumerate].
  subst created. unfold check_positions. rewrite Hproj.
  destruct (get_or_create_project s _ domain) as [s1 pid].
  cbn [fst snd] in *. rewrite Hsession. cbv beta iota.
  match goal with
  | |- context [fold_left _ _ ?st] => remember st as st0 eqn:Hst0
  end.
  set (step := check_keyword w domain search_engine use_cache track limit pid
                 session).
  destruct (check_loop_gathers w domain search_engine use_cache track limit
              pid session (enumerate keywords) st0) as [Hall _].
  fold step in Hall.
  pose proof (check_loop_results w domain search_engine use_cache track limit
                pid session (enumerate keywords) st0) as Hres.
  fold step in Hres. rewrite Hst0 in Hall at 2. rewrite Hst0 in Hres at 2.
  cbn [ls_all_competitors ls_results app] in Hall, Hres.
  fold (gathered w domain search_engine use_cache track limit keywords) in Hall.
  fold all_competitors in Hall. fold entries in Hres.
  unfold snapshot_after_loop. rewrite Hall, Hres.
  destruct all_competitors as [|c0 cs] eqn:Hgathered; [reflexivity|].
  assert (Htrack : track = true).
  { destruct track; [reflexivity|]. exfalso.
    assert (Hnil : gathered w domain search_engine use_cache false limit keywords
                   = []).
    { unfold gathered. apply flat_map_all_nil. intros ik. unfold contribution.
      destruct (cache_hit _ _ _ _ _ _); [reflexivity|].
      destruct (pd_competitors _); reflexivity. }
    unfold all_competitors in Hgathered. congruence. }
  rewrite Htrack.
  destruct (sorted_by_position (c0 :: cs)); [|reflexivity].
  destruct (exists_last (l := keywords)) as (pre & last_keyword & Hkw).
  { intros ->. discriminate Hgathered. }
  assert (Hfold : fold_left step (enumerate keywords) st0
                  = step (fold_left step (enumerate pre) st0)
                      (length pre, last_keyword)).
  { rewrite Hkw, enumerate_snoc, fold_left_app. reflexivity. }
  destruct (check_keyword_effect w domain search_engine use_cache track limit
              pid session (fold_left step (enumerate pre) st0)
              (length pre, last_keyword))
    as (_ & _ & Hcheck & kid & Hkid & _).
  fold step in Hcheck, Hkid. rewrite <- Hfold in Hcheck, Hkid.
  rewrite Hkid, Hcheck.
  destruct (kid =? 0); reflexivity.
Qed.

Lemma check_positions_results_witness :
  _find_project_by_domain (w_config world_two_keywords) "example.com"
  = Some (mk_config_project (Some "Example") (Some "https://example.com/"))
  /\ resolve_session
       (fst (get_or_create_project empty_db "Example" "example.com")) None
       (snd (get_or_create_project empty_db "Example" "example.com"))
     = Ok None
  /\ snd (check_positions world_two_keywords empty_db "example.com"
            ["k1"; "k2"] None "yandex" false true 20)
     = Ok [mk_result "k1" (Some 4) "2024-05-01" "15:30:00" None "yandex"
             (Some "https://example.com/page") 100 "xmlstock_api";
           mk_result "k2" (Some 4) "2024-05-01" "15:30:00" None "yandex"
             (Some "https://example.com/page") 100 "xmlstock_api"].
Proof.
  assert (H1 : _find_project_by_domain (w_config world_two_keywords)
                 "example.com"
               = Some (mk_config_project (Some "Example")
                         (Some "https://example.com/"))) by reflexivity.
  assert (H2 : resolve_session
                 (fst (get_or_create_project empty_db "Example" "example.com"))
                 None
                 (snd (get_or_create_project empty_db "Example" "example.com"))
               = Ok None) by reflexivity.
  split; [exact H1|]. split; [exact H2|].
  pose proof (check_positions_results world_two_keywords empty_db "example.com"
                ["k1"; "k2"] None "yandex" false true 20 _ None H1 H2) as W.
  cbv zeta in W. destruct W as [W _]. rewrite W. reflexivity.
Defined.

(** ** Every keyword of a batch is resolved and observed *)

Lemma save_position_keeps_key (s : db) pid kid d t p u n e sid
    (pid' kid' : Z) (d' e' : string) :
  (exists row, In row (positions s)
               /\ position_key_eqb pid' kid' d' e' row = true) ->
  exists row,
    In row (positions (fst (save_position s pid kid d t p u n e sid)))
    /\ position_key_eqb pid' kid' d' e' row = true.
Proof.
  intros (row & Hin & Hkey). unfold save_position.
  destruct (find _ (positions s)) as [found|];
    cbn [fst positions set_positions].
  - eexists. split.
    + unfold update_where. apply in_map. exact Hin.
    + cbn beta. destruct (po_id row =? po_id found); exact Hkey.
  - exists row. split; [apply in_or_app; now left|exact Hkey].
Qed.

Lemma save_position_has_key (s : db) pid kid d t p u n e sid :
  exists row,
    In row (positions (fst (save_position s pid kid d t p u n e sid)))
    /\ position_key_eqb pid kid d e row = true.
Proof.
  unfold save_position.
  destruct (find _ (positions s)) as [found|] eqn:Hfind;
    cbn [fst positions set_positions].
  - apply find_some in Hfind. destruct Hfind as [Hin Hkey].
    eexists. split.
    + unfold update_where. apply in_map. exact Hin.
    + cbn beta. rewrite Z.eqb_refl. exact Hkey.
  - eexists. split.
    + apply in_or_app. right. left. reflexivity.
    + apply position_key_eqb_refl.
Qed.

Section LoopObserves.
Variables (w : world) (domain search_engine : string)
          (use_cache track : bool) (limit pid : Z)
          (session : option (Z * (string * string))).

Let step := check_keyword w domain search_engine use_cache track limit pid
              session.

Lemma check_keyword_observes (st : loop_state) (i : nat) (keyword : string) :
  exists kid,
    observed pid kid keyword (fst (stamp_at w session i)) search_engine
      (ls_db (step st (i, keyword))).
Proof.
  unfold step, check_keyword, stamp_at.
  pose proof (get_or_create_keyword_row pid (ls_db st) keyword) as Hrow.
  destruct (get_or_create_keyword (ls_db st) pid keyword) as [s1 kid].
  cbn [fst snd] in Hrow. exists kid.
  assert (Hobs : forall d t p u n sid,
             observed pid kid keyword d search_engine
               (fst (save_position s1 pid kid d t p u n search_engine sid))).
  { intros d t p u n sid.
    destruct (save_position_frame s1 pid kid d t p u n search_engine sid)
      as (Hk & _).
    split; [now rewrite Hk|]. apply save_position_has_key. }
  destruct (if use_cache then _ else None) as [cached|].
  - match goal with
    | |- context [save_position s1 pid kid ?d ?t ?p ?u ?n ?e ?sid] =>
        specialize (Hobs d t p u n sid);
        destruct (save_position s1 pid kid d t p u n e sid) as [s2 x]
    end.
    cbn [fst ls_db] in *. exact Hobs.
  - match goal with
    | |- context [save_position s1 pid kid ?d ?t ?p ?u ?n ?e ?sid] =>
        specialize (Hobs d t p u n sid);
        destruct (save_position s1 pid kid d t p u n e sid) as [s2 x]
    end.
    cbn [fst ls_db] in *.
    destruct (pd_competitors _) as [|c0 cs]; [exact Hobs|].
    destruct track; [|exact Hobs].
    match goal with
    | |- context [save_competitors ?a ?b ?c ?e ?f ?g ?h] =>
        destruct (save_competitors_frame a b c e f g h) as (Hk3 & _ & Hp3 & _)
    end.
    destruct Hobs as [Hkw Hpos]. split; [now rewrite Hk3|now rewrite Hp3].
Qed.

Lemma check_keyword_keeps_observed kid keyword date (st : loop_state)
    (ik : nat * string) :
  observed pid kid keyword date search_engine (ls_db st) ->
  observed pid kid keyword date search_engine (ls_db (step st ik)).
Proof.
  intros [Hkw Hpos]. destruct ik as [i keyword'].
  unfold step, check_keyword.
  pose proof (get_or_create_keyword_keeps (ls_db st) pid keyword' _ _ _ Hkw)
    as Hkw1.
  destruct (get_or_create_keyword_frame (ls_db st) pid keyword')
    as (_ & Hp1 & _).
  destruct (get_or_create_keyword (ls_db st) pid keyword') as [s1 kid'].
  cbn [fst snd] in Hkw1, Hp1. rewrite <- Hp1 in Hpos.
  assert (Hobs : forall a b c e f g sid,
             observed pid kid keyword date search_engine
               (fst (save_position s1 pid kid' a b c e f g sid))).
  { intros a b c e f g sid.
    destruct (save_position_frame s1 pid kid' a b c e f g sid) as (Hk & _).
    split; [now rewrite Hk|]. now apply save_position_keeps_key. }
  destruct (if use_cache then _ else None) as [cached|].
  - match goal with
    | |- context [save_position s1 pid kid' ?a ?b ?c ?e ?f ?g ?sid] =>
        specialize (Hobs a b c e f g sid);
        destruct (save_position s1 pid kid' a b c e f g sid) as [s2 x]
    end.
    cbn [fst ls_db] in *. exact Hobs.
  - match goal with
    | |- context [save_position s1 pid kid' ?a ?b ?c ?e ?f ?g ?sid] =>
        specialize (Hobs a b c e f g sid);
        destruct (save_position s1 pid kid' a b c e f g sid) as [s2 x]
    end.
    cbn [fst ls_db] in *.
    destruct (pd_competitors _) as [|c0 cs]; [exact Hobs|].
    destruct track; [|exact Hobs].
    match goal with
    | |- context [save_competitors ?a ?b ?c ?e ?f ?g ?h] =>
        destruct (save_competitors_frame a b c e f g h) as (Hk3 & _ & Hp3 & _)
    end.
    destruct Hobs as [Hkw2 Hpos2]. split; [now rewrite Hk3|now rewrite Hp3].
Qed.

Lemma check_loop_keeps_observed kid keyword date (iks : list (nat * string)) :
  forall st,
    observed pid kid keyword date search_engine (ls_db st) ->
    observed pid kid keyword date search_engine (ls_db (fold_left step iks st)).
Proof.
  induction iks as [|ik iks IH]; intros st H; [exact H|].
  cbn [fold_left]. apply IH. now apply check_keyword_keeps_observed.
Qed.

End LoopObserves.

(** X14.  After a batch for a configured domain, every keyword of the batch
    has an active keyword row for the project, and a position row is stored
    under that keyword's id, the date of its check and the search engine. *)
Theorem batch_observes_every_keyword :
  forall (w : world) (s : db) (domain : string) (keywords : list string)
         (session_id : option Z) (search_engine : string)
         (use_cache track : bool) (limit : Z) (project : config_project)
         (session : option (Z * (string * string))),
    _find_project_by_domain (w_config w) domain = Some project ->
    let created := get_or_create_project s (Py.or_else (cp_name project) domain)
                     domain in
    resolve_session (fst created) session_id (snd created) = Ok session ->
    forall (i : nat) (keyword : string),
      nth_error keywords i = Some keyword ->
      exists kid,
        observed (snd created) kid keyword (fst (stamp_at w session i))
          search_engine
          (fst (check_positions w s domain keywords session_id search_engine
                  use_cache track limit)).
Proof.
  intros w s domain keywords session_id search_engine use_cache track limit
    project session Hproj created Hsession i keyword Hnth.
  subst created. unfold check_positions. rewrite Hproj.
  destruct (get_or_create_project s _ domain) as [s1 pid].
  cbn [fst snd] in *. rewrite Hsession. cbv beta iota.
  match goal with
  | |- context [fold_left _ _ ?st] => remember st as st0 eqn:Hst0
  end.
  set (step := check_keyword w domain search_engine use_cache track limit pid
                 session).
  apply nth_error_split in Hnth. destruct Hnth as (pre & post & Hkw & Hlen).
  assert (Hfold : fold_left step (enumerate keywords) st0
                  = fold_left step
                      (combine (seq (0 + length pre) (length (keyword :: post)))
                         (keyword :: post))
                      (fold_left step (enumerate pre) st0)).
  { rewrite Hkw. unfold enumerate. rewrite enumerate_from_app.
    apply fold_left_app. }
  cbn [length seq combine fold_left] in Hfold. rewrite Nat.add_0_l, Hlen in Hfold.
  destruct (check_keyword_observes w domain search_engine use_cache track limit
              pid session (fold_left step (enumerate pre) st0) i keyword)
    as [kid Hobs].
  fold step in Hobs. exists kid.
  pose proof (check_loop_keeps_observed w domain search_engine use_cache track
                limit pid session kid keyword _
                (combine (seq (S i) (length post)) post) _ Hobs) as Hfinal.
  fold step in Hfinal. rewrite <- Hfold in Hfinal.
  destruct (snapshot_after_loop_frame (fold_left step (enumerate keywords) st0)
              track pid) as (Hk & Hp & _).
  destruct Hfinal as [Hkwrow Hpos].
  split; [now rewrite Hk|now rewrite Hp].
Qed.

Lemma batch_observes_every_keyword_witness :
  _find_project_by_domain (w_config world_two_keywords) "example.com"
  = Some (mk_config_project (Some "Example") (Some "https://example.com/"))
  /\ resolve_session
       (fst (get_or_create_project empty_db "Example" "example.com")) None
       (snd (get_or_create_project empty_db "Example" "example.com"))
     = Ok None
  /\ nth_error ["k1"; "k2"] 1 = Some "k2"
  /\ exists kid, observed 1 kid "k2" "2024-05-01" "yandex" after_two_keywords.
Proof.
  assert (H1 : _find_project_by_domain (w_config world_two_keywords)
                 "example.com"
               = Some (mk_config_project (Some "Example")
                         (Some "https://example.com/"))) by reflexivity.
  assert (H2 : resolve_session
                 (fst (get_or_create_project empty_db "Example" "example.com"))
                 None
                 (snd (get_or_create_project empty_db "Example" "example.com"))
               = Ok None) by reflexivity.
  assert (H3 : nth_error ["k1"; "k2"] 1 = Some "k2") by reflexivity.
  split; [exact H1|]. split; [exact H2|]. split; [exact H3|].
  exact (batch_observes_every_keyword world_two_keywords empty_db "example.com"
           ["k1"; "k2"] None "yandex" false true 20 _ None H1 H2 1%nat "k2" H3).
Defined.

(** ** A batch that creates its own session *)





Section LoopSessions.
Variables (w : world) (domain search_engine : string)
          (use_cache track : bool) (limit pid : Z)
          (session : option (Z * (string * string))).

Lemma check_keyword_sessions (st : loop_state) (ik : nat * string) :
  monitoring_sessions
    (ls_db (check_keyword w domain search_engine use_cache track limit pid
              session st ik))
  = monitoring_sessions (ls_db st).
Proof.
  destruct ik as [i keyword]. unfold check_keyword.
  destruct (get_or_create_keyword_frame (ls_db st) pid keyword) as (Hm1 & _).
  destruct (get_or_create_keyword (ls_db st) pid keyword) as [s1 kid].
  cbn [fst] in Hm1.
  destruct (if use_cache then _ else None) as [cached|].
  - match goal with
    | |- context [save_position ?a ?b ?c ?d ?e ?f ?g ?h ?i ?j] =>
        destruct (save_position_frame a b c d e f g h i j) as (_ & Hm2 & _);
        destruct (save_position a b c d e f g h i j) as [s2 x]
    end.
    cbn [fst ls_db] in *. congruence.
  - match goal with
    | |- context [save_position ?a ?b ?c ?d ?e ?f ?g ?h ?i ?j] =>
        destruct (save_position_frame a b c d e f g h i j) as (_ & Hm2 & _);
        destruct (save_position a b c d e f g h i j) as [s2 x]
    end.
    cbn [fst ls_db] in *.
    destruct (pd_competitors _) as [|c0 cs]; [congruence|].
    destruct track; [|congruence].
    match goal with
    | |- context [save_competitors ?a ?b ?c ?e ?f ?g ?h] =>
        destruct (save_competitors_frame a b c e f g h) as (_ & Hm3 & _)
    end.
    congruence.
Qed.

Lemma check_loop_sessions (iks : list (nat * string)) :
  forall st,
    monitoring_sessions
      (ls_db (fold_left
                (check_keyword w domain search_engine use_cache track limit pid
                   session) iks st))
    = monitoring_sessions (ls_db st).
Proof.
  induction iks as [|ik iks IH]; intros st; [reflexivity|].
  cbn [fold_left]. rewrite IH. apply check_keyword_sessions.
Qed.

End LoopSessions.

Lemma snapshot_after_loop_sessions (st : loop_state) (track : bool) (pid : Z) :
  monitoring_sessions (fst (snapshot_after_loop st track pid))
  = monitoring_sessions (ls_db st).
Proof.
  unfold snapshot_after_loop.
  destruct (ls_all_competitors st); [reflexivity|].
  destruct track; [|reflexivity].
  destruct (sorted_by_position _) as [sorted_competitors|]; [|reflexivity].
  destruct (ls_keyword_id st) as [kid|]; [|reflexivity].
  destruct (kid =? 0); [reflexivity|].
  destruct (ls_check st) as [check|]; [|reflexivity].
  cbn [fst].
  now destruct (save_snapshot_frame no_faults (ls_db st) pid kid (fst check)
                  (firstn 10 sorted_competitors)) as (_ & Hm & _).
Qed.

(** A batch leaves the monitoring sessions as they are. *)
Lemma check_positions_sessions (w : world) (s : db) (domain : string)
    (keywords : list string) (session_id : option Z) (search_engine : string)
    (use_cache track : bool) (limit : Z) :
  monitoring_sessions
    (fst (check_positions w s domain keywords session_id search_engine
            use_cache track limit))
  = monitoring_sessions s.
Proof.
  unfold check_positions.
  destruct (_find_project_by_domain _ _) as [project|]; [|reflexivity].
  destruct (get_or_create_project_frame s (Py.or_else (cp_name project) domain)
              domain) as (_ & Hms & _).
  destruct (get_or_create_project s _ domain) as [s1 pid].
  cbn [fst] in Hms.
  destruct (resolve_session s1 session_id pid) as [session|e];
    [|exact Hms].
  rewrite snapshot_after_loop_sessions, check_loop_sessions. exact Hms.
Qed.



(** * Further properties of the detector *)

Lemma displacement_keyword (k : string) (rs : list history_record) (t : threat) :
  In t (displacement_of k rs) -> th_keyword t = k.
Proof.
  unfold displacement_of.
  destruct (_ <? _)%nat; [intros []|].
  destruct (hd_error _) as [oldest|]; [|intros []].
  destruct (hd_error (rev _)) as [latest|]; [|intros []].
  destruct (h_position oldest) as [op|]; [|intros []].
  destruct (h_position latest) as [lp|]; [|intros []].
  destruct (_ && _); [|intros []].
  intros [<-|[]]. reflexivity.
Qed.

Lemma sort_records_length (rs : list history_record) :
  length (sort_records rs) = length rs.
Proof. apply Permutation_length, sorted_perm. Qed.

Lemma records_of_length (k : string) (history : list history_record) :
  (length (records_of k history) <= length history)%nat.
Proof. apply filter_length_bound. Qed.

Lemma displacement_of_ends (k : string) (rs mid : list history_record)
    (oldest latest : history_record) :
  sort_records rs = oldest :: mid ++ [latest] ->
  displacement_of k rs
  = classify_displacement k (h_position oldest) (h_position latest).
Proof.
  intros Hs. unfold displacement_of.
  assert (Hlen : (2 <= length rs)%nat).
  { rewrite <- sort_records_length, Hs. cbn. rewrite length_app. cbn. lia. }
  replace (length rs <? 2)%nat with false
    by (symmetry; apply Nat.ltb_ge; exact Hlen).
  rewrite Hs. cbn [hd_error rev]. rewrite rev_app_distr. cbn [rev app hd_error].
  reflexivity.
Qed.

(** X16.  Let the observations of a keyword in the 30-day history, sorted
    ascending by (date, time), begin with [oldest] and end with [latest],
    whatever lies between.  The detector emits for that keyword exactly one
    displacement when both have a position, the oldest is at most 20 and the
    latest is above 20; its level is critical when the latest is above 50
    and warning otherwise, and it reports latest - oldest positions lost.
    In every other case, a missing position included, it emits none. *)
Theorem displacement_classification (history : list history_record)
    (keyword : string) (mid : list history_record)
    (oldest latest : history_record) :
  sort_records (records_of keyword history) = oldest :: mid ++ [latest] ->
  threats_of keyword (detect_displacements history)
  = classify_displacement keyword (h_position oldest) (h_position latest).
Proof.
  intros Hs.
  unfold detect_displacements.
  assert (Hlen : (2 <= length history)%nat).
  { pose proof (records_of_length keyword history) as Hle.
    rewrite <- sort_records_length, Hs in Hle. cbn in Hle.
    rewrite length_app in Hle. cbn in Hle. lia. }
  replace (length history <? 2)%nat with false
    by (symmetry; apply Nat.ltb_ge; exact Hlen).
  rewrite (threats_of_flat_map displacement_of).
  - rewrite group_by_keyword_lookup.
    destruct (records_of keyword history) as [|r rs] eqn:Hrec.
    + cbn in Hs. discriminate Hs.
    + now apply displacement_of_ends with (mid := mid).
  - intros k' rs t. apply displacement_keyword.
  - apply group_fold_NoDup. constructor.
Qed.

Lemma displacement_classification_witness :
  sort_records (records_of "K" history_displaced)
  = mk_record "2024-03-01" "09:00:00" "K" (Some 15)
    :: [mk_record "2024-03-10" "09:00:00" "K" None]
       ++ [mk_record "2024-03-20" "09:00:00" "K" (Some 55)]
  /\ threats_of "K" (detect_displacements history_displaced)
     = [mk_threat "displacement" "K" 15 55 40 "critical" true].
Proof.
  assert (H : sort_records (records_of "K" history_displaced)
              = mk_record "2024-03-01" "09:00:00" "K" (Some 15)
                :: [mk_record "2024-03-10" "09:00:00" "K" None]
                   ++ [mk_record "2024-03-20" "09:00:00" "K" (Some 55)])
    by reflexivity.
  split; [exact H|].
  exact (displacement_classification history_displaced "K" _ _ _ H).
Defined.

Lemma nonempty_filter {A : Type} (f : A -> bool) (l : list A) :
  nonempty (filter f l) = existsb f l.
Proof.
  induction l as [|x l IH]; [reflexivity|].
  cbn [filter existsb]. destruct (f x); [reflexivity|exact IH].
Qed.

Lemma filter_filter_andb {A : Type} (f g : A -> bool) (l : list A) :
  filter f (filter g l) = filter (fun x => g x && f x) l.
Proof.
  induction l as [|x l IH]; [reflexivity|].
  cbn [filter]. destruct (g x); cbn [filter andb]; rewrite IH; reflexivity.
Qed.

Lemma existsb_orb {A : Type} (f g : A -> bool) (l : list A) :
  existsb (fun x => f x || g x) l = existsb f l || existsb g l.
Proof.
  induction l as [|x l IH]; [reflexivity|].
  cbn [existsb]. rewrite IH.
  destruct (f x), (g x), (existsb f l), (existsb g l); reflexivity.
Qed.

Lemma existsb_pointwise {A : Type} (f g : A -> bool) (l : list A) :
  (forall x, f x = g x) -> existsb f l = existsb g l.
Proof.
  intros H. induction l as [|x l IH]; [reflexivity|].
  cbn [existsb]. rewrite H, IH. reflexivity.
Qed.

Lemma existsb_categorised (threats : list threat) :
  existsb categorised threats
  = existsb (fun t => String.eqb (th_type t) "position_drop"
                      && String.eqb (th_threat_level t) "critical") threats
    || existsb (fun t => String.eqb (th_type t) "position_drop"
                         && String.eqb (th_threat_level t) "warning") threats
    || existsb (fun t => String.eqb (th_type t) "displacement"
                         && th_dropped_from_top20 t) threats.
Proof.
  rewrite <- !existsb_orb. apply existsb_pointwise. intros t.
  unfold categorised.
  destruct (String.eqb (th_type t) "position_drop"),
    (String.eqb (th_threat_level t) "critical"),
    (String.eqb (th_threat_level t) "warning"); reflexivity.
Qed.

Lemma rec_critical_other (l : list threat) :
  rec_critical l <> rec_generic /\ rec_critical l <> rec_continue_monitoring.
Proof. split; unfold rec_critical; cbn; discriminate. Qed.

Lemma rec_warning_other (l : list threat) :
  rec_warning l <> rec_generic /\ rec_warning l <> rec_continue_monitoring.
Proof. split; unfold rec_warning; cbn; discriminate. Qed.

Lemma rec_displacement_other (l : list threat) :
  rec_displacement l <> rec_generic
  /\ rec_displacement l <> rec_continue_monitoring.
Proof. split; unfold rec_displacement; cbn; discriminate. Qed.

Lemma rec_generic_not_continue : rec_generic <> rec_continue_monitoring.
Proof. discriminate. Qed.

Lemma generate_recommendations_with_threats (threats : list threat) :
  threats <> [] ->
  (existsb categorised threats = false ->
   generate_recommendations threats = [rec_generic])
  /\ (existsb categorised threats = true ->
      (1 <= length (generate_recommendations threats) <= 3)%nat
      /\ ~ In rec_generic (generate_recommendations threats))
  /\ ~ In rec_continue_monitoring (generate_recommendations threats).
Proof.
  intros Hne. destruct threats as [|t0 rest]; [contradiction|].
  remember (t0 :: rest) as threats eqn:Hthreats.
  assert (Hn : nonempty threats = true) by (subst threats; reflexivity).
  clear Hthreats Hne.
  rewrite existsb_categorised.
  unfold generate_recommendations. rewrite Hn.
  rewrite !filter_filter_andb, !nonempty_filter.
  cbn [negb andb].
  pose proof (fun l => proj1 (rec_critical_other l)) as Hc1.
  pose proof (fun l => proj2 (rec_critical_other l)) as Hc2.
  pose proof (fun l => proj1 (rec_warning_other l)) as Hw1.
  pose proof (fun l => proj2 (rec_warning_other l)) as Hw2.
  pose proof (fun l => proj1 (rec_displacement_other l)) as Hd1.
  pose proof (fun l => proj2 (rec_displacement_other l)) as Hd2.
  pose proof rec_generic_not_continue as Hg.
  destruct (existsb _ threats), (existsb _ threats), (existsb _ threats);
    cbn [app nonempty negb orb length In];
    (split; [intros E; first [discriminate E | reflexivity]|]);
    (split; [intros E; first [discriminate E | clear E; split; [lia|]]|]);
    intros H;
    repeat match goal with
           | H : _ \/ _ |- _ => destruct H
           | H : False |- _ => contradiction
           | H : _ = _ |- _ =>
               first [apply Hc1 in H | apply Hc2 in H | apply Hw1 in H
                     | apply Hw2 in H | apply Hd1 in H | apply Hd2 in H
                     | apply Hg in H]
           end.
Qed.

(** X17.  On a non-empty list of threats [generate_recommendations] answers
    between one and three recommendations and never the advice to continue
    monitoring.  When no threat has a category (a position drop of level
    critical or warning, a displacement out of the top 20) the answer is the
    generic advice alone; when some threat has one, the generic advice is
    absent. *)
Theorem recommendations_by_category (threats : list threat) :
  threats <> [] ->
  (1 <= length (generate_recommendations threats) <= 3)%nat
  /\ ~ In rec_continue_monitoring (generate_recommendations threats)
  /\ (existsb categorised threats = false ->
      generate_recommendations threats = [rec_generic])
  /\ (existsb categorised threats = true ->
      ~ In rec_generic (generate_recommendations threats)).
Proof.
  intros Hne.
  destruct (generate_recommendations_with_threats threats Hne)
    as (Hgen & Hcat & Hcont).
  split; [|split; [exact Hcont|split; [exact Hgen|]]].
  - destruct (existsb categorised threats).
    + apply Hcat. reflexivity.
    + rewrite Hgen by reflexivity. cbn. lia.
  - intros E. apply Hcat. exact E.
Qed.

Lemma recommendations_by_category_witness :
  [threat_of_other_type] <> []
  /\ generate_recommendations [threat_of_other_type] = [rec_generic].
Proof.
  assert (H : [threat_of_other_type] <> []) by discriminate.
  split; [exact H|].
  exact (proj1 (proj2 (proj2 (recommendations_by_category _ H))) eq_refl).
Defined.

Lemma position_drop_categorised (k : string) (rs : list history_record)
    (t : threat) :
  In t (position_drop_of k rs) -> categorised t = true.
Proof.
  unfold position_drop_of.
  destruct (_ <=? _)%nat; [|intros []].
  destruct (Py.last_n _ _) as [|p [|l [|x xs]]]; try (intros []).
  destruct (h_position l) as [lp|]; [|intros []].
  destruct (h_position p) as [pp|]; [|intros []].
  destruct (critical_drop <=? _); [intros [<-|[]]; reflexivity|].
  destruct (significant_drop <=? _); [intros [<-|[]]; reflexivity|intros []].
Qed.

Lemma displacement_categorised (k : string) (rs : list history_record)
    (t : threat) :
  In t (displacement_of k rs) -> categorised t = true.
Proof.
  unfold displacement_of.
  destruct (_ <? _)%nat; [intros []|].
  destruct (hd_error _) as [oldest|]; [|intros []].
  destruct (hd_error (rev _)) as [latest|]; [|intros []].
  destruct (h_position oldest) as [op|]; [|intros []].
  destruct (h_position latest) as [lp|]; [|intros []].
  destruct (_ && _); [|intros []].
  intros [<-|[]]. reflexivity.
Qed.

Lemma analysis_threats_categorised (history7 history30 : list history_record)
    (t : threat) :
  In t (an_threats (analyze_project history7 history30)) ->
  categorised t = true.
Proof.
  unfold analyze_project. cbn [an_threats]. rewrite in_app_iff.
  intros [H|H].
  - unfold analyze_position_changes in H.
    destruct history7; [destruct H|].
    apply in_flat_map in H. destruct H as ((k & rs) & _ & H).
    exact (position_drop_categorised _ _ _ H).
  - unfold detect_displacements in H.
    destruct (_ <? _)%nat; [destruct H|].
    apply in_flat_map in H. destruct H as ((k & rs) & _ & H).
    exact (displacement_categorised _ _ _ H).
Qed.

(** X18.  Every threat [analyze_project] reports has a category of
    [generate_recommendations].  So an analysis that found a threat carries
    between one and three recommendations, and neither the generic advice
    nor the advice to continue monitoring is among them: as called from
    [analyze_project], those two branches of [generate_recommendations] are
    never taken. *)
Theorem analysis_recommendations_categorised
    (history7 history30 : list history_record) :
  an_threats (analyze_project history7 history30) <> [] ->
  forallb categorised (an_threats (analyze_project history7 history30)) = true
  /\ (1 <= length (an_recommendations (analyze_project history7 history30))
      <= 3)%nat
  /\ ~ In rec_generic (an_recommendations (analyze_project history7 history30))
  /\ ~ In rec_continue_monitoring
         (an_recommendations (analyze_project history7 history30)).
Proof.
  intros Hne.
  pose proof (analysis_threats_categorised history7 history30) as Hall.
  revert Hne Hall. unfold analyze_project. cbn [an_threats an_recommendations].
  generalize (analyze_position_changes history7
              ++ detect_displacements history30).
  intros threats Hne Hall.
  assert (Hex : existsb categorised threats = true).
  { destruct threats as [|t l]; [contradiction|].
    cbn [existsb]. rewrite (Hall t (or_introl eq_refl)). reflexivity. }
  destruct (generate_recommendations_with_threats threats Hne)
    as (_ & Hcat & Hcont).
  destruct (Hcat Hex) as (Hlen & Hgen).
  replace (nonempty threats) with true
    by (destruct threats; [contradiction|reflexivity]).
  split; [|split; [exact Hlen|split; [exact Hgen|exact Hcont]]].
  apply forallb_forall. exact Hall.
Qed.

Lemma analysis_recommendations_categorised_witness :
  an_threats (analyze_project history_drop_and_displacement
                history_drop_and_displacement) <> []
  /\ an_recommendations (analyze_project history_drop_and_displacement
                           history_drop_and_displacement)
     = [rec_critical [mk_threat "position_drop" "K" 15 55 40 "critical" false];
        rec_displacement
          [mk_threat "displacement" "K" 15 55 40 "critical" true]]
  /\ ~ In rec_generic
         (an_recommendations (analyze_project history_drop_and_displacement
                                history_drop_and_displacement)).
Proof.
  assert (H : an_threats (analyze_project history_drop_and_displacement
                            history_drop_and_displacement) <> [])
    by discriminate.
  split; [exact H|]. split; [reflexivity|].
  exact (proj1 (proj2 (proj2 (analysis_recommendations_categorised _ _ H)))).
Defined.

(** * The position source *)

Lemma competitors_loop_closed (dm : option string -> string -> bool)
    (domain : string) (found : bool) (limit : nat)
    (results : list search_result) (competitors : list competitor) :
  (length competitors < limit)%nat ->
  (found = true \/ forall r, In r results -> dm (sr_domain r) domain = false) ->
  competitors_loop dm domain found (Z.of_nat limit) results competitors
  = competitors
    ++ firstn (limit - length competitors)
         (map competitor_of
            (filter (fun r => negb (dm (sr_domain r) domain)) results)).
Proof.
  revert competitors.
  induction results as [|r rest IH]; intros competitors Hlt Hfound.
  - cbn. rewrite firstn_nil, app_nil_r. reflexivity.
  - cbn [competitors_loop filter].
    assert (Hrest : found = true
                    \/ forall x, In x rest -> dm (sr_domain x) domain = false).
    { destruct Hfound as [H|H]; [left; exact H|right].
      intros x Hx. apply H. right. exact Hx. }
    destruct (dm (sr_domain r) domain) eqn:Hm.
    + assert (found = true) as ->.
      { destruct Hfound as [H|H]; [exact H|].
        rewrite (H r (or_introl eq_refl)) in Hm. discriminate Hm. }
      cbn [andb negb]. apply IH; assumption.
    + rewrite andb_false_r. cbn [negb map].
      rewrite length_app. cbn [length].
      destruct (Z.of_nat limit <=? Z.of_nat (length competitors + 1)) eqn:Hle.
      * apply Z.leb_le in Hle.
        replace (limit - length competitors)%nat with 1%nat by lia.
        cbn [firstn]. reflexivity.
      * apply Z.leb_gt in Hle.
        rewrite IH; [|rewrite length_app; cbn [length]; lia|exact Hrest].
        rewrite length_app. cbn [length].
        replace (limit - length competitors)%nat
          with (S (limit - (length competitors + 1)))%nat by lia.
        cbn [firstn]. rewrite <- app_assoc. reflexivity.
Qed.

Lemma find_none_all {A : Type} (f : A -> bool) (l : list A) :
  find f l = None -> forall x, In x l -> f x = false.
Proof. intros H x Hx. exact (find_none f l H x Hx). Qed.

Lemma In_firstn {A : Type} (n : nat) (l : list A) (x : A) :
  In x (firstn n l) -> In x l.
Proof.
  revert l. induction n as [|n IH]; intros [|y l]; cbn; try tauto.
  intros [H|H]; [left; exact H|right; exact (IH l H)].
Qed.

Lemma yandex_competitors_closed (dm : option string -> string -> bool)
    (domain : string) (all_results : list search_result) (limit : Z) :
  0 < limit ->
  yr_competitors (get_yandex_position dm domain all_results true limit)
  = Some (firstn (Z.to_nat limit)
            (map competitor_of (foreign_results dm domain limit all_results))).
Proof.
  intros Hpos. unfold get_yandex_position. cbn [yr_competitors andb].
  replace (0 <? limit) with true by (symmetry; apply Z.ltb_lt; exact Hpos).
  unfold Py.slice_to.
  replace (0 <=? limit + 10) with true by (symmetry; apply Z.leb_le; lia).
  f_equal. unfold foreign_results.
  rewrite <- (Z2Nat.id limit) at 1 by lia.
  rewrite competitors_loop_closed.
  - cbn [length app]. rewrite Nat.sub_0_r. reflexivity.
  - cbn [length]. lia.
  - destruct (find _ all_results) eqn:Hfind; [left; reflexivity|right].
    intros r Hr. apply (find_none_all _ _ Hfind).
    exact (In_firstn _ _ _ Hr).
Qed.

(** X19.  Asked for at most [competitors_limit > 0] competitors, the parser
    answers the first [competitors_limit] results, in their order, among
    those of the first [competitors_limit + 10] that do not match the domain
    asked for.  So the list never exceeds the limit, never holds a result
    that matches the own domain, whether or not the own domain was found,
    and the collector's wrapper hands it on unchanged, so that the slice
    [competitors[:competitors_limit]] of [check_positions] keeps all of
    it. *)
Theorem competitors_exclude_own_domain
    (domains_match : option string -> string -> bool) (domain : string)
    (all_results : list search_result) (competitors_limit : Z) :
  0 < competitors_limit ->
  let competitors :=
    pd_competitors
      (_get_real_yandex_position domains_match domain all_results true
         competitors_limit) in
  yr_competitors
    (get_yandex_position domains_match domain all_results true
       competitors_limit) = Some competitors
  /\ competitors
     = firstn (Z.to_nat competitors_limit)
         (map competitor_of
            (foreign_results domains_match domain competitors_limit
               all_results))
  /\ Z.of_nat (length competitors) <= competitors_limit
  /\ (forall c, In c competitors -> domains_match (c_domain c) domain = false)
  /\ Py.slice_to competitors_limit competitors = competitors.
Proof.
  intros Hpos competitors. subst competitors.
  unfold _get_real_yandex_position. cbn [pd_competitors andb].
  rewrite (yandex_competitors_closed _ _ _ _ Hpos).
  set (cs := firstn _ _).
  assert (Hsame : (if nonempty cs then cs else []) = cs)
    by (destruct cs; reflexivity).
  rewrite Hsame.
  assert (Hlen : (length cs <= Z.to_nat competitors_limit)%nat)
    by apply firstn_le_length.
  split; [reflexivity|]. split; [reflexivity|]. split; [lia|]. split.
  - intros c Hc. apply In_firstn in Hc. apply in_map_iff in Hc.
    destruct Hc as (r & <- & Hr). apply filter_In in Hr.
    destruct Hr as (_ & Hr). cbn [c_domain competitor_of].
    destruct (domains_match (sr_domain r) domain); [discriminate Hr|reflexivity].
  - unfold Py.slice_to.
    replace (0 <=? competitors_limit) with true
      by (symmetry; apply Z.leb_le; lia).
    apply firstn_all2. exact Hlen.
Qed.

Lemma competitors_exclude_own_domain_witness :
  0 < 2
  /\ pd_competitors
       (_get_real_yandex_position same_domain "shop.ru" results_example true 2)
     = [competitor_of (result_at 1 "a.ru"); competitor_of (result_at 3 "b.ru")]
  /\ forall c,
       In c (pd_competitors
               (_get_real_yandex_position same_domain "shop.ru"
                  results_example true 2)) ->
       same_domain (c_domain c) "shop.ru" = false.
Proof.
  assert (H : 0 < 2) by lia.
  split; [exact H|]. split; [reflexivity|].
  exact (proj1 (proj2 (proj2 (proj2
           (competitors_exclude_own_domain same_domain "shop.ru"
              results_example 2 H))))).
Defined.

Lemma find_first_match {A : Type} (f : A -> bool) (before after : list A)
    (x : A) :
  (forall y, In y before -> f y = false) -> f x = true ->
  find f (before ++ x :: after) = Some x.
Proof.
  intros Hb Hx. induction before as [|y before IH]; cbn [app find].
  - rewrite Hx. reflexivity.
  - rewrite (Hb y (or_introl eq_refl)). apply IH.
    intros z Hz. apply Hb. right. exact Hz.
Qed.

Lemma find_no_match {A : Type} (f : A -> bool) (l : list A) :
  (forall y, In y l -> f y = false) -> find f l = None.
Proof.
  intros H. induction l as [|y l IH]; [reflexivity|].
  cbn [find]. rewrite (H y (or_introl eq_refl)). apply IH.
  intros z Hz. apply H. right. exact Hz.
Qed.

(** X20.  The position the parser reports is that of the earliest result
    that matches the domain asked for, with its url; 'found' holds exactly
    when that position is at most 100.  When no result matches, the position
    is 101, not [None], 'found' is false and the url is empty; the
    collector's wrapper passes 101 on as the position to save. *)
Theorem position_of_first_match
    (domains_match : option string -> string -> bool) (domain : string)
    (include_competitors : bool) (competitors_limit : Z) :
  (forall (before after : list search_result) (own : search_result),
      (forall r, In r before -> domains_match (sr_domain r) domain = false) ->
      domains_match (sr_domain own) domain = true ->
      let result :=
        get_yandex_position domains_match domain (before ++ own :: after)
          include_competitors competitors_limit in
      yr_position result = sr_position own
      /\ yr_url result = sr_url own
      /\ yr_found result = (sr_position own <=? 100)
      /\ pd_position
           (_get_real_yandex_position domains_match domain
              (before ++ own :: after) include_competitors competitors_limit)
         = Some (sr_position own))
  /\ (forall all_results : list search_result,
         (forall r, In r all_results ->
                    domains_match (sr_domain r) domain = false) ->
         let result :=
           get_yandex_position domains_match domain all_results
             include_competitors competitors_limit in
         yr_position result = 101
         /\ yr_url result = Some EmptyString
         /\ yr_found result = false
         /\ pd_position
              (_get_real_yandex_position domains_match domain all_results
                 include_competitors competitors_limit)
            = Some 101).
Proof.
  split.
  - intros before after own Hb Hown result. subst result.
    unfold _get_real_yandex_position, get_yandex_position.
    cbn [yr_position yr_url yr_found pd_position].
    rewrite (find_first_match _ before after own Hb Hown).
    cbn [option_map]. repeat split; reflexivity.
  - intros all_results Hnone result. subst result.
    unfold _get_real_yandex_position, get_yandex_position.
    cbn [yr_position yr_url yr_found pd_position].
    rewrite (find_no_match _ all_results Hnone).
    cbn [option_map]. repeat split; reflexivity.
Qed.

Lemma position_of_first_match_witness :
  yr_position (get_yandex_position same_domain "shop.ru" results_example
                 true 2) = 2
  /\ pd_position (_get_real_yandex_position same_domain "absent.ru"
                    results_example true 2) = Some 101.
Proof.
  split.
  - refine (proj1 (proj1 (position_of_first_match same_domain "shop.ru" true 2)
                     [result_at 1 "a.ru"]
                     [result_at 3 "b.ru"; result_at 4 "shop.ru";
                      result_at 5 "c.ru"]
                     (result_at 2 "shop.ru") _ eq_refl)).
    intros r [<-|[]]. reflexivity.
  - refine (proj2 (proj2 (proj2
             (proj2 (position_of_first_match same_domain "absent.ru" true 2)
                results_example _)))).
    intros r Hr. cbn in Hr.
    repeat (destruct Hr as [<-|Hr]; [reflexivity|]). destruct Hr.
Defined.

(** * Opening the store *)

Lemma map_update_where_same {A B : Type} (id_of : A -> Z) (g : A -> B)
    (id : Z) (f : A -> A) (rows : list A) :
  (forall r, g (f r) = g r) ->
  map g (update_where id_of id f rows) = map g rows.
Proof.
  intros Hg. unfold update_where. rewrite map_map. apply map_ext.
  intros r. destruct (id_of r =? id); auto.
Qed.

Lemma NoDup_next_id (ids : list Z) : NoDup ids -> NoDup (ids ++ [next_id ids]).
Proof.
  intros Hnd.
  apply NoDup_app; [exact Hnd|constructor; [intros []|constructor]|].
  intros x Hx [E|[]]. pose proof (next_id_above ids x Hx). lia.
Qed.

Lemma find_map_fixed_in {A : Type} (p : A -> bool) (g : A -> A) (l : list A) :
  (forall r, p (g r) = p r) -> (forall r, In r l -> p r = true -> g r = r) ->
  find p (map g l) = find p l.
Proof.
  intros Hp Hfix. induction l as [|x l IH]; [reflexivity|].
  cbn [map find]. rewrite Hp. destruct (p x) eqn:E.
  - rewrite (Hfix x (or_introl eq_refl) E). reflexivity.
  - apply IH. intros r Hr. apply Hfix. right. exact Hr.
Qed.

Lemma update_domain_ids_unique (c : conn) (dom date : string) (p : Z) :
  NoDup (map dm_id (cn_domains c)) ->
  NoDup (map dm_id (cn_domains (_update_domain_reference c dom date p))).
Proof.
  intros Hnd. unfold _update_domain_reference.
  destruct (String.eqb dom EmptyString); [exact Hnd|].
  destruct (find _ (cn_domains c)) as [row|]; cbn [cn_domains].
  - rewrite map_update_where_same; [exact Hnd|reflexivity].
  - rewrite map_app. cbn [map dm_id]. apply NoDup_next_id. exact Hnd.
Qed.

Lemma update_domain_changes (c : conn) (dom date : string) (p : Z) :
  0 <= cn_total_changes c ->
  0 <= cn_total_changes (_update_domain_reference c dom date p).
Proof.
  intros H. unfold _update_domain_reference.
  destruct (String.eqb dom EmptyString); [exact H|].
  destruct (find _ (cn_domains c)); cbn [cn_total_changes]; lia.
Qed.

Lemma update_domain_other (c : conn) (domain dom date : string) (p : Z) :
  dom <> domain ->
  NoDup (map dm_id (cn_domains c)) ->
  domain_row_of domain (cn_domains (_update_domain_reference c dom date p))
  = domain_row_of domain (cn_domains c).
Proof.
  intros Hne Hnd. unfold _update_domain_reference, domain_row_of.
  destruct (String.eqb dom EmptyString); [reflexivity|].
  destruct (find _ (cn_domains c)) as [row|] eqn:Hfind; cbn [cn_domains].
  - apply find_some in Hfind. destruct Hfind as (Hin & Hdom).
    apply String.eqb_eq in Hdom.
    unfold update_where. apply find_map_fixed_in.
    + intros r. destruct (dm_id r =? dm_id row); reflexivity.
    + intros r Hr Hr_dom. apply String.eqb_eq in Hr_dom.
      destruct (dm_id r =? dm_id row) eqn:Hid; [|reflexivity].
      apply Z.eqb_eq in Hid.
      pose proof (NoDup_map_inj dm_id _ r row Hnd Hr Hin Hid) as ->.
      congruence.
  - rewrite find_app_split.
    destruct (find (fun r => String.eqb (dm_domain r) domain) (cn_domains c));
      [reflexivity|].
    cbn [find dm_domain].
    destruct (String.eqb dom domain) eqn:E; [|reflexivity].
    apply String.eqb_eq in E. contradiction.
Qed.

Lemma update_domain_total (c : conn) (domain dom date : string) (p : Z) :
  domain <> EmptyString ->
  NoDup (map dm_id (cn_domains c)) ->
  total_appearances_of domain
    (cn_domains (_update_domain_reference c dom date p))
  = total_appearances_of domain (cn_domains c)
    + (if String.eqb dom domain then 1 else 0).
Proof.
  intros Hd Hnd. unfold total_appearances_of.
  destruct (String.eqb dom domain) eqn:E.
  - apply String.eqb_eq in E. subst dom.
    rewrite (update_domain_reference_row c domain date p Hd).
    destruct (domain_row_of domain (cn_domains c)); reflexivity.
  - apply String.eqb_neq in E.
    rewrite (update_domain_other c domain dom date p E Hnd). lia.
Qed.

Section Reopened.
Variables (pid kid : Z) (sid : option Z) (d t : string).
Variables (domain : string) (position : Z).
Hypothesis domain_given : domain <> EmptyString.

Let step := save_competitor pid kid sid d t.
Let stored (c : conn) : bool :=
  existsb (competitor_key_eqb pid kid d t domain position) (cn_competitors c).

Lemma insert_or_ignore_domains (c : conn) (dom : string) (p : Z) :
  cn_domains (insert_or_ignore_competitor c pid kid sid d t dom p)
  = cn_domains c
  /\ cn_total_changes c
     <= cn_total_changes (insert_or_ignore_competitor c pid kid sid d t dom p).
Proof.
  unfold insert_or_ignore_competitor.
  destruct (_ && _); cbn [cn_domains cn_total_changes]; split;
    try reflexivity; lia.
Qed.

Lemma save_competitor_sound (c : conn) (comp : competitor) :
  NoDup (map dm_id (cn_domains c)) -> 0 <= cn_total_changes c ->
  NoDup (map dm_id (cn_domains (step c comp)))
  /\ 0 <= cn_total_changes (step c comp)
  /\ total_appearances_of domain (cn_domains c)
     <= total_appearances_of domain (cn_domains (step c comp)).
Proof.
  intros Hnd Hch. subst step. unfold save_competitor.
  destruct (_ || _); [split; [exact Hnd|split; [exact Hch|lia]]|].
  set (dom := Py.or_else (c_domain comp) EmptyString).
  set (p := Py.or_else (c_position comp) 0).
  destruct (insert_or_ignore_domains c dom p) as (Hdom & Hle).
  set (c1 := insert_or_ignore_competitor c pid kid sid d t dom p) in *.
  assert (Hnd1 : NoDup (map dm_id (cn_domains c1))) by (rewrite Hdom; exact Hnd).
  destruct (0 <? cn_total_changes c1).
  - split; [now apply update_domain_ids_unique|].
    split; [apply update_domain_changes; lia|].
    rewrite (update_domain_total c1 domain dom d p domain_given Hnd1).
    rewrite Hdom. destruct (String.eqb dom domain); lia.
  - split; [exact Hnd1|]. split; [lia|]. rewrite Hdom. lia.
Qed.

Lemma fold_save_competitor_sound (comps : list competitor) :
  forall c,
    NoDup (map dm_id (cn_domains c)) -> 0 <= cn_total_changes c ->
    total_appearances_of domain (cn_domains c)
    <= total_appearances_of domain (cn_domains (fold_left step comps c)).
Proof.
  induction comps as [|x comps IH]; intros c Hnd Hch; cbn [fold_left]; [lia|].
  destruct (save_competitor_sound c x Hnd Hch) as (Hnd' & Hch' & Hle).
  specialize (IH _ Hnd' Hch'). lia.
Qed.

Lemma save_competitor_counts_insert (c : conn) (comp : competitor) :
  NoDup (map dm_id (cn_domains c)) -> 0 <= cn_total_changes c ->
  stored c = false -> stored (step c comp) = true ->
  total_appearances_of domain (cn_domains (step c comp))
  = total_appearances_of domain (cn_domains c) + 1.
Proof.
  intros Hnd Hch Hbefore Hafter. subst step stored. cbv beta in *.
  unfold save_competitor in *.
  destruct (_ || _); [congruence|].
  set (dom := Py.or_else (c_domain comp) EmptyString) in *.
  set (p := Py.or_else (c_position comp) 0) in *.
  unfold insert_or_ignore_competitor in *.
  destruct (_ && _).
  - cbn [cn_total_changes cn_competitors cn_domains] in *.
    replace (0 <? cn_total_changes c + 1) with true in *
      by (symmetry; apply Z.ltb_lt; lia).
    rewrite update_domain_reference_competitors in Hafter.
    cbn [cn_competitors] in Hafter.
    rewrite existsb_app, Hbefore in Hafter.
    cbn [existsb orb] in Hafter. rewrite orb_false_r in Hafter.
    unfold competitor_key_eqb in Hafter.
    cbn [co_project_id co_keyword_id co_check_date co_check_time
         co_competitor_domain co_competitor_position] in Hafter.
    apply andb_true_iff in Hafter. destruct Hafter as (Hafter & _).
    apply andb_true_iff in Hafter. destruct Hafter as (_ & Hdom).
    rewrite update_domain_total by assumption.
    cbn [cn_domains]. rewrite Hdom. reflexivity.
  - destruct (0 <? cn_total_changes c).
    + rewrite update_domain_reference_competitors in Hafter. congruence.
    + congruence.
Qed.

Lemma fold_save_competitor_counts (comps : list competitor) (comp : competitor) :
  In comp comps -> valid_entry comp domain position ->
  forall c,
    NoDup (map dm_id (cn_domains c)) -> 0 <= cn_total_changes c ->
    stored c = false ->
    total_appearances_of domain (cn_domains c) + 1
    <= total_appearances_of domain (cn_domains (fold_left step comps c)).
Proof.
  intros Hin Hvalid.
  induction comps as [|x comps IH]; intros c Hnd Hch Hbefore; [destruct Hin|].
  cbn [fold_left].
  destruct (save_competitor_sound c x Hnd Hch) as (Hnd' & Hch' & Hle).
  destruct (stored (step c x)) eqn:Hafter.
  - rewrite <- (save_competitor_counts_insert c x Hnd Hch Hbefore Hafter).
    now apply fold_save_competitor_sound.
  - assert (Hrest : In comp comps).
    { destruct Hin as [->|Hin]; [|exact Hin]. exfalso.
      destruct (save_competitor_stores pid kid sid d t c comp domain position
                  Hvalid) as (row & Hrow & Hkey).
      subst stored step. cbv beta in Hafter.
      assert (Htrue : existsb (competitor_key_eqb pid kid d t domain position)
                        (cn_competitors (save_competitor pid kid sid d t c comp))
                      = true)
        by (apply existsb_exists; exists row; split; assumption).
      congruence. }
    specialize (IH Hrest _ Hnd' Hch' Hafter). lia.
Qed.

End Reopened.

Lemma fold_save_competitor_ids (pid kid : Z) (sid : option Z) (d t : string)
    (comps : list competitor) :
  forall c,
    NoDup (map dm_id (cn_domains c)) -> 0 <= cn_total_changes c ->
    NoDup (map dm_id
             (cn_domains (fold_left (save_competitor pid kid sid d t) comps c))).
Proof.
  induction comps as [|x comps IH]; intros c Hnd Hch; cbn [fold_left];
    [exact Hnd|].
  destruct (save_competitor_sound pid kid sid d t "-" ltac:(discriminate) c x
              Hnd Hch) as (Hnd' & Hch' & _).
  exact (IH _ Hnd' Hch').
Qed.

Lemma save_competitors_domain_ids (s : db) (pid kid : Z) (d t : string)
    (comps : list competitor) (sid : option Z) :
  NoDup (map dm_id (domains s)) ->
  NoDup (map dm_id (domains (save_competitors s pid kid d t comps sid))).
Proof.
  intros Hnd. unfold save_competitors.
  destruct comps as [|comp0 comps0]; [exact Hnd|].
  cbn [domains set_competitors_domains].
  apply fold_save_competitor_ids; [exact Hnd|cbn; lia].
Qed.

(** X21.  Opening a new handle on the store discards the competitor rows:
    what [save_competitors] stored is gone from [competitors] while every
    other table, the domain reference with its counts included, is as
    before.  A repeated [save_competitors] with the same arguments is then
    no longer without effect: it stores the rows again and counts the
    domain of every valid entry in the reference once more. *)
Theorem new_handle_discards_competitors :
  forall (s : db) (pid kid : Z) (d t : string) (comps : list competitor)
         (sid : option Z) (comp : competitor) (domain : string) (position : Z),
    NoDup (map dm_id (domains s)) ->
    In comp comps -> valid_entry comp domain position ->
    let s1 := save_competitors s pid kid d t comps sid in
    let s2 := _init_database s1 in
    let s3 := save_competitors s2 pid kid d t comps sid in
    stored_competitor pid kid (d, t) domain position s1
    /\ competitors s2 = []
    /\ (projects s2, keywords s2, monitoring_sessions s2, positions s2,
        domains s2, snapshots s2)
       = (projects s1, keywords s1, monitoring_sessions s1, positions s1,
          domains s1, snapshots s1)
    /\ stored_competitor pid kid (d, t) domain position s3
    /\ total_appearances_of domain (domains s1) + 1
       <= total_appearances_of domain (domains s3).
Proof.
  intros s pid kid d t comps sid comp domain position Hnd Hin Hvalid s1 s2 s3.
  split.
  { exact (proj2 (save_competitors_stores pid kid sid d t s comps)
             comp domain position Hin Hvalid). }
  split; [reflexivity|]. split; [reflexivity|]. split.
  { exact (proj2 (save_competitors_stores pid kid sid d t s2 comps)
             comp domain position Hin Hvalid). }
  pose proof (save_competitors_domain_ids s pid kid d t comps sid Hnd) as Hnd1.
  fold s1 in Hnd1. subst s3. unfold save_competitors at 1.
  destruct comps as [|comp0 comps0]; [destruct Hin|].
  assert (Hne : domain <> EmptyString) by apply Hvalid.
  pose proof (fold_save_competitor_counts pid kid sid d t domain position Hne
                (comp0 :: comps0) comp Hin Hvalid
                (mk_conn [] (domains s1) 0) Hnd1) as Hcount.
  cbn [cn_domains cn_total_changes cn_competitors existsb] in Hcount.
  exact (Hcount (Z.le_refl 0) eq_refl).
Qed.

Lemma new_handle_discards_competitors_witness :
  total_appearances_of "a.com"
    (domains (save_competitors empty_db 1 1 "2024-05-01" "10:00:00"
                [competitor_a1] None)) = 1
  /\ 2 <= total_appearances_of "a.com"
            (domains
               (save_competitors
                  (_init_database
                     (save_competitors empty_db 1 1 "2024-05-01" "10:00:00"
                        [competitor_a1] None))
                  1 1 "2024-05-01" "10:00:00" [competitor_a1] None)).
Proof.
  split; [reflexivity|].
  refine (proj2 (proj2 (proj2 (proj2
            (new_handle_discards_competitors empty_db 1 1 "2024-05-01"
               "10:00:00" [competitor_a1] None competitor_a1 "a.com" 1
               _ _ _))))).
  - constructor.
  - left. reflexivity.
  - repeat split; try reflexivity; try discriminate; lia.
Defined.

(** * Reading the store *)

Lemma latest_among_new (old : list session_row) (x : session_row) (pid : Z) :
  ms_project_id x = pid ->
  (forall r, In r old -> ms_project_id r = pid ->
             Py.str_ltb (ms_start_text r) (ms_start_text x) = true) ->
  forall answer, latest_among (old ++ [x]) pid answer <-> answer = Some x.
Proof.
  intros Hx Hold answer.
  assert (Hlast : In x (old ++ [x]))
    by (apply in_or_app; right; left; reflexivity).
  split.
  - destruct answer as [r|]; cbn [latest_among].
    + intros (Hin & Hpid & Hmax). apply in_app_or in Hin.
      destruct Hin as [Hin|[->|[]]]; [|reflexivity].
      exfalso. specialize (Hmax x Hlast Hx).
      rewrite (Hold r Hin Hpid) in Hmax. discriminate Hmax.
    + intros Hnone. exfalso. exact (Hnone x Hlast Hx).
  - intros ->. cbn [latest_among].
    split; [exact Hlast|]. split; [exact Hx|].
    intros r' Hin Hpid. apply in_app_or in Hin.
    destruct Hin as [Hin|[<-|[]]].
    + apply str_ltb_asym. exact (Hold r' Hin Hpid).
    + apply str_ltb_irrefl.
Qed.

Lemma update_where_fresh (rows : list session_row)
    (f : session_row -> session_row) (x : session_row) :
  ms_session_id x = next_id (map ms_session_id rows) ->
  update_where ms_session_id (ms_session_id x) f (rows ++ [x])
  = rows ++ [f x].
Proof.
  intros Hid. unfold update_where. rewrite map_app. cbn [map].
  rewrite Z.eqb_refl. f_equal. apply map_id_in. intros r Hr.
  pose proof (next_id_above _ _ (in_map ms_session_id _ _ Hr)) as Hlt.
  replace (ms_session_id r =? ms_session_id x) with false; [reflexivity|].
  symmetry. apply Z.eqb_neq. lia.
Qed.

(** The sessions after a run with a session of its own: those of before,
    followed by the run's session. *)
Lemma session_run_sessions (w : world) (s : db) (domain : string)
    (keywords : list string) (session_name : option string)
    (search_engine : string) (use_cache track : bool) (limit : Z)
    (project : config_project) :
  _find_project_by_domain (w_config w) domain = Some project ->
  let pid := snd (get_or_create_project s
                    (Py.or_else (cp_name project) domain) domain) in
  let r := check_positions_with_session w s domain keywords session_name
             search_engine use_cache track limit in
  exists x,
    monitoring_sessions (fst r) = monitoring_sessions s ++ [x]
    /\ ms_session_id x = snd (snd r)
    /\ ms_session_id x = next_id (map ms_session_id (monitoring_sessions s))
    /\ ms_project_id x = pid
    /\ (ms_start_date x, ms_start_time x) = w_session_start w.
Proof.
  intros Hproj pid r. subst r.
  unfold check_positions_with_session. rewrite Hproj.
  destruct (get_or_create_project_frame s (Py.or_else (cp_name project) domain)
              domain) as (_ & Hms & _).
  subst pid.
  destruct (get_or_create_project s _ domain) as [s1 pid].
  cbn [fst snd] in *.
  set (name := match session_name with
               | Some (String c n) => String c n
               | _ => w_default_session_name w
               end).
  unfold create_monitoring_session.
  set (sid := next_id (map ms_session_id (monitoring_sessions s1))).
  set (new := mk_session sid pid (Some name) (fst (w_session_start w))
                (snd (w_session_start w)) None running None None).
  set (s2 := set_monitoring_sessions s1 (monitoring_sessions s1 ++ [new])).
  pose proof (check_positions_sessions w s2 domain keywords (Some sid)
                search_engine use_cache track limit) as Hsess.
  assert (Hnew : ms_session_id new
                 = next_id (map ms_session_id (monitoring_sessions s1)))
    by reflexivity.
  destruct (check_positions w s2 domain keywords (Some sid) search_engine
              use_cache track limit) as [s3 [results|e]];
    cbn [fst snd] in *.
  - unfold complete_monitoring_session.
    cbn [monitoring_sessions set_monitoring_sessions].
    rewrite Hsess. subst s2. cbn [monitoring_sessions set_monitoring_sessions].
    change sid with (ms_session_id new) at 1.
    rewrite (update_where_fresh _ _ new Hnew). rewrite Hms.
    eexists. split; [reflexivity|]. cbn.
    split; [reflexivity|]. split; [subst sid; now rewrite Hms|].
    split; [reflexivity|]. now destruct (w_session_start w).
  - unfold fail_monitoring_session.
    cbn [monitoring_sessions set_monitoring_sessions].
    rewrite Hsess. subst s2. cbn [monitoring_sessions set_monitoring_sessions].
    change sid with (ms_session_id new) at 1.
    rewrite (update_where_fresh _ _ new Hnew). rewrite Hms.
    eexists. split; [reflexivity|]. cbn.
    split; [reflexivity|]. split; [subst sid; now rewrite Hms|].
    split; [reflexivity|]. now destruct (w_session_start w).
Qed.

(** X22.  When every earlier session of the project started strictly before
    the new one, [get_latest_session] has exactly one answer after
    [create_monitoring_session], the session just created, and exactly one
    after a run of [check_positions_with_session], the session of that run as
    [_get_session_info] finds it under the returned id. *)
Theorem latest_session_is_last_run :
  (forall (s : db) (now : string * string) (pid : Z) (name : option string),
      (forall r, In r (monitoring_sessions s) -> ms_project_id r = pid ->
                 Py.str_ltb (ms_start_text r)
                   (start_time_text (fst now) (snd now)) = true) ->
      let created := create_monitoring_session s now pid name in
      forall answer,
        get_latest_session (fst created) pid answer
        <-> answer = Some (mk_session (snd created) pid name (fst now) (snd now)
                             None running None None))
  /\ (forall (w : world) (s : db) (domain : string) (keywords : list string)
             (session_name : option string) (search_engine : string)
             (use_cache track : bool) (limit : Z) (project : config_project),
         _find_project_by_domain (w_config w) domain = Some project ->
         let pid := snd (get_or_create_project s
                           (Py.or_else (cp_name project) domain) domain) in
         (forall r, In r (monitoring_sessions s) -> ms_project_id r = pid ->
                    Py.str_ltb (ms_start_text r)
                      (start_time_text (fst (w_session_start w))
                         (snd (w_session_start w))) = true) ->
         let r := check_positions_with_session w s domain keywords session_name
                    search_engine use_cache track limit in
         exists info,
           _get_session_info (fst r) (snd (snd r)) pid = Some info
           /\ forall answer,
                get_latest_session (fst r) pid answer <-> answer = Some info).
Proof.
  split.
  - intros s now pid name Hold created answer. subst created.
    unfold get_latest_session, create_monitoring_session.
    cbn [fst snd monitoring_sessions set_monitoring_sessions].
    apply latest_among_new; [reflexivity|exact Hold].
  - intros w s domain keywords session_name search_engine use_cache track limit
      project Hproj pid Hold r.
    destruct (session_run_sessions w s domain keywords session_name
                search_engine use_cache track limit project Hproj)
      as (x & Hsess & Hid & Hfresh & Hpid & Hstart).
    fold r in Hsess, Hid. fold pid in Hpid.
    exists x. split.
    + unfold _get_session_info. rewrite Hsess, <- Hid, Hfresh.
      rewrite find_app_split, find_none_fresh_session.
      cbn [find]. rewrite <- Hfresh, Hpid, !Z.eqb_refl. reflexivity.
    + intros answer. unfold get_latest_session. rewrite Hsess.
      apply latest_among_new; [exact Hpid|].
      intros r0 Hin Hr0. rewrite <- Hstart in Hold. exact (Hold r0 Hin Hr0).
Qed.

Lemma latest_session_is_last_run_witness :
  get_latest_session
    (fst (check_positions_with_session world_second_run store_with_session
            "example.com" ["k1"; "k2"] None "yandex" false true 20))
    1
    (_get_session_info
       (fst (check_positions_with_session world_second_run store_with_session
               "example.com" ["k1"; "k2"] None "yandex" false true 20))
       2 1).
Proof.
  destruct (proj2 latest_session_is_last_run world_second_run
              store_with_session "example.com" ["k1"; "k2"] None "yandex"
              false true 20
              (mk_config_project (Some "Example") (Some "https://example.com/"))
              eq_refl) as (info & Hinfo & Hlatest).
  - intros r [<-|[]] _. reflexivity.
  - change (snd (snd (check_positions_with_session world_second_run
                        store_with_session "example.com" ["k1"; "k2"] None
                        "yandex" false true 20))) with 2 in Hinfo.
    change (snd (get_or_create_project store_with_session
                   (Py.or_else (cp_name (mk_config_project (Some "Example")
                                           (Some "https://example.com/")))
                      "example.com") "example.com")) with 1 in Hinfo, Hlatest.
    rewrite Hinfo. apply Hlatest. reflexivity.
Defined.

Lemma session_position_ltb_asym (x y : session_position) :
  session_position_ltb x y = true -> session_position_ltb y x = false.
Proof.
  unfold session_position_ltb. intros H.
  apply orb_true_iff in H. destruct H as [H|H].
  - rewrite (str_ltb_asym _ _ H). simpl.
    destruct (String.eqb_spec (sp_check_time y) (sp_check_time x)) as [E|E];
      [|reflexivity].
    rewrite E, str_ltb_irrefl in H. discriminate.
  - apply andb_true_iff in H. destruct H as [Hd Ht].
    apply String.eqb_eq in Hd. rewrite Hd, str_ltb_irrefl, String.eqb_refl.
    simpl. now apply str_ltb_asym.
Qed.

Lemma session_join_In (s : db) (sid : Z) (x : session_position) :
  In x (session_join s sid)
  <-> exists p k,
        In p (positions s) /\ po_session_id p = Some sid
        /\ In k (keywords s) /\ kw_id k = po_keyword_id p
        /\ x = mk_session_position (po_check_date p) (po_check_time p)
                 (kw_keyword k) (po_position p) (po_url p)
                 (po_search_engine p) (po_total_results p).
Proof.
  unfold session_join. rewrite in_flat_map. split.
  - intros (p & Hp & Hx).
    destruct (po_session_id p) as [sid'|] eqn:Hs; [|destruct Hx].
    destruct (sid' =? sid) eqn:E; [|destruct Hx].
    apply Z.eqb_eq in E. subst sid'.
    apply in_map_iff in Hx. destruct Hx as (k & <- & Hk).
    apply filter_In in Hk. destruct Hk as (Hk & Hid). apply Z.eqb_eq in Hid.
    exists p, k. repeat split; assumption.
  - intros (p & k & Hp & Hs & Hk & Hid & ->).
    exists p. split; [exact Hp|]. rewrite Hs, Z.eqb_refl.
    apply in_map_iff. exists k. split; [reflexivity|].
    apply filter_In. split; [exact Hk|]. apply Z.eqb_eq. exact Hid.
Qed.

Lemma get_session_positions_In (s : db) (sid : Z) (x : session_position) :
  In x (get_session_positions s sid) <-> In x (session_join s sid).
Proof.
  unfold get_session_positions. split; apply Permutation_in.
  - apply sorted_perm.
  - apply Permutation_sym, sorted_perm.
Qed.

Lemma save_position_stores_row (s : db) pid kid d t p u n e (sid : Z) :
  exists id,
    In (mk_position id pid kid (Some sid) d t p u n e)
      (positions (fst (save_position s pid kid d t p u n e (Some sid)))).
Proof.
  unfold save_position.
  destruct (find _ (positions s)) as [found|] eqn:Hfind;
    cbn [fst positions set_positions].
  - apply find_some in Hfind. destruct Hfind as [Hin Hkey].
    destruct (position_key_eqb_true _ _ _ _ found Hkey) as (Hp & Hk & Hd & He).
    exists (po_id found). unfold update_where.
    apply in_map_iff. exists found. split; [|exact Hin].
    rewrite Z.eqb_refl. cbn [coalesce]. now rewrite Hp, Hk, Hd, He.
  - eexists. apply in_or_app. right. left. reflexivity.
Qed.

Lemma save_position_other_sessions (s : db) pid kid d t p u n e (sid sid' : Z)
    (r : position_row) :
  sid' <> sid ->
  In r (positions (fst (save_position s pid kid d t p u n e (Some sid)))) ->
  po_session_id r = Some sid' ->
  In r (positions s).
Proof.
  intros Hne. unfold save_position.
  destruct (find _ (positions s)) as [found|];
    cbn [fst positions set_positions].
  - unfold update_where. intros Hin Hs.
    apply in_map_iff in Hin. destruct Hin as (r0 & Hr & Hr0).
    destruct (po_id r0 =? po_id found); [|now subst r].
    subst r. cbn in Hs. congruence.
  - intros Hin Hs. apply in_app_or in Hin.
    destruct Hin as [Hin|[<-|[]]]; [exact Hin|].
    cbn in Hs. congruence.
Qed.

(** X23.  A position saved under a session for a keyword id that has a
    keyword row is listed by [get_session_positions] for that session, with
    the keyword's text and the date, time, position, url, search engine and
    total saved; the call adds nothing to the listing of any other session;
    and a listing is ascending by (check_time, keyword). *)
Theorem session_positions_round_trip :
  forall (s : db) (pid kid : Z) (d t : string) (p : option Z)
         (u : option string) (n : Z) (e : string) (sid : Z)
         (keyword : keyword_row),
    In keyword (keywords s) -> kw_id keyword = kid ->
    let s' := fst (save_position s pid kid d t p u n e (Some sid)) in
    In (mk_session_position d t (kw_keyword keyword) p u e n)
      (get_session_positions s' sid)
    /\ (forall sid' x, sid' <> sid ->
          In x (get_session_positions s' sid') ->
          In x (get_session_positions s sid'))
    /\ Sorted (fun a b => session_position_ltb b a = false)
         (get_session_positions s' sid).
Proof.
  intros s pid kid d t p u n e sid keyword Hk Hid s'.
  destruct (save_position_frame s pid kid d t p u n e (Some sid))
    as (Hkw & _).
  fold s' in Hkw.
  split; [|split].
  - apply get_session_positions_In, session_join_In.
    destruct (save_position_stores_row s pid kid d t p u n e sid) as (id & Hin).
    eexists. exists keyword. split; [exact Hin|]. split; [reflexivity|].
    split; [rewrite Hkw; exact Hk|]. split; [exact Hid|reflexivity].
  - intros sid' x Hne Hx.
    apply get_session_positions_In, session_join_In in Hx.
    destruct Hx as (r & k & Hr & Hs & Hk' & Hid' & ->).
    apply get_session_positions_In, session_join_In.
    exists r, k. split.
    + exact (save_position_other_sessions s pid kid d t p u n e sid sid' r
               Hne Hr Hs).
    + split; [exact Hs|]. split; [rewrite <- Hkw; exact Hk'|].
      split; [exact Hid'|reflexivity].
  - apply sorted_Sorted, session_position_ltb_asym.
Qed.

Lemma session_positions_round_trip_witness :
  In (mk_session_position "2024-05-01" "10:00:00" "k1" (Some 7) None "yandex"
        100)
    (get_session_positions
       (fst (save_position
               (fst (get_or_create_keyword store_with_session 1 "k1"))
               1 1 "2024-05-01" "10:00:00" (Some 7) None 100 "yandex" (Some 1)))
       1).
Proof.
  exact (proj1 (session_positions_round_trip
                  (fst (get_or_create_keyword store_with_session 1 "k1"))
                  1 1 "2024-05-01" "10:00:00" (Some 7) None 100 "yandex" 1
                  (mk_keyword 1 1 "k1" true) (or_introl eq_refl) eq_refl)).
Defined.

(** ** One day of observations *)

Lemma filter_key_unique {A K : Type} (key : A -> K) (f : A -> bool)
    (l : list A) :
  NoDup (map key l) ->
  (forall a b, f a = true -> f b = true -> key a = key b) ->
  (length (filter f l) <= 1)%nat.
Proof.
  intros Hnd Hkey. induction l as [|x l IH]; [cbn; lia|].
  inversion Hnd as [|? ? Hnotin Hnd']; subst.
  cbn [filter]. destruct (f x) eqn:Hx; [|exact (IH Hnd')].
  rewrite filter_none; [cbn; lia|].
  intros y Hy. destruct (f y) eqn:Hfy; [|reflexivity].
  exfalso. apply Hnotin. rewrite (Hkey x y Hx Hfy). now apply in_map.
Qed.

Lemma filter_flat_map_bound {A B : Type} (f : B -> bool) (g : A -> bool)
    (J : A -> list B) (l : list A) :
  (forall p, In p l ->
             (length (filter f (J p)) <= if g p then 1 else 0)%nat) ->
  (length (filter f (flat_map J l)) <= length (filter g l))%nat.
Proof.
  induction l as [|p l IH]; intros H; [cbn; lia|].
  cbn [flat_map filter]. rewrite filter_app, length_app.
  pose proof (H p (or_introl eq_refl)) as Hp.
  assert (IH' : (length (filter f (flat_map J l)) <= length (filter g l))%nat)
    by (apply IH; intros q Hq; apply H; right; exact Hq).
  destruct (g p); cbn [length]; lia.
Qed.

Lemma history_join_In (s : db) (domain cutoff : string) (x : history_record) :
  In x (history_join s domain cutoff)
  <-> exists p k pr,
        In p (positions s) /\ Py.str_ltb (po_check_date p) cutoff = false
        /\ In k (keywords s) /\ kw_id k = po_keyword_id p
        /\ In pr (projects s) /\ pr_id pr = po_project_id p
        /\ pr_domain pr = domain
        /\ x = mk_record (po_check_date p) (po_check_time p) (kw_keyword k)
                 (po_position p).
Proof.
  unfold history_join. rewrite in_flat_map. split.
  - intros (p & Hp & Hx).
    destruct (Py.str_ltb (po_check_date p) cutoff) eqn:Hw; [destruct Hx|].
    cbn [negb] in Hx. apply in_flat_map in Hx. destruct Hx as (k & Hk & Hx).
    apply in_map_iff in Hx. destruct Hx as (pr & <- & Hpr).
    apply filter_In in Hk. destruct Hk as (Hk & Hid). apply Z.eqb_eq in Hid.
    apply filter_In in Hpr. destruct Hpr as (Hpr & Hm).
    apply andb_true_iff in Hm. destruct Hm as (Hpid & Hdom).
    apply Z.eqb_eq in Hpid. apply String.eqb_eq in Hdom.
    exists p, k, pr. repeat split; assumption.
  - intros (p & k & pr & Hp & Hw & Hk & Hid & Hpr & Hpid & Hdom & ->).
    exists p. split; [exact Hp|]. rewrite Hw. cbn [negb].
    apply in_flat_map. exists k. split.
    + apply filter_In. split; [exact Hk|]. apply Z.eqb_eq. exact Hid.
    + apply in_map_iff. exists pr. split; [reflexivity|].
      apply filter_In. split; [exact Hpr|].
      apply andb_true_iff. split; [apply Z.eqb_eq; exact Hpid|].
      apply String.eqb_eq. exact Hdom.
Qed.

Lemma filter_length_perm {A : Type} (f : A -> bool) (l l' : list A) :
  Permutation l l' -> length (filter f l) = length (filter f l').
Proof.
  intros H. induction H as [|x l l' H IH|x y l|l l' l'' H1 IH1 H2 IH2].
  - reflexivity.
  - cbn [filter]. destruct (f x); cbn [length]; now rewrite IH.
  - cbn [filter]. destruct (f x), (f y); reflexivity.
  - now rewrite IH1.
Qed.

Lemma NoDup_map_key {A K : Type} (key : A -> K) (l : list A) (a b : A) :
  NoDup (map key l) -> In a l -> In b l -> key a = key b -> a = b.
Proof.
  induction l as [|x l IH]; cbn [map In]; intros Hnd Ha Hb Hkey; [tauto|].
  inversion Hnd as [|? ? Hnotin Hnd']; subst.
  destruct Ha as [->|Ha], Hb as [->|Hb]; auto.
  - exfalso. apply Hnotin. rewrite Hkey. now apply in_map.
  - exfalso. apply Hnotin. rewrite <- Hkey. now apply in_map.
Qed.

Section OneDay.
Variables (s : db) (domain date search_engine : string).
Hypothesis Hdomains : project_domains_unique s.
Hypothesis Hids : keyword_ids_unique s.
Hypothesis Htexts : keyword_texts_unique s.
Hypothesis Hrefs : keyword_references_ok s.
Hypothesis Hpositions : positions_unique s.
Hypothesis Hday : observed_on_one_day s domain date search_engine.

Lemma project_of_domain (pr pr' : project_row) :
  In pr (projects s) -> In pr' (projects s) ->
  pr_domain pr = domain -> pr_domain pr' = domain -> pr = pr'.
Proof.
  intros Hin Hin' Hd Hd'.
  apply (NoDup_map_key pr_domain (projects s)); try assumption. congruence.
Qed.

Lemma history_join_one_per_keyword (cutoff keyword : string) :
  (length (records_of keyword (history_join s domain cutoff)) <= 1)%nat.
Proof.
  destruct (records_of keyword (history_join s domain cutoff))
    as [|x0 rest] eqn:Hrec; [cbn; lia|].
  rewrite <- Hrec.
  assert (Hx0 : In x0 (records_of keyword (history_join s domain cutoff)))
    by (rewrite Hrec; left; reflexivity).
  unfold records_of in Hx0. apply filter_In in Hx0.
  destruct Hx0 as (Hx0 & Hkw0). apply String.eqb_eq in Hkw0.
  apply history_join_In in Hx0.
  destruct Hx0 as (p0 & k0 & pr0 & Hp0 & _ & Hk0 & Hid0 & Hpr0 & Hpid0 & Hdom0
                   & ->).
  cbn [h_keyword] in Hkw0. clear Hrec rest.
  unfold records_of, history_join.
  etransitivity;
    [|exact (Hpositions (po_project_id p0) (po_keyword_id p0) date
               search_engine)].
  unfold rows_with_key. apply filter_flat_map_bound. intros p Hp.
  destruct (Py.str_ltb (po_check_date p) cutoff); cbn [negb];
    [cbn; destruct (position_key_eqb _ _ _ _ p); lia|].
  assert (Hkws : (length (filter (fun k => Z.eqb (kw_id k) (po_keyword_id p))
                            (keywords s)) <= 1)%nat).
  { apply (filter_key_unique kw_id); [exact Hids|].
    intros a b Ha Hb. apply Z.eqb_eq in Ha, Hb. congruence. }
  assert (Hprs : (length (filter (fun pr => Z.eqb (pr_id pr) (po_project_id p)
                                            && String.eqb (pr_domain pr) domain)
                            (projects s)) <= 1)%nat).
  { apply (filter_key_unique pr_domain); [exact Hdomains|].
    intros a b Ha Hb.
    apply andb_true_iff in Ha, Hb. destruct Ha as (_ & Ha), Hb as (_ & Hb).
    apply String.eqb_eq in Ha, Hb. congruence. }
  destruct (filter (fun k => kw_id k =? po_keyword_id p) (keywords s))
    as [|k [|k' ks]] eqn:Hfk; [cbn; destruct (position_key_eqb _ _ _ _ p); lia
                              | |cbn in Hkws; lia].
  destruct (filter (fun pr => (pr_id pr =? po_project_id p)
                              && String.eqb (pr_domain pr) domain) (projects s))
    as [|pr [|pr' prs]] eqn:Hfp; [cbn; destruct (position_key_eqb _ _ _ _ p); lia
                                 | |cbn in Hprs; lia].
  cbn [flat_map map app filter h_keyword].
  destruct (String.eqb (kw_keyword k) keyword) eqn:Hkw;
    [|cbn; destruct (position_key_eqb _ _ _ _ p); lia].
  apply String.eqb_eq in Hkw.
  assert (Hk : In k (keywords s) /\ kw_id k = po_keyword_id p).
  { assert (H : In k (filter (fun k => kw_id k =? po_keyword_id p)
                        (keywords s))) by (rewrite Hfk; left; reflexivity).
    apply filter_In in H. destruct H as (H & E). apply Z.eqb_eq in E.
    split; assumption. }
  assert (Hpr : In pr (projects s) /\ pr_id pr = po_project_id p
                /\ pr_domain pr = domain).
  { assert (H : In pr (filter (fun pr => (pr_id pr =? po_project_id p)
                                         && String.eqb (pr_domain pr) domain)
                         (projects s))) by (rewrite Hfp; left; reflexivity).
    apply filter_In in H. destruct H as (H & E).
    apply andb_true_iff in E. destruct E as (E1 & E2).
    apply Z.eqb_eq in E1. apply String.eqb_eq in E2. repeat split; assumption. }
  destruct Hk as (Hk & Hid). destruct Hpr as (Hpr & Hpid & Hdom).
  pose proof (project_of_domain pr pr0 Hpr Hpr0 Hdom Hdom0) as Hsame.
  assert (Hproject : po_project_id p = po_project_id p0) by congruence.
  assert (Hkeyword : po_keyword_id p = po_keyword_id p0).
  { rewrite <- Hid, <- Hid0. apply Htexts; try assumption.
    - rewrite (Hrefs p k Hp Hk Hid), (Hrefs p0 k0 Hp0 Hk0 Hid0). exact Hproject.
    - congruence. }
  destruct (Hday p pr Hp Hpr Hpid Hdom) as (Hd & He).
  replace (position_key_eqb (po_project_id p0) (po_keyword_id p0) date
             search_engine p) with true; [cbn; lia|].
  symmetry. unfold position_key_eqb.
  rewrite Hproject, Hkeyword, Hd, He, !Z.eqb_refl, !String.eqb_refl.
  reflexivity.
Qed.

Lemma history_one_per_keyword (cutoff keyword : string) :
  (length (records_of keyword (get_position_history s domain cutoff)) <= 1)%nat.
Proof.
  unfold get_position_history, records_of.
  rewrite (filter_length_perm _ _ _ (sorted_perm history_ltb _)).
  apply history_join_one_per_keyword.
Qed.

End OneDay.

Lemma position_drop_of_few (k : string) (rs : list history_record) :
  (length rs <= 1)%nat -> position_drop_of k rs = [].
Proof.
  intros Hlen. unfold position_drop_of.
  replace (min_check_frequency <=? length (sort_records rs))%nat with false;
    [reflexivity|].
  symmetry. apply Nat.leb_gt. rewrite sort_records_length.
  unfold min_check_frequency. lia.
Qed.

Lemma displacement_of_few (k : string) (rs : list history_record) :
  (length rs <= 1)%nat -> displacement_of k rs = [].
Proof.
  intros Hlen. unfold displacement_of.
  replace (length rs <? 2)%nat with true; [reflexivity|].
  symmetry. apply Nat.ltb_lt. lia.
Qed.

Lemma detect_displacements_keyword (history : list history_record)
    (k : string) :
  threats_of k (detect_displacements history)
  = if (length history <? 2)%nat then []
    else displacement_of k (records_of k history).
Proof.
  unfold detect_displacements.
  destruct (length history <? 2)%nat; [reflexivity|].
  rewrite (threats_of_flat_map displacement_of).
  - rewrite group_by_keyword_lookup.
    destruct (records_of k history); reflexivity.
  - intros k' rs t. apply displacement_keyword.
  - apply group_fold_NoDup. constructor.
Qed.

Lemma no_threats_of_any_keyword (threats : list threat) :
  (forall k, threats_of k threats = []) -> threats = [].
Proof.
  destruct threats as [|t rest]; [reflexivity|].
  intros H. specialize (H (th_keyword t)). unfold threats_of in H.
  cbn [filter] in H. rewrite String.eqb_refl in H. discriminate H.
Qed.

(** X24.  On a store with its keys intact (one project row per domain, one
    keyword row per id and per text of a project, keyword references within
    the project, one position row per key), a domain whose stored positions
    are all of one date and one search engine has at most one observation
    per keyword in every history window, and the analysis of it reports no
    threat and no recommendation, however often that day's check was
    repeated. *)
Theorem single_day_reports_no_threat :
  forall (s : db) (domain date search_engine : string),
    project_domains_unique s -> keyword_ids_unique s ->
    keyword_texts_unique s -> keyword_references_ok s ->
    positions_unique s ->
    observed_on_one_day s domain date search_engine ->
    forall cutoff7 cutoff30 : string,
      (forall keyword,
          (length (records_of keyword (get_position_history s domain cutoff30))
           <= 1)%nat)
      /\ analyze_stored_project s domain cutoff7 cutoff30 = mk_analysis [] [].
Proof.
  intros s domain date search_engine H1 H2 H3 H4 H5 H6 cutoff7 cutoff30.
  pose proof (history_one_per_keyword s domain date search_engine
                H1 H2 H3 H4 H5 H6) as Hone.
  split; [intros keyword; apply Hone|].
  unfold analyze_stored_project, analyze_project.
  assert (Hdrops : analyze_position_changes
                     (get_position_history s domain cutoff7) = []).
  { apply no_threats_of_any_keyword. intros k.
    rewrite analyze_position_changes_keyword.
    apply position_drop_of_few, Hone. }
  assert (Hdisp : detect_displacements
                    (get_position_history s domain cutoff30) = []).
  { apply no_threats_of_any_keyword. intros k.
    rewrite detect_displacements_keyword.
    destruct (_ <? _)%nat; [reflexivity|].
    apply displacement_of_few, Hone. }
  rewrite Hdrops, Hdisp. reflexivity.
Qed.

Lemma single_day_reports_no_threat_witness :
  map (fun r => (po_keyword_id r, po_check_time r, po_position r))
    (positions after_two_keywords)
  = [(1, "15:30:00", Some 4); (2, "15:30:00", Some 4)]
  /\ map (fun r => (po_keyword_id r, po_check_time r, po_position r))
       (positions after_evening_check)
     = [(1, "18:00:00", Some 30); (2, "18:00:00", Some 30)]
  /\ analyze_stored_project after_evening_check "example.com" "2024-04-24"
       "2024-04-01" = mk_analysis [] [].
Proof.
  split; [reflexivity|]. split; [reflexivity|].
  assert (Hprojects : projects after_evening_check
                      = [mk_project 1 "Example" "example.com"])
    by reflexivity.
  assert (Hkeywords : keywords after_evening_check
                      = [mk_keyword 1 1 "k1" true; mk_keyword 2 1 "k2" true])
    by reflexivity.
  assert (Hpositions :
            positions after_evening_check
            = [mk_position 1 1 1 None "2024-05-01" "18:00:00" (Some 30)
                 (Some "https://example.com/page") 100 "yandex";
               mk_position 2 1 2 None "2024-05-01" "18:00:00" (Some 30)
                 (Some "https://example.com/page") 100 "yandex"])
    by reflexivity.
  apply (single_day_reports_no_threat after_evening_check "example.com"
           "2024-05-01" "yandex").
  - unfold project_domains_unique. rewrite Hprojects.
    repeat constructor. intros [].
  - unfold keyword_ids_unique. rewrite Hkeywords.
    repeat constructor; cbn; intuition discriminate.
  - unfold keyword_texts_unique. rewrite Hkeywords.
    intros k1 k2 [<-|[<-|[]]] [<-|[<-|[]]] _ Htext;
      first [reflexivity | discriminate Htext].
  - unfold keyword_references_ok. rewrite Hkeywords, Hpositions.
    intros p k [<-|[<-|[]]] [<-|[<-|[]]] _; reflexivity.
  - intros pid kid d e. unfold rows_with_key. rewrite Hpositions.
    match goal with
    | |- context [filter _ [?a; ?b]] =>
        pose proof (position_key_eqb_true pid kid d e a) as K1;
        pose proof (position_key_eqb_true pid kid d e b) as K2
    end.
    cbn [filter].
    do 2 destruct (position_key_eqb pid kid d e _); cbn [length]; try lia.
    specialize (K1 eq_refl). specialize (K2 eq_refl). cbn in K1, K2. lia.
  - unfold observed_on_one_day. rewrite Hpositions.
    intros p pr [<-|[<-|[]]] _ _ _; split; reflexivity.
Defined.

(** * The response of the search API *)

Lemma parse_groups_range (limit : Z) (groups : list (option group)) :
  forall position r,
    In r (parse_groups limit position groups) ->
    position <= sr_position r <= limit.
Proof.
  induction groups as [|g rest IH]; intros position r; [intros []|].
  cbn [parse_groups]. destruct (limit <? position) eqn:E; [intros []|].
  apply Z.ltb_ge in E.
  destruct g as [d|].
  - intros [<-|Hin]; [cbn; lia|]. specialize (IH _ _ Hin). lia.
  - intros Hin. specialize (IH _ _ Hin). lia.
Qed.

Lemma parse_groups_ascending (limit : Z) (groups : list (option group)) :
  forall position,
    StronglySorted Z.lt (map sr_position (parse_groups limit position groups)).
Proof.
  induction groups as [|g rest IH]; intros position; [constructor|].
  cbn [parse_groups]. destruct (limit <? position); [constructor|].
  destruct g as [d|]; [|apply IH].
  cbn [map sr_position]. constructor; [apply IH|].
  apply Forall_forall. intros p Hp. apply in_map_iff in Hp.
  destruct Hp as (r & <- & Hr).
  pose proof (parse_groups_range _ _ _ _ Hr). lia.
Qed.

Lemma parsed_range (xml : option response) (limit : Z) (r : search_result) :
  In r (_parse_all_search_results xml limit) -> 1 <= sr_position r <= limit.
Proof.
  unfold _parse_all_search_results.
  destruct xml as [resp|]; [|intros []].
  destruct (rp_error resp); [intros []|].
  apply parse_groups_range.
Qed.

(** X25.  The results parsed from a response are numbered by the rank of
    their group: the positions are between 1 and the limit and strictly
    ascending, gaps standing for groups without a document.  With the
    parser's limit of 100, [get_yandex_position] therefore reports a
    position between 1 and 101, 'found' holds exactly when some result
    matches the domain, and every competitor it returns has a position
    between 1 and 100. *)
Theorem parsed_positions_in_range :
  forall (domains_match : option string -> string -> bool) (domain : string)
         (xml : option response) (include_competitors : bool)
         (competitors_limit : Z),
    let results := _parse_all_search_results xml max_results in
    let answer := position_in_response domains_match domain xml
                    include_competitors competitors_limit in
    (forall r, In r results -> 1 <= sr_position r <= 100)
    /\ StronglySorted Z.lt (map sr_position results)
    /\ 1 <= yr_position answer <= 101
    /\ (yr_found answer = true
        <-> exists r, In r results
                      /\ domains_match (sr_domain r) domain = true)
    /\ (forall competitors c,
          yr_competitors answer = Some competitors -> In c competitors ->
          exists p, c_position c = Some p /\ 1 <= p <= 100).
Proof.
  intros dm domain xml include climit results answer.
  assert (Hrange : forall r, In r results -> 1 <= sr_position r <= 100)
    by (intros r; apply parsed_range).
  split; [exact Hrange|]. split.
  { subst results. unfold _parse_all_search_results.
    destruct xml as [resp|]; [|constructor].
    destruct (rp_error resp); [constructor|]. apply parse_groups_ascending. }
  subst answer. unfold position_in_response. fold results.
  split; [|split].
  - unfold get_yandex_position. cbn [yr_position].
    destruct (find _ results) as [own|] eqn:Hfind; cbn [option_map]; [|lia].
    apply find_some in Hfind. destruct Hfind as (Hin & _).
    specialize (Hrange own Hin). lia.
  - unfold get_yandex_position. cbn [yr_found].
    destruct (find _ results) as [own|] eqn:Hfind; cbn [option_map].
    + apply find_some in Hfind. destruct Hfind as (Hin & Hm).
      split; [intros _; exists own; split; assumption|].
      intros _. apply Z.leb_le. specialize (Hrange own Hin). lia.
    + split; [discriminate|]. intros (r & Hin & Hm).
      rewrite (find_none_all _ _ Hfind r Hin) in Hm. discriminate Hm.
  - intros competitors c Hcs Hc.
    destruct include; [|discriminate Hcs].
    destruct (0 <? climit) eqn:Hpos.
    + apply Z.ltb_lt in Hpos.
      rewrite (yandex_competitors_closed dm domain results climit Hpos) in Hcs.
      injection Hcs as <-.
      apply In_firstn in Hc. apply in_map_iff in Hc.
      destruct Hc as (r & <- & Hr). apply filter_In in Hr.
      destruct Hr as (Hr & _). apply In_firstn in Hr.
      exists (sr_position r). split; [reflexivity|exact (Hrange r Hr)].
    + unfold get_yandex_position in Hcs. cbn [yr_competitors andb] in Hcs.
      rewrite Hpos in Hcs. injection Hcs as <-. destruct Hc.
Qed.
